(** * Hadros: the SQL rendering core (query builder, expression builder,
      condition compiler, template formatter, escaping primitives)

    A shallow embedding of [src/sqlString.ts], [src/utils.ts], [src/expr.ts],
    [src/messages.ts] and [src/query.ts], followed by the properties stated
    about them.

    Conventions of the embedding.
    - A JavaScript string is a [string]: a sequence of code units below 256.
    - A JavaScript number is an integer [Z] (a row count, an id); it is
      printed in decimal, as JavaScript prints integers below 2^53.
    - A JavaScript object used as a record or dictionary is an association
      list in enumeration order; names inherited from [Object.prototype]
      are not part of the model.  [Date] values and objects carrying their
      own [toString] are not part of the model either.
    - A thrown exception is a value of type [error]; a method that may throw
      after it has already assigned to [this._data] returns the state it
      reached together with the exception. *)

From Stdlib Require Import ZArith Ascii String List Bool Lia DecimalString.
From stdpp Require Import gmap strings list.

Local Open Scope Z_scope.
Local Open Scope stdpp_scope.

(** ** JavaScript strings *)

Module JS.

Definition chr (n : nat) : ascii := ascii_of_nat n.

Definition str1 (c : ascii) : string := String c EmptyString.

(** The double quote, the new line and the other characters that cannot be
    written inside a literal. *)
Definition dq : string := str1 (chr 34).
Definition nl : string := str1 (chr 10).

Fixpoint rev_append (s acc : string) : string :=
  match s with
  | EmptyString => acc
  | String c s' => rev_append s' (String c acc)
  end.

Definition is_empty (s : string) : bool :=
  match s with EmptyString => true | _ => false end.

(** [WhiteSpace] and [LineTerminator] code units below 256. *)
Definition is_ws (c : ascii) : bool :=
  let n := nat_of_ascii c in
  ((9 <=? n)%nat && (n <=? 13)%nat) || (n =? 32)%nat || (n =? 160)%nat.

Fixpoint trimStart (s : string) : string :=
  match s with
  | EmptyString => EmptyString
  | String c s' => if is_ws c then trimStart s' else s
  end.

Fixpoint trimEnd (s : string) : string :=
  match s with
  | EmptyString => EmptyString
  | String c s' =>
      let r := trimEnd s' in
      if is_empty r && is_ws c then EmptyString else String c r
  end.

(** [String.prototype.trim] *)
Definition trim (s : string) : string := trimEnd (trimStart s).

(** [Array.prototype.join] on an array of strings *)
Fixpoint join (sep : string) (l : list string) : string :=
  match l with
  | [] => EmptyString
  | [x] => x
  | x :: r => x +:+ sep +:+ join sep r
  end.

(** [s.replace(/c/g, by)] for a one-character pattern *)
Fixpoint replaceChar (c : ascii) (by_ : string) (s : string) : string :=
  match s with
  | EmptyString => EmptyString
  | String x s' =>
      if Ascii.eqb x c then by_ +:+ replaceChar c by_ s'
      else String x (replaceChar c by_ s')
  end.

(** lower case of an ASCII letter; case-insensitive matching of an ASCII
    pattern never equates a letter with a code unit above 127 *)
Definition lower (c : ascii) : ascii :=
  let n := nat_of_ascii c in
  if (65 <=? n)%nat && (n <=? 90)%nat then ascii_of_nat (n + 32) else c.

Definition eqb_ci (a b : ascii) : bool := Ascii.eqb (lower a) (lower b).

(** [pat] matches at the start of [s], ignoring case *)
Fixpoint prefix_ci (pat s : string) : bool :=
  match pat, s with
  | EmptyString, _ => true
  | String p pat', String c s' => eqb_ci p c && prefix_ci pat' s'
  | String _ _, EmptyString => false
  end.

Fixpoint startsWith (pat s : string) : bool :=
  match pat, s with
  | EmptyString, _ => true
  | String p pat', String c s' => Ascii.eqb p c && startsWith pat' s'
  | String _ _, EmptyString => false
  end.

(** [s.toLowerCase().indexOf(pat) !== -1] for a lower-case ASCII [pat] *)
Fixpoint includes_ci (pat s : string) : bool :=
  prefix_ci pat s ||
  match s with
  | EmptyString => false
  | String _ s' => includes_ci pat s'
  end.

(** [s.slice(n)] *)
Fixpoint slice (n : nat) (s : string) : string :=
  match n, s with
  | O, _ => s
  | S n', String _ s' => slice n' s'
  | S _, EmptyString => EmptyString
  end.

(** [s.replace(/pat/gi, by)] for a literal pattern: a scan from the left
    that, at a match, emits [by_] and resumes after the match.  [skip]
    counts the characters of the current match still to be passed over. *)
Fixpoint replaceAll_ci (pat by_ : string) (skip : nat) (s : string) : string :=
  match s with
  | EmptyString => EmptyString
  | String c s' =>
      match skip with
      | S k => replaceAll_ci pat by_ k s'
      | O =>
          if prefix_ci pat s
          then by_ +:+ replaceAll_ci pat by_ (String.length pat - 1) s'
          else String c (replaceAll_ci pat by_ O s')
      end
  end.

(** decimal text of an integer: [`${n}`], [n + ""], [String(n)] *)
Definition ofZ (n : Z) : string := NilZero.string_of_int (Z.to_int n).

End JS.

(** ** Values

    What a caller may pass where the source says [any]. *)

Inductive error :=
| Error (msg : string)
| AssertionError (msg : string)
| TypeError (msg : string).

Inductive build_result :=
| BuildString (sql : string)      (* build() returns a string *)
| BuildOther                      (* build() returns something else *)
| BuildThrows (e : error).        (* build() throws *)

#[warnings="-register-all"]
Inductive value :=
| VUndefined
| VNull
| VBool (b : bool)
| VNum (n : Z)
| VStr (s : string)
| VArr (l : list value)
| VObj (props : list (string * value))   (* a plain object *)
| VRaw (sql : string)                    (* the object made by SqlString.raw *)
| VBuilder (own : list (string * value)) (res : build_result).
    (* an object whose prototype has build(): a QueryBuilder, an Expression,
       or any class with that method; [own] are its enumerable properties
       and [res] is what calling build() on it yields *)

Definition props := list (string * value).

(** The outcome of a call: a value, or the exception it throws.  The
    message of a failed assertion is the text passed to the assertion. *)
Inductive result (A : Type) :=
| Ok (a : A)
| Throw (e : error).
Arguments Ok {A} a.
Arguments Throw {A} e.

Definition rbind {A B} (r : result A) (k : A -> result B) : result B :=
  match r with
  | Ok a => k a
  | Throw e => Throw e
  end.

Notation "'let?' x ':=' r 'in' k" := (rbind r (fun x => k))
  (at level 10, x name, r at level 100, k at level 200, only parsing).

(** [assert(cond, msg)] *)
Definition assert (cond : bool) (msg : string) : result unit :=
  if cond then Ok tt else Throw (AssertionError msg).

Module Obj.

(** [o[k]] on own properties *)
Fixpoint get (k : string) (o : props) : option value :=
  match o with
  | [] => None
  | (k', v) :: r => if String.eqb k' k then Some v else get k r
  end.

(** [k in o], [o.hasOwnProperty(k)] *)
Definition has (k : string) (o : props) : bool :=
  match get k o with Some _ => true | None => false end.

(** [o[k]] as JavaScript reads it: [undefined] when absent *)
Definition read (k : string) (o : props) : value :=
  match get k o with Some v => v | None => VUndefined end.

(** [delete o[k]] *)
Definition remove (k : string) (o : props) : props :=
  List.filter (fun p => negb (String.eqb (fst p) k)) o.

(** [Object.keys(o)] *)
Definition keys (o : props) : list string := map fst o.

Fixpoint indexed (i : nat) (l : list value) : props :=
  match l with
  | [] => []
  | v :: r => (JS.ofZ (Z.of_nat i), v) :: indexed (S i) r
  end.

End Obj.

(** [typeof v === "object"] together with the truth test [v &&]: the
    enumerable own properties of an object value, nothing for a primitive.
    The one property of a raw fragment is its function [toSqlString], of
    which only the name is ever looked at. *)
Definition own_props (v : value) : option props :=
  match v with
  | VArr l => Some (Obj.indexed 0 l)
  | VObj o => Some o
  | VRaw sql => Some [("toSqlString", VUndefined)]
  | VBuilder own _ => Some own
  | _ => None
  end.

(** [String(v)], [`${v}`] *)
Fixpoint toString (v : value) : string :=
  match v with
  | VUndefined => "undefined"
  | VNull => "null"
  | VBool b => if b then "true" else "false"
  | VNum n => JS.ofZ n
  | VStr s => s
  | VArr l =>
      JS.join ","
        (map (fun x => match x with
                       | VUndefined | VNull => EmptyString
                       | _ => toString x
                       end) l)
  | VObj _ | VRaw _ | VBuilder _ _ => "[object Object]"
  end.

(** [JSON.parse(JSON.stringify(v))]: [undefined] and functions vanish from
    objects and become [null] inside arrays; an object keeps only its
    enumerable data, so a builder or a raw fragment comes back as a plain
    object without its methods. *)
Fixpoint jsonCopy (v : value) : value :=
  let copyProps :=
    fix copyProps (o : list (string * value)) : list (string * value) :=
      match o with
      | [] => []
      | (k, VUndefined) :: r => copyProps r
      | (k, x) :: r => (k, jsonCopy x) :: copyProps r
      end in
  match v with
  | VUndefined => VUndefined
  | VNull => VNull
  | VBool b => VBool b
  | VNum n => VNum n
  | VStr s => VStr s
  | VArr l =>
      VArr (map (fun x => match x with
                          | VUndefined => VNull
                          | _ => jsonCopy x
                          end) l)
  | VObj o => VObj (copyProps o)
  | VRaw _ => VObj []
  | VBuilder own _ => VObj (copyProps own)
  end.

(** ** [src/sqlString.ts] *)

Module SqlString.

(** [CHARS_ESCAPE_MAP] *)
Definition escapeChar (c : ascii) : string :=
  let n := nat_of_ascii c in
  if (n =? 0)%nat then "\0"
  else if (n =? 8)%nat then "\b"
  else if (n =? 9)%nat then "\t"
  else if (n =? 10)%nat then "\n"
  else if (n =? 13)%nat then "\r"
  else if (n =? 26)%nat then "\Z"
  else if (n =? 34)%nat then "\" +:+ JS.dq
  else if (n =? 39)%nat then "\'"
  else if (n =? 92)%nat then "\\"
  else JS.str1 c.

Fixpoint escapeChars (s : string) : string :=
  match s with
  | EmptyString => EmptyString
  | String c s' => escapeChar c +:+ escapeChars s'
  end.

(** [escapeString]: every character of [CHARS_GLOBAL_REGEXP] is replaced
    by its escape, the rest is copied, the whole is put between quotes *)
Definition escapeString (val : string) : string :=
  "'" +:+ escapeChars val +:+ "'".

Fixpoint escapeId (val : value) (forbidQualified : bool) : string :=
  match val with
  | VArr l => JS.join ", " (map (fun x => escapeId x forbidQualified) l)
  | _ =>
      if forbidQualified
      then "`" +:+ JS.replaceChar "`" "``" (toString val) +:+ "`"
      else "`" +:+
           JS.replaceChar "." "`.`" (JS.replaceChar "`" "``" (toString val))
           +:+ "`"
  end.

(** [escape], with [arrayToList] and [objectToValues] as its two loops.
    The time zone only matters for dates. *)
Fixpoint escape (val : value) (stringifyObjects : bool) : string :=
  let arrayToList :=
    fix arrayToList (array : list value) (i : nat) (sql : string) : string :=
      match array with
      | [] => sql
      | v :: rest =>
          match v with
          | VArr _ =>
              arrayToList rest (S i)
                (sql +:+ (if JS.is_empty sql then "" else ", ")
                     +:+ "(" +:+ escape v stringifyObjects +:+ ")")
          | _ =>
              arrayToList rest (S i)
                (sql +:+ (if (i =? 0)%nat then "" else ", ")
                     +:+ escape v true)
          end
      end in
  let objectToValues :=
    fix objectToValues (object : list (string * value)) (sql : string)
      : string :=
      match object with
      | [] => sql
      | (key, v) :: rest =>
          objectToValues rest
            (sql +:+ (if JS.is_empty sql then "" else ", ")
                 +:+ escapeId (VStr key) false +:+ " = " +:+ escape v true)
      end in
  match val with
  | VUndefined | VNull => "NULL"
  | VBool b => if b then "true" else "false"
  | VNum n => JS.ofZ n
  | VStr s => escapeString s
  | VArr l => arrayToList l O ""
  | VRaw sql => sql
  | VObj o =>
      if stringifyObjects then escapeString "[object Object]"
      else objectToValues o ""
  | VBuilder own _ =>
      if stringifyObjects then escapeString "[object Object]"
      else objectToValues own ""
  end.

(** The matches of [/\?+/g]: a template is cut into the runs of question
    marks and the text between them. *)
Inductive token :=
| Text (s : string)
| Marks (n : nat).

Fixpoint tokens (s : string) : list token :=
  match s with
  | EmptyString => []
  | String c s' =>
      if Ascii.eqb c "?"
      then match tokens s' with
           | Marks n :: r => Marks (S n) :: r
           | r => Marks 1 :: r
           end
      else match tokens s' with
           | Text t :: r => Text (String c t) :: r
           | r => Text (JS.str1 c) :: r
           end
  end.

Fixpoint marks (n : nat) : string :=
  match n with
  | O => EmptyString
  | S k => String "?" (marks k)
  end.

(** The loop of [format]: a run of one or two marks takes the next value,
    a longer run is passed over, and the scan stops with the values. *)
Fixpoint formatTokens (ts : list token) (values : list value) : string :=
  match ts with
  | [] => EmptyString
  | Text t :: r => t +:+ formatTokens r values
  | Marks len :: r =>
      match values with
      | [] => marks len +:+ formatTokens r []
      | v :: vs =>
          if (2 <? len)%nat then marks len +:+ formatTokens r values
          else (if (len =? 2)%nat then escapeId v false else escape v false)
               +:+ formatTokens r vs
      end
  end.

(** [format(sql, vals)] for an array [vals] *)
Definition format (sql : string) (vals : list value) : string :=
  formatTokens (tokens sql) vals.

End SqlString.

(** ** [src/messages.ts] *)

Module Messages.

Definition conditionCannotBeEmpty : string :=
  "Condition for modification operation cannot be empty".

Definition functionWithWrongRowCount
    (functionName : string) (numberInsertedRows : Z) : string :=
  functionName +:+ "() must have inserted one row, but actually inserted "
    +:+ JS.ofZ numberInsertedRows +:+ " rows".

Definition methodMustReturnString
    (methodName valueIndex : string) (operator : option string) : string :=
  match operator with
  | Some op =>
      methodName +:+ ": values[" +:+ valueIndex +:+ "]." +:+ op
        +:+ ".build() must return a string"
  | None =>
      methodName +:+ ": values[" +:+ valueIndex
        +:+ "].build() must return a string"
  end.

Definition undefinedValueConditionalKeys (keys : list string) : string :=
  "Found undefined value for condition keys " +:+ JS.join "," keys
    +:+ "; it may cause unexpected errors".

End Messages.

(** ** [src/utils.ts] *)

Module utils.

Definition isQueryBuilder (query : value) : bool :=
  match query with
  | VBuilder _ _ => true
  | _ => false
  end.

Definition sqlEscape (v : value) : string := SqlString.escape v false.

Definition sqlEscapeId (v : value) : string := SqlString.escapeId v false.

(** [values[index]] *)
Definition at_ (values : list value) (index : nat) : value :=
  nth index values VUndefined.

(** [values.splice(index, 1)] *)
Fixpoint splice1 (values : list value) (index : nat) : list value :=
  match values, index with
  | [], _ => []
  | _ :: r, O => r
  | v :: r, S i => v :: splice1 r i
  end.

(** The callback of [tpl.replace(/\?+/g, ...)] in [sqlFormat], run over
    the matches from the left.  [next] is the value [index] takes at the
    coming match, one more than the [index] of the source. *)
Fixpoint sqlFormatTokens
    (ts : list SqlString.token) (values : list value) (next : nat)
  : result (string * list value) :=
  match ts with
  | [] => Ok (EmptyString, values)
  | SqlString.Text t :: r =>
      let? p := sqlFormatTokens r values next in
      Ok (t +:+ fst p, snd p)
  | SqlString.Marks len :: r =>
      let index := next in
      let v := at_ values index in
      if negb (len =? 3)%nat then
        let? p := sqlFormatTokens r values (S index) in
        Ok (SqlString.marks len +:+ fst p, snd p)
      else
        match v with
        | VStr s =>
            let? p := sqlFormatTokens r (splice1 values index) index in
            Ok (s +:+ fst p, snd p)
        | VBuilder _ res =>
            match res with
            | BuildString sql =>
                let? p := sqlFormatTokens r (splice1 values index) index in
                Ok ("(" +:+ sql +:+ ")" +:+ fst p, snd p)
            | BuildOther =>
                Throw (AssertionError
                         ("sqlFormat: values[" +:+ JS.ofZ (Z.of_nat index)
                            +:+ "].build() must return a string"))
            | BuildThrows e => Throw e
            end
        | _ =>
            Throw (Error
                     ("sqlFormat: values[" +:+ JS.ofZ (Z.of_nat index)
                        +:+ "] for ??? must be a string or QueryBuilder instance but got "
                        +:+ toString v))
        end
  end.

Definition sqlFormat (tpl : string) (values : list value) : result string :=
  let? p := sqlFormatTokens (SqlString.tokens tpl) values O in
  Ok (SqlString.format (fst p) (snd p)).

(** [[\w$]] *)
Definition isWord (c : ascii) : bool :=
  let n := nat_of_ascii c in
  ((48 <=? n)%nat && (n <=? 57)%nat) || ((65 <=? n)%nat && (n <=? 90)%nat)
  || ((97 <=? n)%nat && (n <=? 122)%nat) || (n =? 95)%nat || (n =? 36)%nat.

Fixpoint takeWord (s : string) : string :=
  match s with
  | EmptyString => EmptyString
  | String c s' => if isWord c then String c (takeWord s') else EmptyString
  end.

Definition startsColon (s : string) : bool :=
  match s with
  | String c _ => Ascii.eqb c ":"
  | EmptyString => false
  end.

Definition wordAfter (colons : nat) (s : string) : option (nat * string) :=
  let w := takeWord s in
  if JS.is_empty w then None else Some (colons, w).

(** The match of [/:((:){0,2}[\w$]+)/] at the start of [s]: the number of
    colons of the key and the name after them.  A colon followed by three
    or more colons matches nothing at this position. *)
Definition matchNamed (s : string) : option (nat * string) :=
  match s with
  | String c r0 =>
      if negb (Ascii.eqb c ":") then None
      else if negb (startsColon r0) then wordAfter 0 r0
      else
        let r1 := JS.slice 1 r0 in
        if negb (startsColon r1) then wordAfter 1 r1
        else wordAfter 2 (JS.slice 1 r1)
  | EmptyString => None
  end.

(** what the callback of [sqlFormatObject] returns for one match *)
Definition namedReplacement
    (values : props) (disable : bool) (colons : nat) (name : string)
  : result string :=
  let txt := ":" +:+
             (match colons with
              | O => EmptyString
              | S O => ":"
              | _ => "::"
              end) +:+ name in
  if Obj.has name values then
    if disable then Ok (toString (Obj.read name values))
    else
      match colons with
      | S O => Ok (sqlEscapeId (Obj.read name values))
      | S (S _) =>
          match Obj.read name values with
          | VStr s => Ok s
          | VBuilder _ res =>
              match res with
              | BuildString sql => Ok ("(" +:+ sql +:+ ")")
              | BuildOther =>
                  Throw (AssertionError
                           ("sqlFormatObject: values[" +:+ JS.dq +:+ name
                              +:+ JS.dq +:+ "].build() must return a string"))
              | BuildThrows e => Throw e
              end
          | v =>
              Throw (Error
                       ("sqlFormatObject: value for :::" +:+ name
                          +:+ " must be a string or QueryBuilder instance but got "
                          +:+ toString v))
          end
      | O => Ok (sqlEscape (Obj.read name values))
      end
  else Ok txt.

Fixpoint sqlFormatObjectFrom
    (values : props) (disable : bool) (skip : nat) (sql : string)
  : result string :=
  match sql with
  | EmptyString => Ok EmptyString
  | String c rest =>
      match skip with
      | S k => sqlFormatObjectFrom values disable k rest
      | O =>
          match matchNamed sql with
          | Some (colons, name) =>
              let? r := namedReplacement values disable colons name in
              let? t := sqlFormatObjectFrom values disable
                      (colons + String.length name) rest in
              Ok (r +:+ t)
          | None =>
              let? t := sqlFormatObjectFrom values disable O rest in
              Ok (String c t)
          end
      end
  end.

Definition sqlFormatObject (sql : string) (values : props) (disable : bool)
  : result string :=
  sqlFormatObjectFrom values disable O sql.

Definition findKeysForUndefinedValue (data : props) : list string :=
  Obj.keys (List.filter (fun p => match snd p with
                             | VUndefined => true
                             | _ => false
                             end) data).

(** [list.map(f)] for a callback that may throw *)
Fixpoint mapM {A B} (f : A -> result B) (l : list A) : result (list B) :=
  match l with
  | [] => Ok []
  | x :: r => let? y := f x in let? ys := mapM f r in Ok (y :: ys)
  end.

Definition sqlUpdateString (data : props) : result string :=
  let? l := mapM (fun name =>
                let info := Obj.read name data in
                let escapedName := sqlEscapeId (VStr name) in
                match own_props info with
                | Some [(op, arg)] =>
                    if String.eqb op "$incr" then
                      Ok (escapedName +:+ "=" +:+ escapedName +:+ "+("
                            +:+ sqlEscape arg +:+ ")")
                    else if String.eqb op "$decr" then
                      Ok (escapedName +:+ "=" +:+ escapedName +:+ "-("
                            +:+ sqlEscape arg +:+ ")")
                    else if String.eqb op "$raw" then
                      Ok (escapedName +:+ "=" +:+ toString arg)
                    else
                      Throw (Error ("update type " +:+ op
                                      +:+ " does not supported"))
                | _ => Ok (escapedName +:+ "=" +:+ sqlEscape info)
                end) (Obj.keys data) in
  Ok (JS.join ", " l).

Definition isPureConditionObject (info : value) : bool :=
  match own_props info with
  | Some o =>
      let keys := Obj.keys o in
      (0 <? length keys)%nat &&
      (length (List.filter (fun v => JS.startsWith "$" v) keys)
       =? length keys)%nat
  | None => false
  end.

(** the [$in] and [$notIn] cases, which differ by the keyword, the literal
    of the empty list and the operator named in the message *)
Definition inList
    (name escapedName kw empty op : string) (arg : value) : result string :=
  match arg with
  | VBuilder _ res =>
      match res with
      | BuildString sql => Ok (escapedName +:+ " " +:+ kw +:+ " (" +:+ sql +:+ ")")
      | BuildOther =>
          Throw (AssertionError
                   (Messages.methodMustReturnString
                      "sqlConditionStrings" name (Some op)))
      | BuildThrows e => Throw e
      end
  | VArr l =>
      let line := escapedName +:+ " " +:+ kw +:+ " ("
                    +:+ JS.join ", " (map sqlEscape l) +:+ ")" in
      if (0 <? length l)%nat then Ok line
      else Ok (empty +:+ " /* empty list warn: " +:+ line +:+ " */")
  | _ =>
      Throw (Error ("value for condition type $" +:+ op +:+ " in field "
                      +:+ name +:+ " must be an array"))
  end.

(** one operator of a pure condition object *)
Definition conditionOp (name escapedName op : string) (info : props)
  : result string :=
  let arg := Obj.read op info in
  if String.eqb op "$isNull" then
    match arg with
    | VBool true => Ok (escapedName +:+ " IS NULL")
    | _ => Throw (AssertionError "value of $isNull property must be true")
    end
  else if String.eqb op "$isNotNull" then
    match arg with
    | VBool true => Ok (escapedName +:+ " IS NOT NULL")
    | _ => Throw (AssertionError "value of $isNotNull property must be true")
    end
  else if String.eqb op "$lt" then Ok (escapedName +:+ "<" +:+ sqlEscape arg)
  else if String.eqb op "$lte" then Ok (escapedName +:+ "<=" +:+ sqlEscape arg)
  else if String.eqb op "$gt" then Ok (escapedName +:+ ">" +:+ sqlEscape arg)
  else if String.eqb op "$gte" then Ok (escapedName +:+ ">=" +:+ sqlEscape arg)
  else if String.eqb op "$eq" then Ok (escapedName +:+ "=" +:+ sqlEscape arg)
  else if String.eqb op "$ne" then Ok (escapedName +:+ "<>" +:+ sqlEscape arg)
  else if String.eqb op "$in" then inList name escapedName "IN" "0" "in" arg
  else if String.eqb op "$notIn" then
    inList name escapedName "NOT IN" "1" "notIn" arg
  else if String.eqb op "$like" then
    match arg with
    | VStr _ => Ok (escapedName +:+ " LIKE " +:+ sqlEscape arg)
    | _ => Throw (AssertionError
                    ("value for condition type $like in " +:+ name
                       +:+ " must be a string"))
    end
  else if String.eqb op "$notLike" then
    match arg with
    | VStr _ => Ok (escapedName +:+ " NOT LIKE " +:+ sqlEscape arg)
    | _ => Throw (AssertionError
                    ("value for condition type $notLike in " +:+ name
                       +:+ " must be a string"))
    end
  else if String.eqb op "$raw" then Ok (escapedName +:+ "=" +:+ toString arg)
  else Throw (Error ("condition type " +:+ op +:+ " does not supported")).

Definition conditionField (name : string) (info : value)
  : result (list string) :=
  let escapedName := sqlEscapeId (VStr name) in
  if isPureConditionObject info then
    match own_props info with
    | Some o => mapM (fun op => conditionOp name escapedName op o) (Obj.keys o)
    | None => Ok []
    end
  else Ok [escapedName +:+ "=" +:+ sqlEscape info].

Fixpoint sqlConditionFields (names : list string) (condition : props)
  : result (list string) :=
  match names with
  | [] => Ok []
  | name :: r =>
      let? l := conditionField name (Obj.read name condition) in
      let? ls := sqlConditionFields r condition in
      Ok (l ++ ls)
  end.

Definition sqlConditionStrings (condition : props) : result (list string) :=
  sqlConditionFields (Obj.keys condition) condition.

Definition sqlLimitString (offset limit : Z) : string :=
  if 0 <? limit then
    if 0 <? offset then "LIMIT " +:+ JS.ofZ offset +:+ "," +:+ JS.ofZ limit
    else "LIMIT " +:+ JS.ofZ limit
  else "LIMIT " +:+ JS.ofZ offset +:+ ",18446744073709551615".

Definition joinMultiString (strs : list string) : string :=
  JS.join " "
    (List.filter (fun v => negb (JS.is_empty v)) (map JS.trim strs)).

(** [deepCopy], on a value *)
Definition deepCopy (data : value) : value := jsonCopy data.

Definition formatFields (table : string) (fields : list string)
  : list string :=
  let prefix := if JS.is_empty table then EmptyString else table +:+ "." in
  map (fun n =>
         if String.eqb n "*" then prefix +:+ "*"
         else if JS.includes_ci " as " n then n
         else if JS.startsWith "`" n then prefix +:+ n
         else prefix +:+ sqlEscapeId (VStr n)) fields.

(** The [values] argument of the methods that format a template: absent,
    an array, or an object. *)
Inductive values_arg :=
| NoValues
| ArrayValues (l : list value)
| ObjectValues (o : props).

(** [format(tpl, values)] of [QueryBuilder] and of [Expression] *)
Definition format (tpl : string) (values : values_arg) : result string :=
  match values with
  | NoValues => Ok tpl
  | ArrayValues l => sqlFormat tpl l
  | ObjectValues o => sqlFormatObject tpl o false
  end.

(** [values || []] *)
Definition orEmpty (values : values_arg) : values_arg :=
  match values with
  | NoValues => ArrayValues []
  | _ => values
  end.

End utils.

(** ** [src/expr.ts] *)

Module Expression.

Record t := { _type : string; _data : string }.

(** [new Expression()] *)
Definition new : t := {| _type := ""; _data := "" |}.

(** a condition given to [and] and [or]: a string or a mapping *)
Inductive condition :=
| Text (s : string)
| Mapping (o : props).

Definition combineCondition
    (connector : string) (cond : condition) (values : utils.values_arg)
    (e : t) : result t :=
  let? _ := assert (String.eqb (_type e) "" || String.eqb (_type e) "condition")
              ("Cannot change expression type: " +:+ _type e) in
  match cond with
  | Text s =>
      let? _ := assert (negb (JS.is_empty s)) "Missing condition" in
      let? f := utils.format s (utils.orEmpty values) in
      Ok {| _type := "condition";
            _data := _data e +:+ " " +:+ connector +:+ " " +:+ f |}
  | Mapping o =>
      let keys := utils.findKeysForUndefinedValue o in
      let? _ := assert (length keys <? 1)%nat
                  (Messages.undefinedValueConditionalKeys keys) in
      let? l := utils.sqlConditionStrings o in
      Ok {| _type := "condition";
            _data := _data e +:+ " " +:+ connector +:+ " " +:+ JS.join "," l |}
  end.

Definition and_ (cond : condition) (values : utils.values_arg) (e : t)
  : result t := combineCondition "AND" cond values e.

Definition or_ (cond : condition) (values : utils.values_arg) (e : t)
  : result t := combineCondition "OR" cond values e.

Definition build (e : t) : result string :=
  let str := JS.trim (_data e) in
  let? _ := assert (negb (JS.is_empty str)) "Expression cannot be empty" in
  let str := if JS.startsWith "AND " str then JS.slice 4 str else str in
  let str := if JS.startsWith "OR " str then JS.slice 3 str else str in
  Ok ("(" +:+ str +:+ ")").

End Expression.

(** ** [src/query.ts] *)

Module JoinTable.

Inductive kind := JOIN | LEFT_JOIN | RIGHT_JOIN.

Definition kindText (k : kind) : string :=
  match k with
  | JOIN => "JOIN"
  | LEFT_JOIN => "LEFT JOIN"
  | RIGHT_JOIN => "RIGHT JOIN"
  end.

(** an entry of [joinTables] *)
Record t := {
  table : string;
  fields : list string;
  type : kind;
  on : string;
  alias : string;
}.

End JoinTable.

(** [this._data] *)
Module Data.

Record t := {
  tableName : option string;
  tableNameEscaped : option string;
  fields : list string;
  conditions : list value;
  type : string;
  update : list string;
  insert : string;
  insertRows : Z;
  delete : string;
  sql : string;
  sqlTpl : string;
  sqlValues : list value;
  orderFields : string;
  orderBy : string;
  groupBy : string;
  offsetRows : Z;
  limitRows : Z;
  limit : string;
  mapTableToAlias : gmap string string;
  mapAliasToTable : gmap string (option string);
  currentJoinTableName : string;
  joinTables : list JoinTable.t;
}.

Definition with_tableName (v : option string) (d : t) : t :=
  {| tableName := v; tableNameEscaped := tableNameEscaped d;
     fields := fields d; conditions := conditions d; type := type d;
     update := update d; insert := insert d; insertRows := insertRows d;
     delete := delete d; sql := sql d; sqlTpl := sqlTpl d;
     sqlValues := sqlValues d; orderFields := orderFields d;
     orderBy := orderBy d; groupBy := groupBy d;
     offsetRows := offsetRows d; limitRows := limitRows d;
     limit := limit d; mapTableToAlias := mapTableToAlias d;
     mapAliasToTable := mapAliasToTable d;
     currentJoinTableName := currentJoinTableName d;
     joinTables := joinTables d |}.

Definition with_tableNameEscaped (v : option string) (d : t) : t :=
  {| tableName := tableName d; tableNameEscaped := v; fields := fields d;
     conditions := conditions d; type := type d; update := update d;
     insert := insert d; insertRows := insertRows d; delete := delete d;
     sql := sql d; sqlTpl := sqlTpl d; sqlValues := sqlValues d;
     orderFields := orderFields d; orderBy := orderBy d;
     groupBy := groupBy d; offsetRows := offsetRows d;
     limitRows := limitRows d; limit := limit d;
     mapTableToAlias := mapTableToAlias d;
     mapAliasToTable := mapAliasToTable d;
     currentJoinTableName := currentJoinTableName d;
     joinTables := joinTables d |}.

Definition with_fields (v : list string) (d : t) : t :=
  {| tableName := tableName d; tableNameEscaped := tableNameEscaped d;
     fields := v; conditions := conditions d; type := type d;
     update := update d; insert := insert d; insertRows := insertRows d;
     delete := delete d; sql := sql d; sqlTpl := sqlTpl d;
     sqlValues := sqlValues d; orderFields := orderFields d;
     orderBy := orderBy d; groupBy := groupBy d;
     offsetRows := offsetRows d; limitRows := limitRows d;
     limit := limit d; mapTableToAlias := mapTableToAlias d;
     mapAliasToTable := mapAliasToTable d;
     currentJoinTableName := currentJoinTableName d;
     joinTables := joinTables d |}.

Definition with_conditions (v : list value) (d : t) : t :=
  {| tableName := tableName d; tableNameEscaped := tableNameEscaped d;
     fields := fields d; conditions := v; type := type d;
     update := update d; insert := insert d; insertRows := insertRows d;
     delete := delete d; sql := sql d; sqlTpl := sqlTpl d;
     sqlValues := sqlValues d; orderFields := orderFields d;
     orderBy := orderBy d; groupBy := groupBy d;
     offsetRows := offsetRows d; limitRows := limitRows d;
     limit := limit d; mapTableToAlias := mapTableToAlias d;
     mapAliasToTable := mapAliasToTable d;
     currentJoinTableName := currentJoinTableName d;
     joinTables := joinTables d |}.

Definition with_type (v : string) (d : t) : t :=
  {| tableName := tableName d; tableNameEscaped := tableNameEscaped d;
     fields := fields d; conditions := conditions d; type := v;
     update := update d; insert := insert d; insertRows := insertRows d;
     delete := delete d; sql := sql d; sqlTpl := sqlTpl d;
     sqlValues := sqlValues d; orderFields := orderFields d;
     orderBy := orderBy d; groupBy := groupBy d;
     offsetRows := offsetRows d; limitRows := limitRows d;
     limit := limit d; mapTableToAlias := mapTableToAlias d;
     mapAliasToTable := mapAliasToTable d;
     currentJoinTableName := currentJoinTableName d;
     joinTables := joinTables d |}.

Definition with_update (v : list string) (d : t) : t :=
  {| tableName := tableName d; tableNameEscaped := tableNameEscaped d;
     fields := fields d; conditions := conditions d; type := type d;
     update := v; insert := insert d; insertRows := insertRows d;
     delete := delete d; sql := sql d; sqlTpl := sqlTpl d;
     sqlValues := sqlValues d; orderFields := orderFields d;
     orderBy := orderBy d; groupBy := groupBy d;
     offsetRows := offsetRows d; limitRows := limitRows d;
     limit := limit d; mapTableToAlias := mapTableToAlias d;
     mapAliasToTable := mapAliasToTable d;
     currentJoinTableName := currentJoinTableName d;
     joinTables := joinTables d |}.

Definition with_insert (v : string) (d : t) : t :=
  {| tableName := tableName d; tableNameEscaped := tableNameEscaped d;
     fields := fields d; conditions := conditions d; type := type d;
     update := update d; insert := v; insertRows := insertRows d;
     delete := delete d; sql := sql d; sqlTpl := sqlTpl d;
     sqlValues := sqlValues d; orderFields := orderFields d;
     orderBy := orderBy d; groupBy := groupBy d;
     offsetRows := offsetRows d; limitRows := limitRows d;
     limit := limit d; mapTableToAlias := mapTableToAlias d;
     mapAliasToTable := mapAliasToTable d;
     currentJoinTableName := currentJoinTableName d;
     joinTables := joinTables d |}.

Definition with_insertRows (v : Z) (d : t) : t :=
  {| tableName := tableName d; tableNameEscaped := tableNameEscaped d;
     fields := fields d; conditions := conditions d; type := type d;
     update := update d; insert := insert d; insertRows := v;
     delete := delete d; sql := sql d; sqlTpl := sqlTpl d;
     sqlValues := sqlValues d; orderFields := orderFields d;
     orderBy := orderBy d; groupBy := groupBy d;
     offsetRows := offsetRows d; limitRows := limitRows d;
     limit := limit d; mapTableToAlias := mapTableToAlias d;
     mapAliasToTable := mapAliasToTable d;
     currentJoinTableName := currentJoinTableName d;
     joinTables := joinTables d |}.

Definition with_delete (v : string) (d : t) : t :=
  {| tableName := tableName d; tableNameEscaped := tableNameEscaped d;
     fields := fields d; conditions := conditions d; type := type d;
     update := update d; insert := insert d; insertRows := insertRows d;
     delete := v; sql := sql d; sqlTpl := sqlTpl d;
     sqlValues := sqlValues d; orderFields := orderFields d;
     orderBy := orderBy d; groupBy := groupBy d;
     offsetRows := offsetRows d; limitRows := limitRows d;
     limit := limit d; mapTableToAlias := mapTableToAlias d;
     mapAliasToTable := mapAliasToTable d;
     currentJoinTableName := currentJoinTableName d;
     joinTables := joinTables d |}.

Definition with_sql (v : string) (d : t) : t :=
  {| tableName := tableName d; tableNameEscaped := tableNameEscaped d;
     fields := fields d; conditions := conditions d; type := type d;
     update := update d; insert := insert d; insertRows := insertRows d;
     delete := delete d; sql := v; sqlTpl := sqlTpl d;
     sqlValues := sqlValues d; orderFields := orderFields d;
     orderBy := orderBy d; groupBy := groupBy d;
     offsetRows := offsetRows d; limitRows := limitRows d;
     limit := limit d; mapTableToAlias := mapTableToAlias d;
     mapAliasToTable := mapAliasToTable d;
     currentJoinTableName := currentJoinTableName d;
     joinTables := joinTables d |}.

Definition with_sqlTpl (v : string) (d : t) : t :=
  {| tableName := tableName d; tableNameEscaped := tableNameEscaped d;
     fields := fields d; conditions := conditions d; type := type d;
     update := update d; insert := insert d; insertRows := insertRows d;
     delete := delete d; sql := sql d; sqlTpl := v;
     sqlValues := sqlValues d; orderFields := orderFields d;
     orderBy := orderBy d; groupBy := groupBy d;
     offsetRows := offsetRows d; limitRows := limitRows d;
     limit := limit d; mapTableToAlias := mapTableToAlias d;
     mapAliasToTable := mapAliasToTable d;
     currentJoinTableName := currentJoinTableName d;
     joinTables := joinTables d |}.

Definition with_sqlValues (v : list value) (d : t) : t :=
  {| tableName := tableName d; tableNameEscaped := tableNameEscaped d;
     fields := fields d; conditions := conditions d; type := type d;
     update := update d; insert := insert d; insertRows := insertRows d;
     delete := delete d; sql := sql d; sqlTpl := sqlTpl d; sqlValues := v;
     orderFields := orderFields d; orderBy := orderBy d;
     groupBy := groupBy d; offsetRows := offsetRows d;
     limitRows := limitRows d; limit := limit d;
     mapTableToAlias := mapTableToAlias d;
     mapAliasToTable := mapAliasToTable d;
     currentJoinTableName := currentJoinTableName d;
     joinTables := joinTables d |}.

Definition with_orderFields (v : string) (d : t) : t :=
  {| tableName := tableName d; tableNameEscaped := tableNameEscaped d;
     fields := fields d; conditions := conditions d; type := type d;
     update := update d; insert := insert d; insertRows := insertRows d;
     delete := delete d; sql := sql d; sqlTpl := sqlTpl d;
     sqlValues := sqlValues d; orderFields := v; orderBy := orderBy d;
     groupBy := groupBy d; offsetRows := offsetRows d;
     limitRows := limitRows d; limit := limit d;
     mapTableToAlias := mapTableToAlias d;
     mapAliasToTable := mapAliasToTable d;
     currentJoinTableName := currentJoinTableName d;
     joinTables := joinTables d |}.

Definition with_orderBy (v : string) (d : t) : t :=
  {| tableName := tableName d; tableNameEscaped := tableNameEscaped d;
     fields := fields d; conditions := conditions d; type := type d;
     update := update d; insert := insert d; insertRows := insertRows d;
     delete := delete d; sql := sql d; sqlTpl := sqlTpl d;
     sqlValues := sqlValues d; orderFields := orderFields d; orderBy := v;
     groupBy := groupBy d; offsetRows := offsetRows d;
     limitRows := limitRows d; limit := limit d;
     mapTableToAlias := mapTableToAlias d;
     mapAliasToTable := mapAliasToTable d;
     currentJoinTableName := currentJoinTableName d;
     joinTables := joinTables d |}.

Definition with_groupBy (v : string) (d : t) : t :=
  {| tableName := tableName d; tableNameEscaped := tableNameEscaped d;
     fields := fields d; conditions := conditions d; type := type d;
     update := update d; insert := insert d; insertRows := insertRows d;
     delete := delete d; sql := sql d; sqlTpl := sqlTpl d;
     sqlValues := sqlValues d; orderFields := orderFields d;
     orderBy := orderBy d; groupBy := v; offsetRows := offsetRows d;
     limitRows := limitRows d; limit := limit d;
     mapTableToAlias := mapTableToAlias d;
     mapAliasToTable := mapAliasToTable d;
     currentJoinTableName := currentJoinTableName d;
     joinTables := joinTables d |}.

Definition with_offsetRows (v : Z) (d : t) : t :=
  {| tableName := tableName d; tableNameEscaped := tableNameEscaped d;
     fields := fields d; conditions := conditions d; type := type d;
     update := update d; insert := insert d; insertRows := insertRows d;
     delete := delete d; sql := sql d; sqlTpl := sqlTpl d;
     sqlValues := sqlValues d; orderFields := orderFields d;
     orderBy := orderBy d; groupBy := groupBy d; offsetRows := v;
     limitRows := limitRows d; limit := limit d;
     mapTableToAlias := mapTableToAlias d;
     mapAliasToTable := mapAliasToTable d;
     currentJoinTableName := currentJoinTableName d;
     joinTables := joinTables d |}.

Definition with_limitRows (v : Z) (d : t) : t :=
  {| tableName := tableName d; tableNameEscaped := tableNameEscaped d;
     fields := fields d; conditions := conditions d; type := type d;
     update := update d; insert := insert d; insertRows := insertRows d;
     delete := delete d; sql := sql d; sqlTpl := sqlTpl d;
     sqlValues := sqlValues d; orderFields := orderFields d;
     orderBy := orderBy d; groupBy := groupBy d;
     offsetRows := offsetRows d; limitRows := v; limit := limit d;
     mapTableToAlias := mapTableToAlias d;
     mapAliasToTable := mapAliasToTable d;
     currentJoinTableName := currentJoinTableName d;
     joinTables := joinTables d |}.

Definition with_limit (v : string) (d : t) : t :=
  {| tableName := tableName d; tableNameEscaped := tableNameEscaped d;
     fields := fields d; conditions := conditions d; type := type d;
     update := update d; insert := insert d; insertRows := insertRows d;
     delete := delete d; sql := sql d; sqlTpl := sqlTpl d;
     sqlValues := sqlValues d; orderFields := orderFields d;
     orderBy := orderBy d; groupBy := groupBy d;
     offsetRows := offsetRows d; limitRows := limitRows d; limit := v;
     mapTableToAlias := mapTableToAlias d;
     mapAliasToTable := mapAliasToTable d;
     currentJoinTableName := currentJoinTableName d;
     joinTables := joinTables d |}.

Definition with_mapTableToAlias (v : gmap string string) (d : t) : t :=
  {| tableName := tableName d; tableNameEscaped := tableNameEscaped d;
     fields := fields d; conditions := conditions d; type := type d;
     update := update d; insert := insert d; insertRows := insertRows d;
     delete := delete d; sql := sql d; sqlTpl := sqlTpl d;
     sqlValues := sqlValues d; orderFields := orderFields d;
     orderBy := orderBy d; groupBy := groupBy d;
     offsetRows := offsetRows d; limitRows := limitRows d;
     limit := limit d; mapTableToAlias := v;
     mapAliasToTable := mapAliasToTable d;
     currentJoinTableName := currentJoinTableName d;
     joinTables := joinTables d |}.

Definition with_mapAliasToTable (v : gmap string (option string)) (d : t) : t :=
  {| tableName := tableName d; tableNameEscaped := tableNameEscaped d;
     fields := fields d; conditions := conditions d; type := type d;
     update := update d; insert := insert d; insertRows := insertRows d;
     delete := delete d; sql := sql d; sqlTpl := sqlTpl d;
     sqlValues := sqlValues d; orderFields := orderFields d;
     orderBy := orderBy d; groupBy := groupBy d;
     offsetRows := offsetRows d; limitRows := limitRows d;
     limit := limit d; mapTableToAlias := mapTableToAlias d;
     mapAliasToTable := v; currentJoinTableName := currentJoinTableName d;
     joinTables := joinTables d |}.

Definition with_currentJoinTableName (v : string) (d : t) : t :=
  {| tableName := tableName d; tableNameEscaped := tableNameEscaped d;
     fields := fields d; conditions := conditions d; type := type d;
     update := update d; insert := insert d; insertRows := insertRows d;
     delete := delete d; sql := sql d; sqlTpl := sqlTpl d;
     sqlValues := sqlValues d; orderFields := orderFields d;
     orderBy := orderBy d; groupBy := groupBy d;
     offsetRows := offsetRows d; limitRows := limitRows d;
     limit := limit d; mapTableToAlias := mapTableToAlias d;
     mapAliasToTable := mapAliasToTable d; currentJoinTableName := v;
     joinTables := joinTables d |}.

Definition with_joinTables (v : list JoinTable.t) (d : t) : t :=
  {| tableName := tableName d; tableNameEscaped := tableNameEscaped d;
     fields := fields d; conditions := conditions d; type := type d;
     update := update d; insert := insert d; insertRows := insertRows d;
     delete := delete d; sql := sql d; sqlTpl := sqlTpl d;
     sqlValues := sqlValues d; orderFields := orderFields d;
     orderBy := orderBy d; groupBy := groupBy d;
     offsetRows := offsetRows d; limitRows := limitRows d;
     limit := limit d; mapTableToAlias := mapTableToAlias d;
     mapAliasToTable := mapAliasToTable d;
     currentJoinTableName := currentJoinTableName d; joinTables := v |}.

(** the state the constructor of [QueryBuilder] sets up *)
Definition new : t :=
  {| tableName := None; tableNameEscaped := None; fields := [];
     conditions := []; type := ""; update := []; insert := "";
     insertRows := 0; delete := ""; sql := ""; sqlTpl := ""; sqlValues := [];
     orderFields := ""; orderBy := ""; groupBy := ""; offsetRows := 0;
     limitRows := 0; limit := ""; mapTableToAlias := ∅;
     mapAliasToTable := ∅; currentJoinTableName := ""; joinTables := [] |}.

End Data.

Module QueryBuilder.

(** *** Methods as state transformers

    A method reads and assigns [this._data] and either returns or
    throws; what it had assigned before throwing stays assigned. *)

Definition M (A : Type) : Type := Data.t -> Data.t * result A.

Definition ret {A} (a : A) : M A := fun d => (d, Ok a).

Definition bind {A B} (m : M A) (k : A -> M B) : M B :=
  fun d =>
    match m d with
    | (d', Ok a) => k a d'
    | (d', Throw e) => (d', Throw e)
    end.

Definition get : M Data.t := fun d => (d, Ok d).

Definition modify (f : Data.t -> Data.t) : M unit := fun d => (f d, Ok tt).

Definition lift {A} (r : result A) : M A := fun d => (d, r).

Definition check (cond : bool) (msg : string) : M unit :=
  lift (assert cond msg).

Notation "'let!' x ':=' m 'in' k" := (bind m (fun x => k))
  (at level 10, x name, m at level 100, k at level 200, only parsing).

(** the state a call leaves and what it returned or threw *)
Definition stateAfter {A} (m : M A) (d : Data.t) : Data.t := fst (m d).
Definition outcome {A} (m : M A) (d : Data.t) : result A := snd (m d).

(** *** Arguments *)

(** the condition of [where] and [and] *)
Inductive condition :=
| Text (s : string)
| Expr (e : Expression.t)
| Mapping (o : props).

(** the data of [update] and [set] *)
Inductive update_arg :=
| UpdateText (s : string)
| UpdateObject (o : props).

(** the data of [insert]: one row or an array of rows *)
Inductive insert_arg :=
| Row (o : props)
| Rows (l : list props).

(** [QueryOptionsParams] *)
Record QueryOptionsParams := {
  opt_skip : option Z;
  opt_offset : option Z;
  opt_limit : option Z;
  opt_orderBy : option string;
  opt_groupBy : option string;
  opt_fields : option (list string);
}.

(** the truth value of a string, of a string that may be [undefined] *)
Definition truthy (s : string) : bool := negb (JS.is_empty s).

Definition truthyOpt (s : option string) : bool :=
  match s with
  | Some x => truthy x
  | None => false
  end.

Definition textOpt (s : option string) : string :=
  match s with
  | Some x => x
  | None => "undefined"
  end.

Definition typeGuardMessage (d : Data.t) : string :=
  "cannot change query type after it was set to " +:+ JS.dq +:+ Data.type d
    +:+ JS.dq.

(** *** Methods *)

Definition format (tpl : string) (values : utils.values_arg) : result string :=
  utils.format tpl values.

Definition table (tableName : string) : M unit :=
  let! d := get in
  let! _ := check (negb (truthyOpt (Data.tableName d)))
              ("Cannot change table name after it's set to " +:+ JS.dq
                 +:+ textOpt (Data.tableName d) +:+ JS.dq) in
  let! _ := modify (Data.with_tableName (Some tableName)) in
  modify (Data.with_tableNameEscaped
            (Some (utils.sqlEscapeId (VStr tableName)))).

Definition into (tableName : string) : M unit := table tableName.

Definition from (tableName : string) : M unit := table tableName.

Definition setTableAlias (tableName : option string) (aliasName : string)
  : M unit :=
  let! d := get in
  let! _ := check (negb (bool_decide (is_Some (Data.mapAliasToTable d !! aliasName))))
              ("Alias name " +:+ JS.dq +:+ aliasName +:+ JS.dq
                 +:+ " is already registered.") in
  let! _ := modify (fun d => Data.with_mapAliasToTable
                       (<[aliasName := tableName]> (Data.mapAliasToTable d)) d) in
  modify (fun d => Data.with_mapTableToAlias
             (<[textOpt tableName := aliasName]> (Data.mapTableToAlias d)) d).

Definition addJoinTable
    (tableName : string) (type : JoinTable.kind) (fields : list string)
    (alias : string) : M unit :=
  let! _ := modify (Data.with_currentJoinTableName tableName) in
  modify (fun d => Data.with_joinTables
             (Data.joinTables d ++
                [{| JoinTable.table := tableName; JoinTable.fields := fields;
                    JoinTable.type := type; JoinTable.on := "";
                    JoinTable.alias := alias |}]) d).

(** [joinTables[joinTables.length - 1].f = v], nothing on an empty array
    being excluded by the callers *)
Fixpoint updateLast (f : JoinTable.t -> JoinTable.t) (l : list JoinTable.t)
  : list JoinTable.t :=
  match l with
  | [] => []
  | [x] => [f x]
  | x :: r => x :: updateLast f r
  end.

Definition as_ (name : string) : M unit :=
  let! d := get in
  let tableName :=
    if truthy (Data.currentJoinTableName d)
    then Some (Data.currentJoinTableName d)
    else Data.tableName d in
  let! _ := setTableAlias tableName name in
  let! d := get in
  if (0 <? length (Data.joinTables d))%nat then
    modify (Data.with_joinTables
              (updateLast
                 (fun j => {| JoinTable.table := JoinTable.table j;
                              JoinTable.fields := JoinTable.fields j;
                              JoinTable.type := JoinTable.type j;
                              JoinTable.on := JoinTable.on j;
                              JoinTable.alias := name |})
                 (Data.joinTables d)))
  else ret tt.

Definition join (tableName : string) (fields : list string) : M unit :=
  addJoinTable tableName JoinTable.JOIN fields "".

Definition leftJoin (tableName : string) (fields : list string) : M unit :=
  addJoinTable tableName JoinTable.LEFT_JOIN fields "".

Definition rightJoin (tableName : string) (fields : list string) : M unit :=
  addJoinTable tableName JoinTable.RIGHT_JOIN fields "".

Definition on (cond : string) (values : utils.values_arg) : M unit :=
  let! d := get in
  match last (Data.joinTables d) with
  | None => check false "Missing leftJoin() or rightJoin()."
  | Some l =>
      let! _ := check (negb (truthy (JoinTable.on l)))
                  ("Join condition already registered. Previous condition is "
                     +:+ JS.dq +:+ JoinTable.on l +:+ JS.dq +:+ ".") in
      let! f := lift (format cond (utils.orEmpty values)) in
      modify (Data.with_joinTables
                (updateLast
                   (fun j => {| JoinTable.table := JoinTable.table j;
                                JoinTable.fields := JoinTable.fields j;
                                JoinTable.type := JoinTable.type j;
                                JoinTable.on := f;
                                JoinTable.alias := JoinTable.alias j |})
                   (Data.joinTables d)))
  end.

Definition push_condition (c : value) : M unit :=
  modify (fun d => Data.with_conditions (Data.conditions d ++ [c]) d).

Definition and_ (cond : condition) (values : utils.values_arg) : M unit :=
  let! d := get in
  match cond with
  | Text s =>
      let! _ := check (truthy s) "Missing condition." in
      let! _ := if negb (String.eqb (Data.type d) "SELECT")
                then check (truthy (JS.trim s)) Messages.conditionCannotBeEmpty
                else ret tt in
      let! f := lift (format s (utils.orEmpty values)) in
      push_condition (VStr f)
  | Expr e =>
      let! f := lift (Expression.build e) in
      push_condition (VStr f)
  | Mapping o =>
      let keys := utils.findKeysForUndefinedValue o in
      let! _ := check (length keys <? 1)%nat
                  (Messages.undefinedValueConditionalKeys keys) in
      let! _ := if negb (String.eqb (Data.type d) "SELECT")
                then check (0 <? length (Obj.keys o))%nat
                       Messages.conditionCannotBeEmpty
                else ret tt in
      let! _ := if Obj.has "$raw" o
                then push_condition (Obj.read "$raw" o)
                else ret tt in
      let o := if Obj.has "$raw" o then Obj.remove "$raw" o else o in
      let! l := lift (utils.sqlConditionStrings o) in
      modify (fun d => Data.with_conditions
                 (Data.conditions d ++ map VStr l) d)
  end.

Definition where_ (cond : condition) (values : utils.values_arg) : M unit :=
  match cond with
  | Text _ => and_ cond values
  | _ => and_ cond utils.NoValues
  end.

Definition fields (fs : list string) : M unit :=
  let! d := get in
  let! _ := check (negb (0 <? length (Data.fields d))%nat)
              "cannot change fields after it has been set" in
  modify (Data.with_fields (Data.fields d ++ utils.formatFields "" fs)).

Definition setType (type : string) : M unit :=
  let! d := get in
  let! _ := check (String.eqb (Data.type d) "") (typeGuardMessage d) in
  modify (Data.with_type type).

Definition select (fs : list string) : M unit :=
  let! _ := setType "SELECT" in
  if (length fs <? 1)%nat then ret tt else fields fs.

Definition selectDistinct (fs : list string) : M unit :=
  let! _ := setType "SELECT DISTINCT" in
  let! _ := check (0 <? length fs)%nat "distinct expected one or more fields" in
  fields fs.

Definition count (name field : option string) : M unit :=
  let name := default "count" name in
  let field := default "*" field in
  let! _ := setType "SELECT" in
  modify (fun d => Data.with_fields
             (Data.fields d ++
                ["COUNT(" +:+ field +:+ ") AS "
                   +:+ utils.sqlEscapeId (VStr name)]) d).

Definition set (upd : update_arg) (values : utils.values_arg) : M unit :=
  let! d := get in
  let! _ := check (String.eqb (Data.type d) "UPDATE"
                   || String.eqb (Data.type d) "INSERT_OR_UPDATE")
              "query type must be UPDATE, please call .update() before" in
  match upd with
  | UpdateText s =>
      let! _ := check (truthy s) "missing update data" in
      let! f := lift (format s (utils.orEmpty values)) in
      modify (fun d => Data.with_update (Data.update d ++ [f]) d)
  | UpdateObject o =>
      let! sql := lift (utils.sqlUpdateString o) in
      if truthy sql
      then modify (fun d => Data.with_update (Data.update d ++ [sql]) d)
      else ret tt
  end.

Definition update (upd : option update_arg) (values : utils.values_arg)
  : M unit :=
  let! _ := setType "UPDATE" in
  let! _ := modify (Data.with_update []) in
  match upd with
  | None => ret tt
  | Some (UpdateText s) => if truthy s then set (UpdateText s) values else ret tt
  | Some (UpdateObject o) => set (UpdateObject o) utils.NoValues
  end.

(** the inner loop of [insert]: the values of one row, column by column *)
Fixpoint insertLine (originFields : list string) (item : props)
  : result (list string) :=
  match originFields with
  | [] => Ok []
  | field :: r =>
      let? _ := assert (Obj.has field item)
                  ("every item of data array must have field " +:+ JS.dq
                     +:+ field +:+ JS.dq) in
      let? line := insertLine r item in
      Ok (utils.sqlEscape (Obj.read field item) :: line)
  end.

(** the outer loop of [insert] *)
Fixpoint insertValues (originFields : list string) (rows : list props)
  : result (list string) :=
  match rows with
  | [] => Ok []
  | item :: r =>
      let? line := insertLine originFields item in
      let? values := insertValues originFields r in
      Ok (("(" +:+ JS.join ", " line +:+ ")") :: values)
  end.

Definition insert (data : insert_arg) : M unit :=
  let! _ := setType "INSERT" in
  let! rows :=
    match data with
    | Rows l =>
        let! _ := check (1 <=? length l)%nat
                    "data array must have at least 1 item" in
        ret l
    | Row o => ret [o]
    end in
  let originFields := Obj.keys (hd [] rows) in
  let fields := map (fun name => utils.sqlEscapeId (VStr name)) originFields in
  let! values := lift (insertValues originFields rows) in
  let! _ := modify (Data.with_insert
                      ("(" +:+ JS.join ", " fields +:+ ") VALUES "
                         +:+ JS.join ("," +:+ JS.nl) values)) in
  modify (Data.with_insertRows (Z.of_nat (length rows))).

Definition delete : M unit := setType "DELETE".

Definition onDuplicateKeyUpdate : M unit :=
  let! d := get in
  let! _ := check (String.eqb (Data.type d) "INSERT")
              "onDuplicateKeyUpdate() must be called after insert()" in
  let! _ := check (Data.insertRows d =? 1)
              (Messages.functionWithWrongRowCount "onDuplicateKeyUpdate"
                 (Data.insertRows d)) in
  modify (Data.with_type "INSERT_OR_UPDATE").

Definition sql (sql : string) (values : utils.values_arg) : M unit :=
  let! _ := setType "CUSTOM" in
  let! _ := modify (Data.with_sqlTpl sql) in
  modify (Data.with_sqlValues
            (match values with
             | utils.ArrayValues l => l
             | _ => []
             end)).

(** the two rewritings at the end of [orderBy] *)
Definition unquoteKeywords (s : string) : string :=
  JS.replaceAll_ci "'ASC'" "ASC" O (JS.replaceAll_ci "'DESC'" "DESC" O s).

Definition orderBy (tpl : string) (values : utils.values_arg) : M unit :=
  let! f := lift (format tpl values) in
  let! _ := modify (Data.with_orderFields f) in
  let! _ := modify (Data.with_orderBy ("ORDER BY " +:+ f)) in
  modify (fun d => Data.with_orderBy (unquoteKeywords (Data.orderBy d)) d).

Definition groupBy (fs : list string) : M unit :=
  let! _ := check (0 <? length fs)%nat "groupBy expected one or more fields" in
  modify (Data.with_groupBy
            ("GROUP BY " +:+ JS.join ", " (utils.formatFields "" fs))).

Definition having (tpl : string) (values : utils.values_arg) : M unit :=
  let! d := get in
  let! _ := check (0 <? String.length (Data.groupBy d))%nat
              "please call groupBy() firstly" in
  let! f := lift (format tpl values) in
  modify (fun d => Data.with_groupBy (Data.groupBy d +:+ " HAVING " +:+ f) d).

Definition offset (rows : Z) : M unit :=
  let! _ := check (0 <=? rows) "rows must be >= 0" in
  let! _ := modify (Data.with_offsetRows rows) in
  modify (fun d => Data.with_limit
             (utils.sqlLimitString (Data.offsetRows d) (Data.limitRows d)) d).

Definition skip (rows : Z) : M unit := offset rows.

Definition limit (rows : Z) : M unit :=
  let! _ := check (0 <=? rows) "rows must be >= 0" in
  let! _ := modify (Data.with_limitRows rows) in
  modify (fun d => Data.with_limit
             (utils.sqlLimitString (Data.offsetRows d) (Data.limitRows d)) d).

Definition whenSome {A} (o : option A) (f : A -> M unit) : M unit :=
  match o with
  | Some a => f a
  | None => ret tt
  end.

Definition options (o : QueryOptionsParams) : M unit :=
  let! _ := whenSome (opt_skip o) offset in
  let! _ := whenSome (opt_offset o) offset in
  let! _ := whenSome (opt_limit o) limit in
  let! _ := whenSome (opt_orderBy o) (fun t => orderBy t utils.NoValues) in
  let! _ := whenSome (opt_groupBy o) (fun g => groupBy [g]) in
  whenSome (opt_fields o) fields.

(** [data.conditions.map((v) => v.trim())]: only a string has [trim] *)
Fixpoint trimAll (l : list value) : result (list string) :=
  match l with
  | [] => Ok []
  | VStr s :: r => let? t := trimAll r in Ok (JS.trim s :: t)
  | _ :: _ => Throw (TypeError "v.trim is not a function")
  end.

(** the loop of [build] over [joinTables]: the join clauses and the field
    list grown by the fields of each joined table *)
Fixpoint buildJoins
    (mapTableToAlias : gmap string string) (items : list JoinTable.t)
    (fields : list string) (join : list string)
  : list string * list string :=
  match items with
  | [] => (fields, join)
  | item :: r =>
      let t := utils.sqlEscapeId (VStr (JoinTable.table item)) in
      let str := JoinTable.kindText (JoinTable.type item) +:+ " " +:+ t in
      let a := if truthy (JoinTable.alias item) then JoinTable.alias item
               else default "" (mapTableToAlias !! JoinTable.table item) in
      let str := if truthy a
                 then str +:+ " AS " +:+ utils.sqlEscapeId (VStr a)
                 else str in
      let a := if truthy a then utils.sqlEscapeId (VStr a) else t in
      let str := if truthy (JoinTable.on item)
                 then str +:+ " ON " +:+ JoinTable.on item
                 else str in
      buildJoins mapTableToAlias r
        (fields ++ utils.formatFields a (JoinTable.fields item))
        (join ++ [str])
  end.

(** [build] after its first statement: [data] is [this._data] as [build]
    found it and [conditions] are the trimmed, non-empty conditions it has
    just assigned. *)
Definition render (data : Data.t) (conditions : list string) : M string :=
  let currentTableName := Data.tableName data in
  let currentTableEscapedName := Data.tableNameEscaped data in
  let where_ := if (0 <? length conditions)%nat
                then "WHERE " +:+ JS.join " AND " conditions
                else "" in
  let! _ := check (truthyOpt currentTableName
                   && truthyOpt currentTableEscapedName)
              "missing table name" in
  let currentTableName := textOpt currentTableName in
  let currentTableEscapedName := textOpt currentTableEscapedName in
  let type := Data.type data in
  let! sql :=
    if String.eqb type "SELECT" || String.eqb type "SELECT DISTINCT" then
      let! join :=
        if (0 <? length (Data.joinTables data))%nat then
          let alias := default "" (Data.mapTableToAlias data !! currentTableName) in
          let a := utils.sqlEscapeId (VStr alias) in
          let start :=
            if truthy alias
            then (utils.formatFields a (Data.fields data), ["AS " +:+ a])
            else (utils.formatFields currentTableEscapedName
                    (Data.fields data), []) in
          let r := buildJoins (Data.mapTableToAlias data)
                     (Data.joinTables data) (fst start) (snd start) in
          let! _ := modify (Data.with_fields (fst r)) in
          ret (snd r)
        else
          let! _ := modify (Data.with_fields
                              (utils.formatFields "" (Data.fields data))) in
          ret [] in
      let! d := get in
      let! _ := if (length (Data.fields d) =? 0)%nat
                then modify (Data.with_fields ["*"])
                else ret tt in
      let! d := get in
      let tail := utils.joinMultiString
                    (join ++ [where_; Data.groupBy data; Data.orderBy data;
                              Data.limit data]) in
      ret (type +:+ " " +:+ JS.join ", " (Data.fields d) +:+ " FROM "
             +:+ currentTableEscapedName +:+ " " +:+ tail)
    else if String.eqb type "INSERT" then
      ret ("INSERT INTO " +:+ currentTableEscapedName +:+ " "
             +:+ Data.insert data)
    else if String.eqb type "UPDATE" then
      let! _ := check (0 <? length (Data.update data))%nat
                  "update data connot be empty" in
      let tail := utils.joinMultiString
                    [where_; Data.orderBy data; Data.limit data] in
      ret ("UPDATE " +:+ currentTableEscapedName +:+ " SET "
             +:+ JS.join ", " (Data.update data) +:+ " " +:+ tail)
    else if String.eqb type "INSERT_OR_UPDATE" then
      let! _ := check (0 <? length (Data.update data))%nat
                  "update data connot be empty" in
      ret ("INSERT INTO " +:+ currentTableEscapedName +:+ " "
             +:+ Data.insert data +:+ " ON DUPLICATE KEY UPDATE "
             +:+ JS.join ", " (Data.update data))
    else if String.eqb type "DELETE" then
      let tail := utils.joinMultiString
                    [where_; Data.orderBy data; Data.limit data] in
      ret ("DELETE FROM " +:+ currentTableEscapedName +:+ " " +:+ tail)
    else if String.eqb type "CUSTOM" then
      let! tpl := lift (utils.sqlFormatObject (Data.sqlTpl data)
                          [("$table", VStr currentTableEscapedName);
                           ("$orderBy", VStr (Data.orderBy data));
                           ("$limit", VStr (Data.limit data));
                           ("$fields", VStr (JS.join ", " (Data.fields data)));
                           ("$skipRows", VNum (Data.offsetRows data));
                           ("$offsetRows", VNum (Data.offsetRows data));
                           ("$limitRows", VNum (Data.limitRows data))]
                          true) in
      let! s := lift (format tpl (utils.ArrayValues (Data.sqlValues data))) in
      let! _ := modify (Data.with_sql s) in
      ret s
    else
      lift (Throw (Error ("invalid query type " +:+ JS.dq +:+ type +:+ JS.dq))) in
  ret (JS.trim sql).

Definition build : M string :=
  let! data := get in
  let! trimmed := lift (trimAll (Data.conditions data)) in
  let conditions := List.filter truthy trimmed in
  let! _ := modify (Data.with_conditions (map VStr conditions)) in
  render data conditions.

(** [JSON.parse(JSON.stringify(this._data))]: every array and dictionary
    of the copy is rebuilt from the serialised text; a key whose value is
    [undefined] is not serialised. *)
Definition jsonCopyArray (l : list value) : list value :=
  match jsonCopy (VArr l) with
  | VArr l' => l'
  | _ => []
  end.

Definition deepCopyData (d : Data.t) : Data.t :=
  {| Data.tableName := Data.tableName d;
     Data.tableNameEscaped := Data.tableNameEscaped d;
     Data.fields := Data.fields d;
     Data.conditions := jsonCopyArray (Data.conditions d);
     Data.type := Data.type d;
     Data.update := Data.update d;
     Data.insert := Data.insert d;
     Data.insertRows := Data.insertRows d;
     Data.delete := Data.delete d;
     Data.sql := Data.sql d;
     Data.sqlTpl := Data.sqlTpl d;
     Data.sqlValues := jsonCopyArray (Data.sqlValues d);
     Data.orderFields := Data.orderFields d;
     Data.orderBy := Data.orderBy d;
     Data.groupBy := Data.groupBy d;
     Data.offsetRows := Data.offsetRows d;
     Data.limitRows := Data.limitRows d;
     Data.limit := Data.limit d;
     Data.mapTableToAlias := Data.mapTableToAlias d;
     Data.mapAliasToTable :=
       Some <$> omap (fun v => v) (Data.mapAliasToTable d);
     Data.currentJoinTableName := Data.currentJoinTableName d;
     Data.joinTables := Data.joinTables d |}.

(** *** Calls

    Every public method that acts on a builder, with its arguments. *)
Inductive call :=
| Call_table (tableName : string)
| Call_into (tableName : string)
| Call_from (tableName : string)
| Call_as (name : string)
| Call_join (tableName : string) (fs : list string)
| Call_leftJoin (tableName : string) (fs : list string)
| Call_rightJoin (tableName : string) (fs : list string)
| Call_on (cond : string) (values : utils.values_arg)
| Call_where (cond : condition) (values : utils.values_arg)
| Call_and (cond : condition) (values : utils.values_arg)
| Call_select (fs : list string)
| Call_fields (fs : list string)
| Call_selectDistinct (fs : list string)
| Call_count (name field : option string)
| Call_update (upd : option update_arg) (values : utils.values_arg)
| Call_set (upd : update_arg) (values : utils.values_arg)
| Call_insert (data : insert_arg)
| Call_delete
| Call_onDuplicateKeyUpdate
| Call_sql (tpl : string) (values : utils.values_arg)
| Call_orderBy (tpl : string) (values : utils.values_arg)
| Call_groupBy (fs : list string)
| Call_having (tpl : string) (values : utils.values_arg)
| Call_offset (rows : Z)
| Call_skip (rows : Z)
| Call_limit (rows : Z)
| Call_options (o : QueryOptionsParams)
| Call_build.

Definition exec (c : call) : M unit :=
  match c with
  | Call_table n => table n
  | Call_into n => into n
  | Call_from n => from n
  | Call_as n => as_ n
  | Call_join n fs => join n fs
  | Call_leftJoin n fs => leftJoin n fs
  | Call_rightJoin n fs => rightJoin n fs
  | Call_on c v => on c v
  | Call_where c v => where_ c v
  | Call_and c v => and_ c v
  | Call_select fs => select fs
  | Call_fields fs => fields fs
  | Call_selectDistinct fs => selectDistinct fs
  | Call_count n f => count n f
  | Call_update u v => update u v
  | Call_set u v => set u v
  | Call_insert data => insert data
  | Call_delete => delete
  | Call_onDuplicateKeyUpdate => onDuplicateKeyUpdate
  | Call_sql t v => sql t v
  | Call_orderBy t v => orderBy t v
  | Call_groupBy fs => groupBy fs
  | Call_having t v => having t v
  | Call_offset r => offset r
  | Call_skip r => skip r
  | Call_limit r => limit r
  | Call_options o => options o
  | Call_build => let! _ := build in ret tt
  end.

Definition call_eq_onDuplicate (c : call)
  : {c = Call_onDuplicateKeyUpdate} + {c <> Call_onDuplicateKeyUpdate}.
Proof. destruct c; (left; reflexivity) || (right; discriminate). Defined.

(** a chain of calls, each made whatever the previous one did *)
Fixpoint run (cs : list call) (d : Data.t) : Data.t :=
  match cs with
  | [] => d
  | c :: r => run r (stateAfter (exec c) d)
  end.

(** a chain [q.m1(..).m2(..)...build()] on a new builder: the text built,
    or the first exception *)
Fixpoint chain (cs : list call) : M string :=
  match cs with
  | [] => build
  | c :: r => let! _ := exec c in chain r
  end.

End QueryBuilder.

(** ** Builder instances

    [this._data] is one mutable object per [QueryBuilder] instance; the
    instances of a program live in a store, at the address of their
    [_data].  A method call assigns the object of its receiver. *)

Module Store.
Import QueryBuilder.

(** [new QueryBuilder()] *)
Definition construct (σ : gmap nat Data.t) : gmap nat Data.t * nat :=
  let q := fresh (dom σ) in (<[q := Data.new]> σ, q).

(** [q.m(...)] for the instance at [q] *)
Definition invoke {A} (q : nat) (m : M A) (σ : gmap nat Data.t)
  : gmap nat Data.t * option (result A) :=
  match σ !! q with
  | Some d => (<[q := stateAfter m d]> σ, Some (outcome m d))
  | None => (σ, None)
  end.

(** [q.clone()]: a new instance whose [_data] is the deep copy *)
Definition clone (q : nat) (σ : gmap nat Data.t)
  : gmap nat Data.t * option nat :=
  match σ !! q with
  | Some d =>
      let r := construct σ in
      (<[snd r := deepCopyData d]> (fst r), Some (snd r))
  | None => (σ, None)
  end.

(** what a program does to the instances: a call on one, or a clone of one *)
Inductive op :=
| Call (q : nat) (c : call)
| Clone (q : nat).

Definition step (o : op) (σ : gmap nat Data.t) : gmap nat Data.t :=
  match o with
  | Call q c => fst (invoke q (exec c) σ)
  | Clone q => fst (clone q σ)
  end.

Fixpoint steps (os : list op) (σ : gmap nat Data.t) : gmap nat Data.t :=
  match os with
  | [] => σ
  | o :: r => steps r (step o σ)
  end.


(** what [q.build()] returns in the store [σ] *)
Definition built (q : nat) (σ : gmap nat Data.t) : option (result string) :=
  snd (invoke q build σ).

End Store.

(** ** Vocabulary of the statements *)

Module Spec.

(** no single quote in [s] *)
Fixpoint noQuote (s : string) : bool :=
  match s with
  | EmptyString => true
  | String c s' => negb (Ascii.eqb c "'") && noQuote s'
  end.

(** [a] and [b] are the same word up to the case of their letters *)
Fixpoint same_ci (a b : string) : bool :=
  match a, b with
  | EmptyString, EmptyString => true
  | String x a', String y b' => JS.eqb_ci x y && same_ci a' b'
  | _, _ => false
  end.

Definition isKeyword (k : string) : bool := same_ci "DESC" k || same_ci "ASC" k.

Definition keyword (k : string) : string :=
  if same_ci "DESC" k then "DESC" else "ASC".

(** An ordering text written as quoted literals, each followed by a
    separator: [(k1, s1); (k2, s2)] stands for ['k1's1'k2's2]. *)
Fixpoint quoted (l : list (string * string)) : string :=
  match l with
  | [] => EmptyString
  | (k, s) :: r => "'" +:+ k +:+ "'" +:+ s +:+ quoted r
  end.

(** the same text with every literal DESC or ASC, in any case of its
    letters, replaced by the bare keyword, and the rest as it was *)
Fixpoint rewritten (l : list (string * string)) : string :=
  match l with
  | [] => EmptyString
  | (k, s) :: r =>
      (if isKeyword k then keyword k else "'" +:+ k +:+ "'")
        +:+ s +:+ rewritten r
  end.

(** the quotes of the text are those that delimit the literals, and no
    separator is the bare word DESC or ASC *)
Fixpoint wellQuoted (l : list (string * string)) : bool :=
  match l with
  | [] => true
  | (k, s) :: r =>
      noQuote k && noQuote s && negb (isKeyword s) && wellQuoted r
  end.



Definition isArray (v : value) : bool :=
  match v with
  | VArr _ => true
  | _ => false
  end.

(** every character of [s] is white space *)
Fixpoint blank (s : string) : bool :=
  match s with
  | EmptyString => true
  | String c s' => JS.is_ws c && blank s'
  end.

(** the methods that set the query type *)
Definition setsType (c : QueryBuilder.call) : bool :=
  match c with
  | QueryBuilder.Call_select _ | QueryBuilder.Call_selectDistinct _
  | QueryBuilder.Call_count _ _ | QueryBuilder.Call_update _ _
  | QueryBuilder.Call_insert _ | QueryBuilder.Call_delete
  | QueryBuilder.Call_sql _ _ => true
  | _ => false
  end.

End Spec.

(** ** Further vocabulary of the proofs *)

(** a method that never assigns [type] *)
Definition keepsType {A} (m : QueryBuilder.M A) : Prop :=
  forall d, Data.type (fst (m d)) = Data.type d.


(** the character [c] does not occur in [s] *)
Fixpoint noChar (c : ascii) (s : string) : bool :=
  match s with
  | EmptyString => true
  | String x s' => negb (Ascii.eqb x c) && noChar c s'
  end.

(** no question mark in [s] *)
Fixpoint noMark (s : string) : bool :=
  match s with
  | EmptyString => true
  | String c s' => negb (Ascii.eqb c "?") && noMark s'
  end.

(** no colon in [s] *)
Fixpoint noColon (s : string) : bool :=
  match s with
  | EmptyString => true
  | String c s' => negb (Ascii.eqb c ":") && noColon s'
  end.

(** no white space in [s] *)
Fixpoint solid (s : string) : bool :=
  match s with
  | EmptyString => true
  | String c s' => negb (JS.is_ws c) && solid s'
  end.

(** the text after the first rewriting: the literals DESC are bare, the
    others still quoted *)
Fixpoint halfway (l : list (string * string)) : string :=
  match l with
  | [] => EmptyString
  | (k, s) :: r =>
      (if Spec.same_ci "DESC" k then "DESC" else "'" +:+ k +:+ "'")
        +:+ s +:+ halfway r
  end.

(** [select("a").from("h").leftJoin("w", ["z"])] *)
Definition joined : Data.t :=
  QueryBuilder.run
    [QueryBuilder.Call_select ["a"]; QueryBuilder.Call_from "h";
     QueryBuilder.Call_leftJoin "w" ["z"]] Data.new.

(** [q = Q.select("*").from("test1").where({a: 123})] in a store, as in
    the test "query clone" *)
Definition cloneTest : gmap nat Data.t :=
  Store.steps
    [Store.Call 0 (QueryBuilder.Call_select ["*"]);
     Store.Call 0 (QueryBuilder.Call_from "test1");
     Store.Call 0 (QueryBuilder.Call_where
                     (QueryBuilder.Mapping [("a", VNum 123)]) utils.NoValues)]
    (fst (Store.construct ∅)).

(** ** Fixtures of the test suites *)

Module Fixtures.
Import QueryBuilder utils.

(** the classes [TestQuery] and [TestQuery2] of [utils_test.ts] *)
Definition TestQuery : value := VBuilder [] (BuildString "xxx").
Definition TestQuery2 : value := VBuilder [] BuildOther.

(** [Q.m1(..).m2(..)...build()] *)
Definition Q (cs : list call) : result string := outcome (chain cs) Data.new.

(** a builder passed as a value: only what its [build()] yields matters
    where it is spliced *)
Definition sub (cs : list call) : value :=
  VBuilder [("_data", VObj [])]
    match Q cs with
    | Ok s => BuildString s
    | Throw e => BuildThrows e
    end.

Definition obj (o : props) : condition := Mapping o.

(** the sub-query of [query2_test.ts] *)
Definition inner : list call :=
  [Call_select ["id"]; Call_from "test2";
   Call_where (obj [("id", VObj [("$lt", VNum 10)])]) NoValues;
   Call_limit 100].

(** a chain of calls on a new [Expression] *)
Definition E (steps : list (Expression.t -> result Expression.t))
  : result Expression.t :=
  fold_left (fun r f => rbind r f) steps (Ok Expression.new).

End Fixtures.

(** ** [src/sqlString.ts], continued: [zeroPad] *)

(** the loop of [zeroPad]; [fuel] bounds its iterations *)
Fixpoint zeroPadLoop (fuel : nat) (number : string) (length : nat)
  : option string :=
  if (String.length number <? length)%nat then
    match fuel with
    | O => None
    | S k => zeroPadLoop k ("0" +:+ number) length
    end
  else Some number.

(** [zeroPad(num, length)]: the loop adds one character at a time, so
    [length] iterations are enough *)
Definition zeroPad (num : Z) (length : nat) : option string :=
  zeroPadLoop length (JS.ofZ num) length.

(** ** Further vocabulary of the statements

    *** Reading back what the escaping functions write

    The readers below are those of the SQL dialect the text is written
    for: a string literal ends at the first quote that no backslash
    escapes, a quoted identifier at the first back tick that is not
    doubled. *)

Module Reader.

(** the character a backslash escape stands for *)
Definition unescapeChar (c : ascii) : ascii :=
  if Ascii.eqb c "0" then JS.chr 0
  else if Ascii.eqb c "b" then JS.chr 8
  else if Ascii.eqb c "t" then JS.chr 9
  else if Ascii.eqb c "n" then JS.chr 10
  else if Ascii.eqb c "r" then JS.chr 13
  else if Ascii.eqb c "Z" then JS.chr 26
  else c.

Definition consText (c : ascii) (r : option (string * string))
  : option (string * string) :=
  match r with
  | Some (t, rest) => Some (String c t, rest)
  | None => None
  end.

(** the body of a string literal, read after its opening quote: the text
    it denotes and what follows its closing quote *)
Fixpoint literal (s : string) : option (string * string) :=
  match s with
  | EmptyString => None
  | String c s' =>
      if Ascii.eqb c "'" then Some (EmptyString, s')
      else if Ascii.eqb c "\" then
        match s' with
        | String e s'' => consText (unescapeChar e) (literal s'')
        | EmptyString => None
        end
      else consText c (literal s')
  end.

(** the body of a quoted identifier, read after its opening back tick *)
Fixpoint identifier (s : string) : option (string * string) :=
  match s with
  | EmptyString => None
  | String c s' =>
      if Ascii.eqb c "`" then
        match s' with
        | String c' s'' =>
            if Ascii.eqb c' "`" then consText "`" (identifier s'')
            else Some (EmptyString, s')
        | EmptyString => Some (EmptyString, s')
        end
      else consText c (identifier s')
  end.

End Reader.

(** [s.split(c)] for a one-character separator *)
Fixpoint split (c : ascii) (s : string) : list string :=
  match s with
  | EmptyString => [EmptyString]
  | String x s' =>
      if Ascii.eqb x c then EmptyString :: split c s'
      else match split c s' with
           | p :: r => String x p :: r
           | [] => [String x EmptyString]
           end
  end.

(** [s] starts with the character [c] *)
Definition startsChar (c : ascii) (s : string) : bool :=
  match s with
  | String x _ => Ascii.eqb x c
  | EmptyString => false
  end.

(** [n] zeros *)
Fixpoint zeros (n : nat) : string :=
  match n with
  | O => EmptyString
  | S k => String "0" (zeros k)
  end.

(** *** White space *)

(** a text with a character that is no white space at either end *)
Definition edged (s : string) : Prop :=
  exists c r, s = String c r /\ JS.is_ws c = false
              /\ JS.trimEnd (String c r) = String c r.

(** *** Templates *)

(** a template put back together from its tokens *)
Fixpoint untokens (ts : list SqlString.token) : string :=
  match ts with
  | [] => EmptyString
  | SqlString.Text t :: r => t +:+ untokens r
  | SqlString.Marks n :: r => SqlString.marks n +:+ untokens r
  end.

(** no run of exactly three question marks in the template *)
Definition noTriple (tpl : string) : bool :=
  forallb (fun t => match t with
                    | SqlString.Marks 3 => false
                    | _ => true
                    end) (SqlString.tokens tpl).

(** every character of [s] is a word character of [[\w$]] *)
Fixpoint word (s : string) : bool :=
  match s with
  | EmptyString => true
  | String c s' => utils.isWord c && word s'
  end.

(** [s] does not start with a word character *)
Definition wordEnds (s : string) : bool :=
  match s with
  | String c _ => negb (utils.isWord c)
  | EmptyString => true
  end.

(** the colons of a named placeholder after its first one *)
Definition colonsText (k : nat) : string :=
  match k with
  | O => ""
  | S O => ":"
  | _ => "::"
  end.

(** [typeof v === "string"] *)
Definition isString (v : value) : bool :=
  match v with
  | VStr _ => true
  | _ => false
  end.

(** *** Mappings *)

(** the keys of a mapping are distinct, as those of an object are *)
Fixpoint distinct (l : list string) : bool :=
  match l with
  | [] => true
  | x :: r => negb (existsb (String.eqb x) r) && distinct r
  end.

(** [null], a boolean, a number or a string *)
Definition scalar (v : value) : bool :=
  match v with
  | VNull | VBool _ | VNum _ | VStr _ => true
  | _ => false
  end.

(** an object with exactly one key, an array with exactly one element *)
Definition single (v : value) : bool :=
  match own_props v with
  | Some [_] => true
  | _ => false
  end.

(** [k=v] as the condition compiler and the update compiler write it *)
Definition assignment (p : string * value) : string :=
  utils.sqlEscapeId (VStr (fst p)) +:+ "=" +:+ utils.sqlEscape (snd p).

(** the operators of a condition object *)
Definition conditionOperators : list string :=
  ["$isNull"; "$isNotNull"; "$lt"; "$lte"; "$gt"; "$gte"; "$eq"; "$ne";
   "$in"; "$notIn"; "$like"; "$notLike"; "$raw"].

(** the operators of an update object *)
Definition updateOperators : list string := ["$incr"; "$decr"; "$raw"].

Definition oneOf (l : list string) (op : string) : bool :=
  existsb (String.eqb op) l.

(** the comparison operators of a condition object and their signs *)
Definition comparisons : list string :=
  ["$lt"; "$lte"; "$gt"; "$gte"; "$eq"; "$ne"].

Definition sign (op : string) : string :=
  if String.eqb op "$lt" then "<"
  else if String.eqb op "$lte" then "<="
  else if String.eqb op "$gt" then ">"
  else if String.eqb op "$gte" then ">="
  else if String.eqb op "$eq" then "="
  else "<>".

(** [f sign v] as the condition compiler writes a comparison *)
Definition comparison (f : string) (p : string * value) : string :=
  utils.sqlEscapeId (VStr f) +:+ sign (fst p) +:+ utils.sqlEscape (snd p).

(** *** What the methods of a builder keep *)

(** every call of [m] takes a state to one related to it by [R] *)
Definition always {A} (R : Data.t -> Data.t -> Prop) (m : QueryBuilder.M A)
  : Prop :=
  forall d, R d (fst (m d)).

(** the table of the builder is the same *)
Definition sameTable (d d' : Data.t) : Prop :=
  Data.tableName d' = Data.tableName d
  /\ Data.tableNameEscaped d' = Data.tableNameEscaped d.

(** the conditions registered are the same *)
Definition sameConditions (d d' : Data.t) : Prop :=
  Data.conditions d' = Data.conditions d.

(** the conditions registered are still there, in their places *)
Definition moreConditions (d d' : Data.t) : Prop :=
  exists k, Data.conditions d' = Data.conditions d ++ k.

(** a method that assigns nothing *)
Definition reads {A} (m : QueryBuilder.M A) : Prop :=
  forall d, fst (m d) = d.

(** a method that never throws *)
Definition total {A} (m : QueryBuilder.M A) : Prop :=
  forall d, exists a, snd (m d) = Ok a.

(** a method that has assigned nothing when it throws *)
Definition atomic {A} (m : QueryBuilder.M A) : Prop :=
  forall d e, snd (m d) = Throw e -> fst (m d) = d.

(** the calls that check everything before they assign: all but the type
    setters that take data, [options], [build], and a condition mapping
    with a [$raw] key *)
Definition guarded (c : QueryBuilder.call) : bool :=
  match c with
  | QueryBuilder.Call_select _ | QueryBuilder.Call_selectDistinct _
  | QueryBuilder.Call_update _ _ | QueryBuilder.Call_insert _
  | QueryBuilder.Call_options _ | QueryBuilder.Call_build => false
  | QueryBuilder.Call_where (QueryBuilder.Mapping o) _
  | QueryBuilder.Call_and (QueryBuilder.Mapping o) _ =>
      negb (Obj.has "$raw" o)
  | _ => true
  end.

(** the calls that name the table *)
Definition namesTable (c : QueryBuilder.call) : bool :=
  match c with
  | QueryBuilder.Call_table _ | QueryBuilder.Call_into _
  | QueryBuilder.Call_from _ => true
  | _ => false
  end.

(** the calls that register conditions *)
Definition addsConditions (c : QueryBuilder.call) : bool :=
  match c with
  | QueryBuilder.Call_where _ _ | QueryBuilder.Call_and _ _ => true
  | _ => false
  end.

(** *** What [build] writes *)

(** the WHERE clause of the conditions *)
Definition whereClause (conditions : list string) : string :=
  if (0 <? length conditions)%nat
  then "WHERE " +:+ JS.join " AND " conditions
  else "".

(** the field list of a SELECT without joined tables *)
Definition selectedFields (fs : list string) : list string :=
  match utils.formatFields "" fs with
  | [] => ["*"]
  | f => f
  end.

(** the conditions [build] keeps: trimmed, the empty ones left out *)
Definition keptConditions (trimmed : list string) : list string :=
  List.filter QueryBuilder.truthy trimmed.

(** the query type is SELECT or SELECT DISTINCT *)
Definition selects (d : Data.t) : bool :=
  String.eqb (Data.type d) "SELECT"
  || String.eqb (Data.type d) "SELECT DISTINCT".

(** a condition text that can be registered as it is: no run of exactly
    three question marks, and not empty once trimmed *)
Definition clean (c : string) : bool :=
  noTriple c && negb (JS.is_empty (JS.trim c)).

(** [.and(c)] for a condition text *)
Definition andText (c : string) : QueryBuilder.call :=
  QueryBuilder.Call_and (QueryBuilder.Text c) utils.NoValues.

(** *** Plain data

    What [JSON.stringify] writes in full: no [undefined], no function, no
    object with methods. *)

Fixpoint plain (v : value) : bool :=
  let plainProps :=
    fix plainProps (o : list (string * value)) : bool :=
      match o with
      | [] => true
      | (_, x) :: r => plain x && plainProps r
      end in
  match v with
  | VUndefined => false
  | VNull | VBool _ | VNum _ | VStr _ => true
  | VArr l => forallb plain l
  | VObj o => plainProps o
  | VRaw _ | VBuilder _ _ => false
  end.

(** the state of a builder holds plain data only *)
Definition plainData (d : Data.t) : Prop :=
  forallb plain (Data.conditions d) = true
  /\ forallb plain (Data.sqlValues d) = true
  /\ forall a, Data.mapAliasToTable d !! a <> Some None.

(** *** Induction on values *)

Section Values.

Variable P : value -> Prop.
Hypothesis (HUndefined : P VUndefined) (HNull : P VNull).
Hypothesis (HBool : forall b, P (VBool b)) (HNum : forall n, P (VNum n)).
Hypothesis (HStr : forall s, P (VStr s)) (HRaw : forall s, P (VRaw s)).
Hypothesis HArr : forall l, Forall P l -> P (VArr l).
Hypothesis HObj : forall o, Forall (fun p => P (snd p)) o -> P (VObj o).
Hypothesis HBuilder :
  forall own r, Forall (fun p => P (snd p)) own -> P (VBuilder own r).

(** induction on a value, through its arrays and objects *)
Fixpoint value_induction (v : value) : P v :=
  let props_induction :=
    fix props_induction (o : list (string * value))
      : Forall (fun p => P (snd p)) o :=
      match o with
      | [] => List.Forall_nil _
      | (k, x) :: r =>
          @List.Forall_cons _ (fun p => P (snd p)) (k, x) r (value_induction x)
            (props_induction r)
      end in
  match v with
  | VUndefined => HUndefined
  | VNull => HNull
  | VBool b => HBool b
  | VNum n => HNum n
  | VStr s => HStr s
  | VArr l =>
      HArr l ((fix list_induction (l : list value) : Forall P l :=
                 match l with
                 | [] => List.Forall_nil _
                 | x :: r =>
                     @List.Forall_cons _ P x r (value_induction x)
                       (list_induction r)
                 end) l)
  | VObj o => HObj o (props_induction o)
  | VRaw s => HRaw s
  | VBuilder own r => HBuilder own r (props_induction own)
  end.

End Values.

(** * Replaying the test suites of the repository *)

Module SqlStringTests.
Import SqlString.

Example escapeId_quoted : escapeId (VStr "id") false = "`id`".
Proof. reflexivity. Qed.
Example escapeId_number : escapeId (VNum 42) false = "`42`".
Proof. reflexivity. Qed.
Example escapeId_both :
  escapeId (VStr "id`1.i`d2") false = "`id``1`.`i``d2`".
Proof. reflexivity. Qed.
Example escapeId_forbid : escapeId (VStr "id1.id2") true = "`id1.id2`".
Proof. reflexivity. Qed.
Example escapeId_nested :
  escapeId (VArr [VStr "a"; VArr [VStr "b"; VArr [VStr "t.c"]]]) false
  = "`a`, `b`, `t`.`c`".
Proof. reflexivity. Qed.
Example escape_object :
  escape (VObj [("a", VStr "b"); ("c", VStr "d")]) false
  = "`a` = 'b', `c` = 'd'".
Proof. reflexivity. Qed.
Example escape_nested_object :
  escape (VObj [("a", VObj [("nested", VBool true)])]) false
  = "`a` = '[object Object]'".
Proof. reflexivity. Qed.
Example escape_raw_in_object :
  escape (VObj [("id", VRaw "LAST_INSERT_ID()")]) false
  = "`id` = LAST_INSERT_ID()".
Proof. reflexivity. Qed.
Example escape_array :
  escape (VArr [VNum 1; VNum 2; VStr "c"]) false = "1, 2, 'c'".
Proof. reflexivity. Qed.
Example escape_nested_arrays :
  escape (VArr [VArr [VNum 1; VNum 2; VNum 3]; VArr [VNum 4; VNum 5; VNum 6];
                VArr [VStr "a"; VStr "b"; VObj [("nested", VBool true)]]])
         false
  = "(1, 2, 3), (4, 5, 6), ('a', 'b', '[object Object]')".
Proof. reflexivity. Qed.
Example escape_quote : escape (VStr "Sup'er") false = "'Sup\'er'".
Proof. reflexivity. Qed.
Example escape_backslash : escape (VStr "Super\") false = "'Super\\'".
Proof. reflexivity. Qed.
Example format_values :
  format "? and ?" [VStr "a"; VStr "b"] = "'a' and 'b'".
Proof. reflexivity. Qed.
Example format_id :
  format "SELECT * FROM ?? WHERE id = ?" [VStr "table"; VNum 42]
  = "SELECT * FROM `table` WHERE id = 42".
Proof. reflexivity. Qed.
Example format_triple :
  format "? or ??? and ?" [VStr "foo"; VStr "bar"; VStr "fizz"; VStr "buzz"]
  = "'foo' or ??? and 'bar'".
Proof. reflexivity. Qed.
Example format_extra_marks : format "? and ?" [VStr "a"] = "'a' and ?".
Proof. reflexivity. Qed.
Example format_extra_values :
  format "? and ?" [VStr "a"; VStr "b"; VStr "c"] = "'a' and 'b'".
Proof. reflexivity. Qed.
Example format_marks_in_values :
  format "? and ?" [VStr "hello?"; VStr "b"] = "'hello?' and 'b'".
Proof. reflexivity. Qed.

End SqlStringTests.

Module UtilsTests.
Import utils Fixtures.

Example cond_lt_lte :
  sqlConditionStrings [("a", VObj [("$lt", VNum 123); ("$lte", VNum 456)])]
  = Ok ["`a`<123"; "`a`<=456"].
Proof. reflexivity. Qed.
Example cond_eq :
  sqlConditionStrings [("a", VObj [("$eq", VStr "aaa")])] = Ok ["`a`='aaa'"].
Proof. reflexivity. Qed.
Example cond_like :
  sqlConditionStrings [("a", VObj [("$like", VStr "xx%")])]
  = Ok ["`a` LIKE 'xx%'"].
Proof. reflexivity. Qed.
Example cond_in :
  sqlConditionStrings [("a", VObj [("$in", VArr [VNum 1; VNum 2; VNum 3])])]
  = Ok ["`a` IN (1, 2, 3)"].
Proof. reflexivity. Qed.
Example cond_in_builder :
  sqlConditionStrings [("a", VObj [("$in", TestQuery)])] = Ok ["`a` IN (xxx)"].
Proof. reflexivity. Qed.
Example cond_in_empty :
  sqlConditionStrings [("a", VObj [("$in", VArr [])])]
  = Ok ["0 /* empty list warn: `a` IN () */"].
Proof. reflexivity. Qed.
Example cond_notIn_empty :
  sqlConditionStrings [("a", VObj [("$notIn", VArr [])])]
  = Ok ["1 /* empty list warn: `a` NOT IN () */"].
Proof. reflexivity. Qed.
Example cond_unknown :
  sqlConditionStrings [("a", VObj [("$xxx", VNum 1)])]
  = Throw (Error "condition type $xxx does not supported").
Proof. reflexivity. Qed.
Example cond_in_not_array :
  sqlConditionStrings [("a", VObj [("$in", VBool false)])]
  = Throw (Error "value for condition type $in in field a must be an array").
Proof. reflexivity. Qed.
Example cond_in_build_not_string :
  sqlConditionStrings [("a", VObj [("$in", TestQuery2)])]
  = Throw (AssertionError
             "sqlConditionStrings: values[a].in.build() must return a string").
Proof. reflexivity. Qed.

Example sqlFormat_all :
  sqlFormat "a=? AND ??=? AND ??? AND ??? AND d=?"
            [VNum 123; VStr "b"; VNum 456; TestQuery; VStr "yyy"; VNum 789]
  = Ok "a=123 AND `b`=456 AND (xxx) AND yyy AND d=789".
Proof. reflexivity. Qed.
Example sqlFormat_number :
  sqlFormat "???" [VNum 123]
  = Throw (Error "sqlFormat: values[0] for ??? must be a string or QueryBuilder instance but got 123").
Proof. reflexivity. Qed.
Example sqlFormat_build_not_string :
  sqlFormat "???" [TestQuery2]
  = Throw (AssertionError "sqlFormat: values[0].build() must return a string").
Proof. reflexivity. Qed.

Example sqlFormatObject_all :
  sqlFormatObject "a=:1 AND ::2=:3 AND :::4 AND :::5 AND d=:6"
    [("1", VNum 123); ("2", VStr "b"); ("3", VNum 456); ("4", TestQuery);
     ("5", VStr "yyy"); ("6", VNum 789)] false
  = Ok "a=123 AND `b`=456 AND (xxx) AND yyy AND d=789".
Proof. reflexivity. Qed.
Example sqlFormatObject_number :
  sqlFormatObject ":::a" [("a", VNum 123)] false
  = Throw (Error "sqlFormatObject: value for :::a must be a string or QueryBuilder instance but got 123").
Proof. reflexivity. Qed.
Example sqlFormatObject_absent : sqlFormatObject ":a" [] false = Ok ":a".
Proof. reflexivity. Qed.
Example sqlFormatObject_four_colons :
  sqlFormatObject "::::a" [("a", VStr "x")] false = Ok ":x".
Proof. reflexivity. Qed.

Example update_incr :
  sqlUpdateString [("a", VObj [("$incr", VNum 123)])] = Ok "`a`=`a`+(123)".
Proof. reflexivity. Qed.
Example update_decr :
  sqlUpdateString [("a", VObj [("$decr", VNum 123)])] = Ok "`a`=`a`-(123)".
Proof. reflexivity. Qed.
Example update_raw :
  sqlUpdateString [("a", VObj [("$raw", VStr "now()")])] = Ok "`a`=now()".
Proof. reflexivity. Qed.
Example update_unknown :
  sqlUpdateString [("a", VObj [("$xxx", VNum 123)])]
  = Throw (Error "update type $xxx does not supported").
Proof. reflexivity. Qed.

End UtilsTests.

Module QueryTests.
Import QueryBuilder utils Fixtures.

Example static_select :
  Q [Call_select ["a"; "b"]; Call_from "hello";
     Call_where (obj [("a", VNum 1)]) NoValues]
  = Ok "SELECT `a`, `b` FROM `hello` WHERE `a`=1".
Proof. vm_compute. reflexivity. Qed.

Example static_insert :
  Q [Call_insert (Row [("a", VNum 123); ("b", VNum 456)]); Call_into "hello"]
  = Ok "INSERT INTO `hello` (`a`, `b`) VALUES (123, 456)".
Proof. vm_compute. reflexivity. Qed.

Example static_insert_rows :
  Q [Call_insert (Rows [[("a", VNum 123); ("b", VNum 456)];
                        [("a", VNum 789); ("b", VNum 111)]]);
     Call_into "hello"]
  = Ok ("INSERT INTO `hello` (`a`, `b`) VALUES (123, 456)," +:+ JS.nl
          +:+ "(789, 111)").
Proof. vm_compute. reflexivity. Qed.

Example static_update :
  Q [Call_update None NoValues; Call_table "abc";
     Call_set (UpdateObject [("a", VNum 123); ("b", VNum 456)]) NoValues;
     Call_where (obj [("c", VNum 789)]) NoValues]
  = Ok "UPDATE `abc` SET `a`=123, `b`=456 WHERE `c`=789".
Proof. vm_compute. reflexivity. Qed.

Example static_delete :
  Q [Call_delete; Call_from "abc"; Call_where (obj [("a", VNum 666)]) NoValues;
     Call_limit 10]
  = Ok "DELETE FROM `abc` WHERE `a`=666 LIMIT 10".
Proof. vm_compute. reflexivity. Qed.

Example leftJoin_on :
  Q [Call_select ["*"]; Call_from "hello"; Call_as "A";
     Call_leftJoin "world" []; Call_as "B"; Call_on "A.id=B.id" NoValues;
     Call_where (Text "1") NoValues; Call_and (Text "2") NoValues;
     Call_offset 2; Call_limit 3]
  = Ok "SELECT `A`.* FROM `hello` AS `A` LEFT JOIN `world` AS `B` ON A.id=B.id WHERE 1 AND 2 LIMIT 2,3".
Proof. vm_compute. reflexivity. Qed.

Example leftJoin_only_joined_fields :
  Q [Call_select []; Call_from "hello"; Call_as "A";
     Call_leftJoin "world" ["*"]; Call_as "B"; Call_on "A.id=B.id" NoValues;
     Call_where (Text "1") NoValues; Call_and (Text "2") NoValues;
     Call_offset 2; Call_limit 3]
  = Ok "SELECT `B`.* FROM `hello` AS `A` LEFT JOIN `world` AS `B` ON A.id=B.id WHERE 1 AND 2 LIMIT 2,3".
Proof. vm_compute. reflexivity. Qed.

Example leftJoin_without_as :
  Q [Call_select ["x"; "y"]; Call_from "hello"; Call_leftJoin "world" ["z"];
     Call_on "hello.id=world.id" NoValues;
     Call_where (Text "1") NoValues; Call_and (Text "2") NoValues;
     Call_offset 2; Call_limit 3]
  = Ok "SELECT `hello`.`x`, `hello`.`y`, `world`.`z` FROM `hello` LEFT JOIN `world` ON hello.id=world.id WHERE 1 AND 2 LIMIT 2,3".
Proof. vm_compute. reflexivity. Qed.

Example join_two_tables :
  Q [Call_select ["x"; "y"]; Call_from "hello"; Call_as "A";
     Call_leftJoin "world" ["z"]; Call_as "B"; Call_on "A.id=B.id" NoValues;
     Call_leftJoin "world" ["k"]; Call_as "C"; Call_on "B.uid=C.id" NoValues;
     Call_where (Text "1") NoValues; Call_and (Text "2") NoValues;
     Call_offset 2; Call_limit 3]
  = Ok "SELECT `A`.`x`, `A`.`y`, `B`.`z`, `C`.`k` FROM `hello` AS `A` LEFT JOIN `world` AS `B` ON A.id=B.id LEFT JOIN `world` AS `C` ON B.uid=C.id WHERE 1 AND 2 LIMIT 2,3".
Proof. vm_compute. reflexivity. Qed.

Example join_count :
  Q [Call_select ["x"; "y"; "count(y) AS c1"]; Call_from "hello"; Call_as "A";
     Call_join "world" ["z"; "count(z) as c2"]; Call_as "B";
     Call_on "A.id=B.id" NoValues;
     Call_where (Text "1") NoValues; Call_and (Text "2") NoValues;
     Call_offset 2; Call_limit 3]
  = Ok "SELECT `A`.`x`, `A`.`y`, count(y) AS c1, `B`.`z`, count(z) as c2 FROM `hello` AS `A` JOIN `world` AS `B` ON A.id=B.id WHERE 1 AND 2 LIMIT 2,3".
Proof. vm_compute. reflexivity. Qed.

Example sub_query1 :
  Q [Call_select ["*"]; Call_from "test1";
     Call_where (Text "a=? AND b IN ???") (ArrayValues [VNum 123; sub inner])]
  = Ok "SELECT * FROM `test1` WHERE a=123 AND b IN (SELECT `id` FROM `test2` WHERE `id`<10 LIMIT 100)".
Proof. vm_compute. reflexivity. Qed.

Example sub_query2 :
  Q [Call_select ["*"]; Call_from "test1";
     Call_where (Text "a=:a AND b IN :::b")
       (ObjectValues [("a", VNum 123); ("b", sub inner)])]
  = Ok "SELECT * FROM `test1` WHERE a=123 AND b IN (SELECT `id` FROM `test2` WHERE `id`<10 LIMIT 100)".
Proof. vm_compute. reflexivity. Qed.

Example sub_query3 :
  Q [Call_select ["*"]; Call_from "test1";
     Call_where (obj [("a", VNum 123); ("b", VObj [("$in", sub inner)])])
       NoValues]
  = Ok "SELECT * FROM `test1` WHERE `a`=123 AND `b` IN (SELECT `id` FROM `test2` WHERE `id`<10 LIMIT 100)".
Proof. vm_compute. reflexivity. Qed.

Example select_raw :
  Q [Call_select ["*"]; Call_from "test1";
     Call_where (obj [("a", VNum 123); ("$raw", VStr "a > b")]) NoValues]
  = Ok "SELECT * FROM `test1` WHERE a > b AND `a`=123".
Proof. vm_compute. reflexivity. Qed.

Example select_skip :
  Q [Call_table "test1"; Call_select ["name"; "age"];
     Call_where (obj [("a", VNum 123); ("b", VNum 456)]) NoValues;
     Call_skip 10]
  = Ok "SELECT `name`, `age` FROM `test1` WHERE `a`=123 AND `b`=456 LIMIT 10,18446744073709551615".
Proof. vm_compute. reflexivity. Qed.

Example select_multi_orderBy :
  Q [Call_table "test1"; Call_select ["name"; "age"];
     Call_where (obj [("a", VNum 123); ("b", VNum 456)]) NoValues;
     Call_offset 10; Call_limit 20;
     Call_orderBy "`a` ?, `b` ?" (ArrayValues [VStr "DESC"; VStr "ASC"])]
  = Ok "SELECT `name`, `age` FROM `test1` WHERE `a`=123 AND `b`=456 ORDER BY `a` DESC, `b` ASC LIMIT 10,20".
Proof. vm_compute. reflexivity. Qed.

Example select_groupBy_having :
  Q [Call_table "test1"; Call_select ["name"; "age"];
     Call_where (obj [("a", VNum 123)]) NoValues;
     Call_offset 10; Call_limit 20; Call_groupBy ["a"; "b"];
     Call_having "COUNT(`a`)>?" (ArrayValues [VNum 789])]
  = Ok "SELECT `name`, `age` FROM `test1` WHERE `a`=123 GROUP BY `a`, `b` HAVING COUNT(`a`)>789 LIMIT 10,20".
Proof. vm_compute. reflexivity. Qed.

Example count_limit :
  Q [Call_table "test1"; Call_count (Some "c") None;
     Call_where (obj [("a", VNum 456); ("b", VNum 789)]) NoValues;
     Call_limit 1]
  = Ok "SELECT COUNT(*) AS `c` FROM `test1` WHERE `a`=456 AND `b`=789 LIMIT 1".
Proof. vm_compute. reflexivity. Qed.

Example update_text :
  Q [Call_table "test1";
     Call_update (Some (UpdateText "a=:a, b=:b"))
       (ObjectValues [("a", VNum 123); ("b", VNum 456)])]
  = Ok "UPDATE `test1` SET a=123, b=456".
Proof. vm_compute. reflexivity. Qed.

Example update_wrong_type :
  Q [Call_table "test1"; Call_set (UpdateObject [("a", VNum 1)]) NoValues]
  = Throw (AssertionError
             "query type must be UPDATE, please call .update() before").
Proof. vm_compute. reflexivity. Qed.

Example update_empty :
  Q [Call_table "test1"; Call_update None NoValues]
  = Throw (AssertionError "update data connot be empty").
Proof. vm_compute. reflexivity. Qed.

Example update_empty_object_then_set :
  Q [Call_table "test1"; Call_update (Some (UpdateObject [])) NoValues;
     Call_set (UpdateObject [("a", VNum 456)]) NoValues;
     Call_where (obj [("a", VNum 123)]) NoValues; Call_limit 456]
  = Ok "UPDATE `test1` SET `a`=456 WHERE `a`=123 LIMIT 456".
Proof. vm_compute. reflexivity. Qed.

Example insert_or_update :
  Q [Call_table "test1";
     Call_insert (Row [("a", VNum 123); ("b", VNum 456)]);
     Call_onDuplicateKeyUpdate;
     Call_set (UpdateObject [("a", VStr "xxx")]) NoValues]
  = Ok "INSERT INTO `test1` (`a`, `b`) VALUES (123, 456) ON DUPLICATE KEY UPDATE `a`='xxx'".
Proof. vm_compute. reflexivity. Qed.

Example insert_or_update_two_rows :
  Q [Call_table "test1";
     Call_insert (Rows [[("a", VNum 123); ("b", VNum 456)];
                        [("a", VNum 111); ("b", VNum 222)]]);
     Call_onDuplicateKeyUpdate;
     Call_set (UpdateObject [("a", VStr "xxx")]) NoValues]
  = Throw (AssertionError
             "onDuplicateKeyUpdate() must have inserted one row, but actually inserted 2 rows").
Proof. vm_compute. reflexivity. Qed.

Example insert_or_update_after_select :
  Q [Call_table "test1"; Call_select ["*"]; Call_onDuplicateKeyUpdate]
  = Throw (AssertionError
             "onDuplicateKeyUpdate() must be called after insert()").
Proof. vm_compute. reflexivity. Qed.

Example delete_all : Q [Call_table "test1"; Call_delete] = Ok "DELETE FROM `test1`".
Proof. vm_compute. reflexivity. Qed.

Example sql_macros :
  Q [Call_table "test1";
     Call_sql ("SELECT JSON_OBJECT(" +:+ JS.dq +:+ "key1" +:+ JS.dq
                 +:+ ", 1) as `data` :$orderBy :$limit") NoValues;
     Call_limit 10; Call_offset 5; Call_orderBy "`id` ASC" NoValues]
  = Ok ("SELECT JSON_OBJECT(" +:+ JS.dq +:+ "key1" +:+ JS.dq
          +:+ ", 1) as `data` ORDER BY `id` ASC LIMIT 5,10").
Proof. vm_compute. reflexivity. Qed.

Example options_offset_limit :
  Q [Call_table "test1"; Call_select [];
     Call_options {| opt_skip := None; opt_offset := Some 1;
                     opt_limit := Some 2; opt_orderBy := Some "`id` DESC";
                     opt_groupBy := Some "name";
                     opt_fields := Some ["id"; "name"] |}]
  = Ok "SELECT `id`, `name` FROM `test1` GROUP BY `name` ORDER BY `id` DESC LIMIT 1,2".
Proof. vm_compute. reflexivity. Qed.

Example where_empty_mapping_select :
  Q [Call_table "test1"; Call_select ["name"; "age"];
     Call_where (obj []) NoValues]
  = Ok "SELECT `name`, `age` FROM `test1`".
Proof. vm_compute. reflexivity. Qed.

Example where_blank_select :
  Q [Call_table "test1"; Call_select ["name"; "age"];
     Call_where (Text "   ") NoValues]
  = Ok "SELECT `name`, `age` FROM `test1`".
Proof. vm_compute. reflexivity. Qed.

Example where_empty_mapping_update :
  Q [Call_table "test1";
     Call_update (Some (UpdateObject [("a", VNum 123)])) NoValues;
     Call_where (obj []) NoValues]
  = Throw (AssertionError Messages.conditionCannotBeEmpty).
Proof. vm_compute. reflexivity. Qed.

Example where_blank_delete :
  Q [Call_table "test1"; Call_delete; Call_where (Text "   ") NoValues]
  = Throw (AssertionError Messages.conditionCannotBeEmpty).
Proof. vm_compute. reflexivity. Qed.

Example where_undefined_keys :
  Q [Call_table "test1"; Call_select ["name"; "age"];
     Call_where (obj [("a", VNum 123); ("b", VNum 456); ("c", VUndefined);
                      ("d", VUndefined)]) NoValues]
  = Throw (AssertionError
             "Found undefined value for condition keys c,d; it may cause unexpected errors").
Proof. vm_compute. reflexivity. Qed.

Example where_operators :
  Q [Call_table "test1"; Call_select [];
     Call_where
       (obj [("a", VObj [("$eq", VNum 1)]); ("b", VObj [("$gt", VNum 2)]);
             ("c", VObj [("$gte", VNum 3)]); ("d", VObj [("$lt", VNum 4)]);
             ("e", VObj [("$lte", VNum 5)]);
             ("f", VObj [("$isNull", VBool true)]);
             ("g", VObj [("$isNotNull", VBool true)]);
             ("h", VObj [("$like", VStr "a")]);
             ("i", VObj [("$notLike", VStr "b")]);
             ("j", VObj [("$in", VArr [VStr "c"])]);
             ("k", VObj [("$notIn", VArr [VStr "d"])]);
             ("l", VObj [("$ne", VStr "x")]);
             ("m", VObj [("$raw", VStr "CURRENT_TIMESTAMP")])]) NoValues]
  = Ok "SELECT * FROM `test1` WHERE `a`=1 AND `b`>2 AND `c`>=3 AND `d`<4 AND `e`<=5 AND `f` IS NULL AND `g` IS NOT NULL AND `h` LIKE 'a' AND `i` NOT LIKE 'b' AND `j` IN ('c') AND `k` NOT IN ('d') AND `l`<>'x' AND `m`=CURRENT_TIMESTAMP".
Proof. vm_compute. reflexivity. Qed.

Example update_operators :
  Q [Call_table "test1";
     Call_update
       (Some (UpdateObject [("a", VObj [("$incr", VNum 1)]);
                            ("b", VObj [("$decr", VNum 2)]);
                            ("c", VObj [("$raw", VStr "CURRENT_TIMESTAMP")])]))
       NoValues;
     Call_where (obj [("a", VNum 2)]) NoValues]
  = Ok "UPDATE `test1` SET `a`=`a`+(1), `b`=`b`-(2), `c`=CURRENT_TIMESTAMP WHERE `a`=2".
Proof. vm_compute. reflexivity. Qed.

Example build_without_type :
  Q [Call_table "test1"]
  = Throw (Error ("invalid query type " +:+ JS.dq +:+ JS.dq)).
Proof. vm_compute. reflexivity. Qed.

End QueryTests.

Module ExprTests.
Import utils Fixtures.

Example expr_and :
  rbind (E [Expression.and_ (Expression.Text "a=?") (ArrayValues [VNum 123]);
            Expression.and_ (Expression.Mapping [("b", VNum 456)]) NoValues;
            Expression.and_
              (Expression.Mapping [("c", VObj [("$in", VArr [VNum 789])])])
              NoValues])
        Expression.build
  = Ok "(a=123 AND `b`=456 AND `c` IN (789))".
Proof. vm_compute. reflexivity. Qed.

Example expr_and_or :
  rbind (E [Expression.and_ (Expression.Text "a=?") (ArrayValues [VNum 123]);
            Expression.or_ (Expression.Mapping [("b", VNum 456)]) NoValues;
            Expression.and_
              (Expression.Mapping [("c", VObj [("$in", VArr [VNum 789])])])
              NoValues;
            Expression.or_ (Expression.Text "d=:d")
              (ObjectValues [("d", VNum 666)])])
        Expression.build
  = Ok "(a=123 OR `b`=456 AND `c` IN (789) OR d=666)".
Proof. vm_compute. reflexivity. Qed.

End ExprTests.

Module CloneTests.
Import QueryBuilder utils.

(** "query clone": two clones of [q] are extended and built, one after the
    other *)
Example query_clone :
  let σ1 := fst (Store.clone 0 cloneTest) in
  let σ2 :=
    Store.steps
      [Store.Call 1 (Call_where (Mapping [("b", VNum 456)]) NoValues);
       Store.Call 1 (Call_offset 10); Store.Call 1 (Call_limit 20)] σ1 in
  let σ3 := fst (Store.clone 0 (fst (Store.invoke 1 build σ2))) in
  let σ4 :=
    Store.steps
      [Store.Call 2 (Call_where (Mapping [("b", VNum 789); ("c", VNum 666)])
                       NoValues);
       Store.Call 2 (Call_orderBy "a DESC" NoValues)] σ3 in
  Store.built 1 σ2
  = Some (Ok "SELECT * FROM `test1` WHERE `a`=123 AND `b`=456 LIMIT 10,20")
  /\ Store.built 2 σ4
     = Some (Ok "SELECT * FROM `test1` WHERE `a`=123 AND `b`=789 AND `c`=666 ORDER BY a DESC").
Proof. split; vm_compute; reflexivity. Qed.

End CloneTests.

(** * Properties *)

(** ** Strings *)

#[local] Arguments String.append !s1 s2.

Section StringFacts.

Lemma append_nil_r (s : string) : s +:+ "" = s.
Proof. induction s as [|c s IH]; [reflexivity | simpl; f_equal; exact IH]. Qed.

Lemma append_assoc (a b c : string) : (a +:+ b) +:+ c = a +:+ (b +:+ c).
Proof. induction a as [|x a IH]; [reflexivity | simpl; f_equal; exact IH]. Qed.

Lemma is_empty_true (s : string) : JS.is_empty s = true <-> s = "".
Proof. destruct s; simpl; split; intros H; try reflexivity; discriminate. Qed.

Lemma string_eqb_refl (s : string) : String.eqb s s = true.
Proof. apply String.eqb_refl. Qed.

End StringFacts.

(** ** C7: the fragments of [$in] and [$notIn] *)

Lemma replaceChar_absent (c : ascii) (by_ s : string) :
  noChar c s = true -> JS.replaceChar c by_ s = s.
Proof.
  induction s as [|x s IH]; [reflexivity|]. simpl.
  intros H. apply andb_true_iff in H as [Hx Hs].
  apply negb_true_iff in Hx. now rewrite Hx, (IH Hs).
Qed.

(** a name without back ticks and dots is put between back ticks *)
Lemma sqlEscapeId_plain (f : string) :
  noChar "`" f = true -> noChar "." f = true ->
  utils.sqlEscapeId (VStr f) = "`" +:+ f +:+ "`".
Proof.
  intros Ht Hd. unfold utils.sqlEscapeId, SqlString.escapeId, toString.
  now rewrite (replaceChar_absent "`" "``" f Ht),
    (replaceChar_absent "." "`.`" f Hd).
Qed.

Section InList.

Variable f : string.

Let name : string := utils.sqlEscapeId (VStr f).

Lemma read_single (k : string) (v : value) : Obj.read k [(k, v)] = v.
Proof. unfold Obj.read; simpl. now rewrite String.eqb_refl. Qed.

Lemma conditionField_in (kw empty op : string) (arg : value) :
  utils.inList f name kw empty op arg
  = match arg with
    | VArr [] =>
        Ok (empty +:+ " /* empty list warn: "
              +:+ (name +:+ " " +:+ kw +:+ " ()") +:+ " */")
    | VArr l =>
        Ok (name +:+ " " +:+ kw +:+ " ("
              +:+ JS.join ", " (map utils.sqlEscape l) +:+ ")")
    | VBuilder _ (BuildString sql) =>
        Ok (name +:+ " " +:+ kw +:+ " (" +:+ sql +:+ ")")
    | VBuilder _ BuildOther =>
        Throw (AssertionError
                 (Messages.methodMustReturnString
                    "sqlConditionStrings" f (Some op)))
    | VBuilder _ (BuildThrows e) => Throw e
    | _ =>
        Throw (Error ("value for condition type $" +:+ op +:+ " in field "
                        +:+ f +:+ " must be an array"))
    end.
Proof.
  destruct arg as [| | | | |l| | |own res]; try reflexivity.
  destruct l; reflexivity.
Qed.

Lemma compile_single (v : value) :
  utils.sqlConditionStrings [(f, v)]
  = rbind (utils.conditionField f v) (fun l => Ok (l ++ [])).
Proof.
  unfold utils.sqlConditionStrings.
  change (Obj.keys [(f, v)]) with [f].
  cbn [utils.sqlConditionFields]. now rewrite read_single.
Qed.

Lemma compile_in (arg : value) :
  utils.sqlConditionStrings [(f, VObj [("$in", arg)])]
  = rbind (utils.inList f name "IN" "0" "in" arg) (fun s => Ok [s]).
Proof.
  rewrite compile_single.
  change (utils.conditionField f (VObj [("$in", arg)]))
    with (rbind (utils.inList f name "IN" "0" "in" arg) (fun y => Ok [y])).
  destruct (utils.inList f name "IN" "0" "in" arg); reflexivity.
Qed.

Lemma compile_notIn (arg : value) :
  utils.sqlConditionStrings [(f, VObj [("$notIn", arg)])]
  = rbind (utils.inList f name "NOT IN" "1" "notIn" arg) (fun s => Ok [s]).
Proof.
  rewrite compile_single.
  change (utils.conditionField f (VObj [("$notIn", arg)]))
    with (rbind (utils.inList f name "NOT IN" "1" "notIn" arg)
                (fun y => Ok [y])).
  destruct (utils.inList f name "NOT IN" "1" "notIn" arg); reflexivity.
Qed.

End InList.

(** C7.  For every field name [f]: [{f: {$in: []}}] compiles to exactly the
    always-false fragment [0 /* empty list warn: `f` IN () */] and
    [{f: {$notIn: []}}] to the always-true fragment
    [1 /* empty list warn: `f` NOT IN () */]; for a non-empty array the
    fragment is [`f` IN (v1, v2, ...)] (respectively [NOT IN]), every element
    escaped; a value that is neither an array nor a builder is an error.
    [`f`] is the escaped identifier of [f]: [f] between back ticks when it
    has no back tick and no dot. *)
Theorem C7_in_list_fragments (f : string) :
  let name := utils.sqlEscapeId (VStr f) in
  utils.sqlConditionStrings [(f, VObj [("$in", VArr [])])]
    = Ok ["0 /* empty list warn: " +:+ name +:+ " IN () */"]
  /\ utils.sqlConditionStrings [(f, VObj [("$notIn", VArr [])])]
    = Ok ["1 /* empty list warn: " +:+ name +:+ " NOT IN () */"]
  /\ (forall v vs,
        utils.sqlConditionStrings [(f, VObj [("$in", VArr (v :: vs))])]
        = Ok [name +:+ " IN ("
                +:+ JS.join ", " (map utils.sqlEscape (v :: vs)) +:+ ")"])
  /\ (forall v vs,
        utils.sqlConditionStrings [(f, VObj [("$notIn", VArr (v :: vs))])]
        = Ok [name +:+ " NOT IN ("
                +:+ JS.join ", " (map utils.sqlEscape (v :: vs)) +:+ ")"])
  /\ (forall x,
        Spec.isArray x = false -> utils.isQueryBuilder x = false ->
        utils.sqlConditionStrings [(f, VObj [("$in", x)])]
        = Throw (Error ("value for condition type $in in field " +:+ f
                          +:+ " must be an array"))
        /\ utils.sqlConditionStrings [(f, VObj [("$notIn", x)])]
        = Throw (Error ("value for condition type $notIn in field " +:+ f
                          +:+ " must be an array")))
  /\ (noChar "`" f = true -> noChar "." f = true ->
      name = "`" +:+ f +:+ "`").
Proof.
  intros name. repeat split; [| | | | | |apply sqlEscapeId_plain].
  - rewrite compile_in, conditionField_in. fold name.
    simpl. now rewrite !append_assoc.
  - rewrite compile_notIn, conditionField_in. fold name.
    simpl. now rewrite !append_assoc.
  - intros v vs. rewrite compile_in, conditionField_in. reflexivity.
  - intros v vs. rewrite compile_notIn, conditionField_in. reflexivity.
  - rewrite compile_in, conditionField_in.
    destruct x; try discriminate; reflexivity.
  - rewrite compile_notIn, conditionField_in.
    destruct x; try discriminate; reflexivity.
Qed.

Lemma C7_in_list_fragments_witness :
  utils.sqlConditionStrings [("a", VObj [("$in", VBool false)])]
  = Throw (Error "value for condition type $in in field a must be an array").
Proof.
  destruct (C7_in_list_fragments "a") as (_ & _ & _ & _ & H & _).
  destruct (H (VBool false)) as [H1 _]; [reflexivity | reflexivity |].
  exact H1.
Defined.

(** ** Reasoning about methods *)

Section Methods.
Import QueryBuilder.

Lemma bind_ok {A B} (m : M A) (k : A -> M B) (d d' : Data.t) (a : A) :
  m d = (d', Ok a) -> bind m k d = k a d'.
Proof. intros H. unfold bind. now rewrite H. Qed.

Lemma bind_throw {A B} (m : M A) (k : A -> M B) (d d' : Data.t) (e : error) :
  m d = (d', Throw e) -> bind m k d = (d', Throw e).
Proof. intros H. unfold bind. now rewrite H. Qed.

Lemma check_true (msg : string) (d : Data.t) : check true msg d = (d, Ok tt).
Proof. reflexivity. Qed.

Lemma check_false (msg : string) (d : Data.t) :
  check false msg d = (d, Throw (AssertionError msg)).
Proof. reflexivity. Qed.

Lemma keepsType_ret {A} (a : A) : keepsType (ret a).
Proof. intros d; reflexivity. Qed.

Lemma keepsType_get : keepsType get.
Proof. intros d; reflexivity. Qed.

Lemma keepsType_lift {A} (r : result A) : keepsType (lift r).
Proof. intros d; reflexivity. Qed.

Lemma keepsType_check (b : bool) (msg : string) : keepsType (check b msg).
Proof. intros d; reflexivity. Qed.

Lemma keepsType_modify (f : Data.t -> Data.t) :
  (forall d, Data.type (f d) = Data.type d) -> keepsType (modify f).
Proof. intros H d; apply H. Qed.

Lemma keepsType_bind {A B} (m : M A) (k : A -> M B) :
  keepsType m -> (forall a, keepsType (k a)) -> keepsType (bind m k).
Proof.
  intros Hm Hk d. unfold bind. specialize (Hm d).
  destruct (m d) as [d' [a|e]]; simpl in *; [|exact Hm].
  now rewrite Hk.
Qed.

End Methods.

Create HintDb keeps.

#[local] Hint Resolve keepsType_ret keepsType_get keepsType_lift
  keepsType_check : keeps.

(** one step of a proof that a method never assigns [type]: the
    combinators by their lemmas, a conditional by cases *)
Ltac keeps_step :=
  match goal with
  | |- keepsType (QueryBuilder.bind _ _) => apply keepsType_bind; [|intros ?]
  | |- keepsType (QueryBuilder.modify _) =>
      apply keepsType_modify; intros []; reflexivity
  | |- keepsType (if ?b then _ else _) => destruct b
  | |- keepsType (match ?x with _ => _ end) => destruct x
  | |- keepsType _ => solve [auto with keeps]
  end.

Ltac keeps := repeat keeps_step.

Section TypeIsKept.
Import QueryBuilder.

Lemma keepsType_table n : keepsType (table n).
Proof. unfold table; keeps. Qed.

Lemma keepsType_setTableAlias t a : keepsType (setTableAlias t a).
Proof. unfold setTableAlias; keeps. Qed.

Lemma keepsType_as n : keepsType (as_ n).
Proof. unfold as_; keeps. apply keepsType_setTableAlias. Qed.

Lemma keepsType_addJoinTable n k fs a : keepsType (addJoinTable n k fs a).
Proof. unfold addJoinTable; keeps. Qed.

Lemma keepsType_on c v : keepsType (on c v).
Proof. unfold on; keeps. Qed.

Lemma keepsType_push c : keepsType (push_condition c).
Proof. unfold push_condition; keeps. Qed.

Lemma keepsType_and c v : keepsType (and_ c v).
Proof. unfold and_; keeps; apply keepsType_push. Qed.

Lemma keepsType_where c v : keepsType (where_ c v).
Proof. unfold where_; destruct c; apply keepsType_and. Qed.

Lemma keepsType_fields fs : keepsType (fields fs).
Proof. unfold fields; keeps. Qed.

Lemma keepsType_set u v : keepsType (set u v).
Proof. unfold set; keeps. Qed.

Lemma keepsType_orderBy t v : keepsType (orderBy t v).
Proof. unfold orderBy; keeps. Qed.

Lemma keepsType_groupBy fs : keepsType (groupBy fs).
Proof. unfold groupBy; keeps. Qed.

Lemma keepsType_having t v : keepsType (having t v).
Proof. unfold having; keeps. Qed.

Lemma keepsType_offset r : keepsType (offset r).
Proof. unfold offset; keeps. Qed.

Lemma keepsType_limit r : keepsType (limit r).
Proof. unfold limit; keeps. Qed.

Lemma keepsType_options o : keepsType (options o).
Proof.
  unfold options, whenSome.
  keeps; auto using keepsType_offset, keepsType_limit, keepsType_orderBy,
    keepsType_groupBy, keepsType_fields.
Qed.

Lemma keepsType_render data conditions : keepsType (render data conditions).
Proof. unfold render; keeps. Qed.

Lemma keepsType_build : keepsType build.
Proof. unfold build; keeps. apply keepsType_render. Qed.

(** once the type is set, [setType] throws and assigns nothing *)
Lemma setType_set (t : string) (d : Data.t) :
  Data.type d <> "" ->
  setType t d = (d, Throw (AssertionError (typeGuardMessage d))).
Proof.
  intros H. unfold setType, bind, get, check, lift, assert.
  apply String.eqb_neq in H. now rewrite H.
Qed.

Lemma setType_unset (t : string) (d : Data.t) :
  Data.type d = "" -> setType t d = (Data.with_type t d, Ok tt).
Proof.
  intros H. unfold setType, bind, get, check, lift, assert, modify.
  now rewrite H.
Qed.

End TypeIsKept.

(** ** C8: the query type is written once *)

Section WriteOnce.
Import QueryBuilder.

Lemma setter_rejected (c : call) (d : Data.t) :
  Spec.setsType c = true -> Data.type d <> "" ->
  exec c d = (d, Throw (AssertionError (typeGuardMessage d))).
Proof.
  intros Hc Hd.
  destruct c; try discriminate Hc; simpl;
    unfold select, selectDistinct, count, update, insert, delete, sql;
    try (erewrite bind_throw; [reflexivity | now apply setType_set]).
  now apply setType_set.
Qed.

Lemma exec_keepsType (c : call) :
  Spec.setsType c = false -> c <> Call_onDuplicateKeyUpdate ->
  keepsType (exec c).
Proof.
  intros Hc Hn; destruct c; try discriminate Hc; try congruence; simpl;
    unfold into, from, join, leftJoin, rightJoin, skip;
    auto using keepsType_table, keepsType_as, keepsType_addJoinTable,
      keepsType_on, keepsType_where, keepsType_and, keepsType_fields,
      keepsType_set, keepsType_orderBy, keepsType_groupBy, keepsType_having,
      keepsType_offset, keepsType_limit, keepsType_options.
  apply keepsType_bind; [apply keepsType_build | intros; apply keepsType_ret].
Qed.

Lemma onDuplicateKeyUpdate_cases (d : Data.t) :
  (Data.type d = "INSERT" /\ Data.insertRows d = 1
   /\ onDuplicateKeyUpdate d = (Data.with_type "INSERT_OR_UPDATE" d, Ok tt))
  \/ (~ (Data.type d = "INSERT" /\ Data.insertRows d = 1)
      /\ stateAfter onDuplicateKeyUpdate d = d
      /\ exists msg, outcome onDuplicateKeyUpdate d
                     = Throw (AssertionError msg)).
Proof.
  unfold onDuplicateKeyUpdate, stateAfter, outcome, bind, get, check, lift,
    assert, modify.
  destruct (String.eqb_spec (Data.type d) "INSERT") as [Ht|Ht].
  - destruct (Z.eqb_spec (Data.insertRows d) 1) as [Hr|Hr].
    + left; auto.
    + right; simpl; repeat split; eauto. intros [_ H]; contradiction.
  - right; simpl; repeat split; eauto. intros [H _]; contradiction.
Qed.

End WriteOnce.

(** C8.  Once the type of a builder is set, each of [select],
    [selectDistinct], [count], [update], [insert], [delete] and [sql]
    throws, with a message that names the current type, and assigns
    nothing.  No call changes a type that is set, except
    [onDuplicateKeyUpdate], which turns INSERT into INSERT_OR_UPDATE and
    succeeds exactly when the type is INSERT and one row was inserted. *)
Theorem C8_type_write_once (d : Data.t) :
  Data.type d <> "" ->
  (forall c, Spec.setsType c = true ->
     QueryBuilder.exec c d
     = (d, Throw (AssertionError
                    ("cannot change query type after it was set to "
                       +:+ JS.dq +:+ Data.type d +:+ JS.dq))))
  /\ (forall c,
        Data.type (QueryBuilder.stateAfter (QueryBuilder.exec c) d)
          <> Data.type d ->
        c = QueryBuilder.Call_onDuplicateKeyUpdate
        /\ Data.type d = "INSERT" /\ Data.insertRows d = 1
        /\ Data.type (QueryBuilder.stateAfter (QueryBuilder.exec c) d)
           = "INSERT_OR_UPDATE")
  /\ (QueryBuilder.outcome QueryBuilder.onDuplicateKeyUpdate d = Ok tt
      <-> Data.type d = "INSERT" /\ Data.insertRows d = 1).
Proof.
  intros Hd. split; [|split].
  - intros c Hc. now apply setter_rejected.
  - intros c Hch.
    destruct (QueryBuilder.call_eq_onDuplicate c) as [->|Hn].
    + destruct (onDuplicateKeyUpdate_cases d) as [(Ht & Hr & He)|(_ & Hs & _)].
      * repeat split; auto.
        unfold QueryBuilder.stateAfter; simpl. now rewrite He.
      * exfalso; apply Hch. simpl. now rewrite Hs.
    + exfalso; apply Hch.
      destruct (Spec.setsType c) eqn:Hc.
      * unfold QueryBuilder.stateAfter. now rewrite setter_rejected.
      * now apply exec_keepsType.
  - destruct (onDuplicateKeyUpdate_cases d) as [(Ht & Hr & He)|(Hn & _ & msg & Hm)].
    + unfold QueryBuilder.outcome. rewrite He. simpl. tauto.
    + rewrite Hm. split; [discriminate | intros H; contradiction].
Qed.

Lemma C8_type_write_once_witness :
  QueryBuilder.exec (QueryBuilder.Call_insert (QueryBuilder.Row []))
    (Data.with_type "SELECT" Data.new)
  = (Data.with_type "SELECT" Data.new,
     Throw (AssertionError
              ("cannot change query type after it was set to "
                 +:+ JS.dq +:+ "SELECT" +:+ JS.dq))).
Proof.
  assert (H : Data.type (Data.with_type "SELECT" Data.new) <> "")
    by discriminate.
  destruct (C8_type_write_once (Data.with_type "SELECT" Data.new) H)
    as [Hs _].
  apply (Hs (QueryBuilder.Call_insert (QueryBuilder.Row []))).
  reflexivity.
Defined.

(** ** C9: the rows of [insert] *)

Section InsertRows.
Import QueryBuilder.






End InsertRows.




(** ** C5: the top-level [$raw] key *)

Section RawKey.
Import QueryBuilder.

Lemma with_conditions_twice (c1 c2 : list value) (d : Data.t) :
  Data.with_conditions c2 (Data.with_conditions c1 d)
  = Data.with_conditions c2 d.
Proof. destruct d; reflexivity. Qed.

Lemma get_has (k : string) (o : props) (v : value) :
  Obj.get k o = Some v -> Obj.has k o = true /\ Obj.read k o = v.
Proof. intros H. unfold Obj.has, Obj.read. now rewrite H. Qed.

Lemma get_keys (k : string) (o : props) (v : value) :
  Obj.get k o = Some v -> (0 <? length (Obj.keys o))%nat = true.
Proof. destruct o; [discriminate | reflexivity]. Qed.

(** [and] on a mapping with a [$raw] key and no [undefined] value *)
Lemma and_raw (d : Data.t) (o : props) (r : value) (v : utils.values_arg) :
  Obj.get "$raw" o = Some r ->
  utils.findKeysForUndefinedValue o = [] ->
  and_ (Mapping o) v d
  = match utils.sqlConditionStrings (Obj.remove "$raw" o) with
    | Ok l =>
        (Data.with_conditions (Data.conditions d ++ r :: map VStr l) d, Ok tt)
    | Throw e =>
        (Data.with_conditions (Data.conditions d ++ [r]) d, Throw e)
    end.
Proof.
  intros Hr Hu.
  destruct (get_has _ _ _ Hr) as [Hhas Hread].
  unfold and_. rewrite Hu, Hhas, Hread, (get_keys _ _ _ Hr).
  unfold bind, get, check, lift, assert, push_condition, modify, ret.
  cbn [length Nat.ltb Nat.leb fst snd].
  destruct (negb (String.eqb (Data.type d) "SELECT"));
    destruct (utils.sqlConditionStrings (Obj.remove "$raw" o));
    cbn [fst snd]; rewrite ?with_conditions_twice;
    try reflexivity;
    destruct d; cbn; now rewrite <- app_assoc.
Qed.

End RawKey.

(** [QueryBuilder.where] and [QueryBuilder.and] take the top-level [$raw]
    key out of a condition mapping: its value is appended to the conditions
    as a fragment of its own, as it is, and the fragments compiled from the
    mapping without that key follow it. *)
Lemma where_extracts_raw_key
    (d : Data.t) (o : props) (r : value) (v : utils.values_arg)
    (l : list string) :
  Obj.get "$raw" o = Some r ->
  utils.findKeysForUndefinedValue o = [] ->
  utils.sqlConditionStrings (Obj.remove "$raw" o) = Ok l ->
  Obj.has "$raw" (Obj.remove "$raw" o) = false
  /\ QueryBuilder.and_ (QueryBuilder.Mapping o) v d
     = (Data.with_conditions (Data.conditions d ++ r :: map VStr l) d, Ok tt)
  /\ QueryBuilder.where_ (QueryBuilder.Mapping o) v d
     = (Data.with_conditions (Data.conditions d ++ r :: map VStr l) d, Ok tt).
Proof.
  intros Hr Hu Hl. split; [|split].
  - unfold Obj.has, Obj.remove. clear.
    induction o as [|[k x] o IH]; [reflexivity|]. simpl.
    destruct (String.eqb k "$raw") eqn:Hk; simpl; [exact IH|].
    now rewrite Hk.
  - rewrite (and_raw d o r v Hr Hu). now rewrite Hl.
  - unfold QueryBuilder.where_.
    rewrite (and_raw d o r utils.NoValues Hr Hu). now rewrite Hl.
Qed.

Example where_extracts_raw_key_in_test :
  QueryBuilder.where_
    (QueryBuilder.Mapping [("a", VNum 123); ("$raw", VStr "a > b")])
    utils.NoValues Data.new
  = (Data.with_conditions [VStr "a > b"; VStr "`a`=123"] Data.new, Ok tt).
Proof.
  apply (where_extracts_raw_key Data.new
           [("a", VNum 123); ("$raw", VStr "a > b")] (VStr "a > b")
           utils.NoValues ["`a`=123"]); reflexivity.
Qed.

(** C5.  [Expression.and] and [Expression.or] do not take the [$raw] key
    out of the mapping, as [QueryBuilder.and] does: they give the whole
    mapping to the condition compiler, where [$raw] is a field like any
    other.  [expr().and({$raw: "a > b"}).build()] should be [(a > b)]. *)
Theorem C5_expression_keeps_raw_key :
  rbind (Expression.and_ (Expression.Mapping [("$raw", VStr "a > b")])
           utils.NoValues Expression.new) Expression.build
  = Ok "(`$raw`='a > b')"
  /\ rbind (Expression.or_ (Expression.Mapping [("$raw", VStr "a > b")])
              utils.NoValues Expression.new) Expression.build
     = Ok "(`$raw`='a > b')"
  /\ QueryBuilder.outcome
       (QueryBuilder.chain
          [QueryBuilder.Call_select []; QueryBuilder.Call_from "t";
           QueryBuilder.Call_where
             (QueryBuilder.Mapping [("$raw", VStr "a > b")]) utils.NoValues])
       Data.new
     = Ok "SELECT * FROM `t` WHERE a > b".
Proof. repeat split; vm_compute; reflexivity. Qed.

(** ** C4: empty conditions *)

Section EmptyCondition.
Import QueryBuilder.

Lemma tokens_noMark (s : string) :
  noMark s = true ->
  SqlString.tokens s = match s with
                       | EmptyString => []
                       | _ => [SqlString.Text s]
                       end.
Proof.
  induction s as [|c s IH]; [reflexivity|]. simpl.
  intros H. apply andb_true_iff in H as [Hc Hs].
  apply negb_true_iff in Hc. rewrite Hc, (IH Hs).
  destruct s; reflexivity.
Qed.

(** a template without question marks is left as it is *)
Lemma sqlFormat_noMark (s : string) (l : list value) :
  noMark s = true -> utils.sqlFormat s l = Ok s.
Proof.
  intros H. unfold utils.sqlFormat, SqlString.format.
  rewrite (tokens_noMark s H). destruct s as [|c s]; [reflexivity|].
  cbn [utils.sqlFormatTokens rbind fst snd].
  rewrite append_nil_r, (tokens_noMark _ H).
  cbn [SqlString.formatTokens]. now rewrite append_nil_r.
Qed.

(** a template without colons is left as it is *)
Lemma sqlFormatObject_noColon (s : string) (o : props) (dis : bool) :
  noColon s = true -> utils.sqlFormatObject s o dis = Ok s.
Proof.
  unfold utils.sqlFormatObject.
  induction s as [|c s IH]; [reflexivity|]. simpl.
  intros H. apply andb_true_iff in H as [Hc Hs].
  rewrite Hc. cbn. now rewrite (IH Hs).
Qed.

Lemma ws_noMark (c : ascii) : JS.is_ws c = true -> Ascii.eqb c "?" = false.
Proof.
  intros H. destruct (Ascii.eqb_spec c "?") as [->|]; [discriminate H | reflexivity].
Qed.

Lemma ws_noColon (c : ascii) : JS.is_ws c = true -> Ascii.eqb c ":" = false.
Proof.
  intros H. destruct (Ascii.eqb_spec c ":") as [->|]; [discriminate H | reflexivity].
Qed.

Lemma blank_noMark (s : string) : Spec.blank s = true -> noMark s = true.
Proof.
  induction s as [|c s IH]; [reflexivity|]. simpl.
  intros H. apply andb_true_iff in H as [Hc Hs].
  now rewrite (ws_noMark c Hc), (IH Hs).
Qed.

Lemma blank_noColon (s : string) : Spec.blank s = true -> noColon s = true.
Proof.
  induction s as [|c s IH]; [reflexivity|]. simpl.
  intros H. apply andb_true_iff in H as [Hc Hs].
  now rewrite (ws_noColon c Hc), (IH Hs).
Qed.

Lemma format_blank (s : string) (v : utils.values_arg) :
  Spec.blank s = true -> format s (utils.orEmpty v) = Ok s.
Proof.
  intros H. destruct v; simpl.
  - apply sqlFormat_noMark, blank_noMark, H.
  - apply sqlFormat_noMark, blank_noMark, H.
  - apply sqlFormatObject_noColon, blank_noColon, H.
Qed.

Lemma trimStart_blank (s : string) :
  Spec.blank s = true -> JS.trimStart s = "".
Proof.
  induction s as [|c s IH]; [reflexivity|]. simpl.
  intros H. apply andb_true_iff in H as [Hc Hs]. now rewrite Hc, IH.
Qed.

Lemma trimStart_head (s : string) :
  JS.trimStart s = ""
  \/ exists c r, JS.trimStart s = String c r /\ JS.is_ws c = false.
Proof.
  induction s as [|c s IH]; [now left|]. simpl.
  destruct (JS.is_ws c) eqn:Hc; [exact IH|]. right; eauto.
Qed.

Lemma trimStart_empty (s : string) :
  JS.trimStart s = "" -> Spec.blank s = true.
Proof.
  induction s as [|c s IH]; [reflexivity|]. simpl.
  destruct (JS.is_ws c); [exact IH | discriminate].
Qed.

(** a string trims to nothing exactly when it is made of white space *)
Lemma trim_blank (s : string) : JS.trim s = "" <-> Spec.blank s = true.
Proof.
  unfold JS.trim. split.
  - intros H. apply trimStart_empty.
    destruct (trimStart_head s) as [He|(c & r & He & Hc)]; [exact He|].
    rewrite He in H. simpl in H. rewrite Hc, andb_false_r in H. discriminate.
  - intros H. now rewrite (trimStart_blank s H).
Qed.

Lemma trimAll_app (c : list value) (s : string) :
  trimAll (c ++ [VStr s])
  = rbind (trimAll c) (fun t => Ok (t ++ [JS.trim s])).
Proof.
  induction c as [|x c IH]; [reflexivity|]. simpl.
  destruct x; try reflexivity. rewrite IH.
  destruct (trimAll c); reflexivity.
Qed.

Lemma render_ignores_conditions
    (c : list value) (d : Data.t) (conditions : list string) :
  render (Data.with_conditions c d) conditions = render d conditions.
Proof. destruct d; reflexivity. Qed.

(** a condition that trims to nothing does not change what [build] returns *)
Lemma build_blank_condition (d : Data.t) (s : string) :
  JS.trim s = "" ->
  outcome build (Data.with_conditions (Data.conditions d ++ [VStr s]) d)
  = outcome build d.
Proof.
  intros Hs. unfold outcome, build, bind, get, lift, modify.
  replace (Data.conditions
             (Data.with_conditions (Data.conditions d ++ [VStr s]) d))
    with (Data.conditions d ++ [VStr s]) by (destruct d; reflexivity).
  rewrite trimAll_app, Hs.
  destruct (trimAll (Data.conditions d)) as [t|e]; cbn [rbind];
    [|reflexivity].
  rewrite List.filter_app; cbn [List.filter truthy JS.is_empty negb].
  rewrite app_nil_r, with_conditions_twice, render_ignores_conditions.
  reflexivity.
Qed.

Lemma and_text (d : Data.t) (s : string) (v : utils.values_arg) :
  s <> "" -> Spec.blank s = true ->
  and_ (Text s) v d
  = if String.eqb (Data.type d) "SELECT"
    then (Data.with_conditions (Data.conditions d ++ [VStr s]) d, Ok tt)
    else (d, Throw (AssertionError Messages.conditionCannotBeEmpty)).
Proof.
  intros Hne Hb. unfold and_.
  assert (Ht : truthy s = true) by (destruct s; [contradiction | reflexivity]).
  assert (Htrim : truthy (JS.trim s) = false)
    by (apply trim_blank in Hb; now rewrite Hb).
  rewrite Ht, Htrim, (format_blank s v Hb).
  unfold bind, get.
  destruct (String.eqb (Data.type d) "SELECT"); reflexivity.
Qed.

Lemma and_empty_mapping (d : Data.t) (v : utils.values_arg) :
  and_ (Mapping []) v d
  = if String.eqb (Data.type d) "SELECT"
    then (d, Ok tt)
    else (d, Throw (AssertionError Messages.conditionCannotBeEmpty)).
Proof.
  unfold and_, bind, get. cbn.
  destruct (String.eqb (Data.type d) "SELECT"); cbn; [|reflexivity].
  destruct d; unfold modify; cbn. now rewrite app_nil_r.
Qed.

End EmptyCondition.

(** C4, as the code has it.  A string condition made of white space only
    (not the empty string), or an empty mapping, given to [where] or [and]:
    when the type of the builder is not SELECT the call throws "Condition
    for modification operation cannot be empty" and assigns nothing; when
    the type is SELECT the call succeeds and [build] returns what it would
    have returned without the call, so no WHERE clause comes from it.  The
    empty string itself is refused whatever the type, with "Missing
    condition.". *)
Theorem C4_empty_condition (d : Data.t) (v : utils.values_arg) :
  (Data.type d <> "SELECT" ->
   (forall s, s <> "" -> JS.trim s = "" ->
      QueryBuilder.and_ (QueryBuilder.Text s) v d
      = (d, Throw (AssertionError Messages.conditionCannotBeEmpty))
      /\ QueryBuilder.where_ (QueryBuilder.Text s) v d
         = (d, Throw (AssertionError Messages.conditionCannotBeEmpty)))
   /\ QueryBuilder.and_ (QueryBuilder.Mapping []) v d
      = (d, Throw (AssertionError Messages.conditionCannotBeEmpty))
   /\ QueryBuilder.where_ (QueryBuilder.Mapping []) v d
      = (d, Throw (AssertionError Messages.conditionCannotBeEmpty)))
  /\ (Data.type d = "SELECT" ->
      (forall s, s <> "" -> JS.trim s = "" ->
         QueryBuilder.outcome (QueryBuilder.and_ (QueryBuilder.Text s) v) d
         = Ok tt
         /\ QueryBuilder.where_ (QueryBuilder.Text s) v d
            = QueryBuilder.and_ (QueryBuilder.Text s) v d
         /\ QueryBuilder.outcome QueryBuilder.build
              (QueryBuilder.stateAfter
                 (QueryBuilder.and_ (QueryBuilder.Text s) v) d)
            = QueryBuilder.outcome QueryBuilder.build d)
      /\ QueryBuilder.and_ (QueryBuilder.Mapping []) v d = (d, Ok tt)
      /\ QueryBuilder.where_ (QueryBuilder.Mapping []) v d = (d, Ok tt))
  /\ QueryBuilder.and_ (QueryBuilder.Text "") v d
     = (d, Throw (AssertionError "Missing condition."))
  /\ QueryBuilder.where_ (QueryBuilder.Text "") v d
     = (d, Throw (AssertionError "Missing condition.")).
Proof.
  split; [|split; [|split; reflexivity]].
  - intros Ht. apply String.eqb_neq in Ht. repeat split.
    + rewrite and_text by (auto; now apply trim_blank). now rewrite Ht.
    + unfold QueryBuilder.where_.
      rewrite and_text by (auto; now apply trim_blank). now rewrite Ht.
    + rewrite and_empty_mapping. now rewrite Ht.
    + unfold QueryBuilder.where_. rewrite and_empty_mapping. now rewrite Ht.
  - intros Ht. repeat split.
    + unfold QueryBuilder.outcome.
      rewrite and_text by (auto; now apply trim_blank). now rewrite Ht.
    + unfold QueryBuilder.stateAfter.
      rewrite and_text by (auto; now apply trim_blank). rewrite Ht; cbn [fst].
      now apply build_blank_condition.
    + rewrite and_empty_mapping. now rewrite Ht.
    + unfold QueryBuilder.where_. rewrite and_empty_mapping. now rewrite Ht.
Qed.

Lemma C4_empty_condition_witness :
  QueryBuilder.where_ (QueryBuilder.Text "   ") utils.NoValues
    (Data.with_type "DELETE" Data.new)
  = (Data.with_type "DELETE" Data.new,
     Throw (AssertionError Messages.conditionCannotBeEmpty))
  /\ QueryBuilder.outcome QueryBuilder.build
       (QueryBuilder.stateAfter
          (QueryBuilder.and_ (QueryBuilder.Text "   ") utils.NoValues)
          (Data.with_type "SELECT" Data.new))
     = QueryBuilder.outcome QueryBuilder.build
         (Data.with_type "SELECT" Data.new).
Proof.
  split.
  - destruct (C4_empty_condition (Data.with_type "DELETE" Data.new)
                utils.NoValues) as [H _].
    destruct H as [H _]; [discriminate|].
    destruct (H "   ") as [_ Hw]; [discriminate | reflexivity | exact Hw].
  - destruct (C4_empty_condition (Data.with_type "SELECT" Data.new)
                utils.NoValues) as (_ & H & _).
    destruct H as [H _]; [reflexivity|].
    destruct (H "   ") as (_ & _ & Hb); [discriminate | reflexivity | exact Hb].
Defined.

(** C4, as the claim has it, fails for the empty string, which is empty
    after trimming: on a SELECT builder the call throws. *)
Lemma C4_empty_string_refused_by_select :
  JS.trim "" = ""
  /\ QueryBuilder.where_ (QueryBuilder.Text "") utils.NoValues
       (Data.with_type "SELECT" Data.new)
     = (Data.with_type "SELECT" Data.new,
        Throw (AssertionError "Missing condition.")).
Proof. split; reflexivity. Qed.

(** ** C2: the LIMIT clause *)

Section LimitClause.
Import QueryBuilder.


Lemma trimEnd_solid (s : string) : solid s = true -> JS.trimEnd s = s.
Proof.
  induction s as [|c s IH]; [reflexivity|]. simpl.
  intros H. apply andb_true_iff in H as [Hc Hs].
  apply negb_true_iff in Hc. now rewrite (IH Hs), Hc, andb_false_r.
Qed.

Lemma trimEnd_app (a b : string) :
  JS.trimEnd b <> "" -> JS.trimEnd (a +:+ b) = a +:+ JS.trimEnd b.
Proof.
  intros Hb. induction a as [|c a IH]; [reflexivity|]. simpl. rewrite IH.
  destruct (a +:+ JS.trimEnd b) eqn:E; [|reflexivity].
  destruct a; simpl in E; [contradiction | discriminate].
Qed.

Lemma uint_solid (u : Decimal.uint) : solid (NilEmpty.string_of_uint u) = true.
Proof. induction u; simpl; auto. Qed.

Lemma ofZ_solid (n : Z) : solid (JS.ofZ n) = true.
Proof.
  unfold JS.ofZ. destruct (Z.to_int n) as [u|u]; simpl.
  - destruct u; simpl; auto using uint_solid.
  - destruct u; simpl; auto using uint_solid.
Qed.

Lemma ofZ_nonempty (n : Z) : JS.ofZ n <> "".
Proof.
  unfold JS.ofZ. destruct (Z.to_int n) as [u|u]; simpl.
  - destruct u; discriminate.
  - discriminate.
Qed.



Lemma offset_ok (o : Z) (d : Data.t) :
  0 <= o ->
  offset o d
  = (Data.with_limit (utils.sqlLimitString o (Data.limitRows d))
       (Data.with_offsetRows o d), Ok tt).
Proof.
  intros H. unfold offset, bind, check, modify, lift, assert.
  replace (0 <=? o) with true by (symmetry; now apply Z.leb_le).
  destruct d; reflexivity.
Qed.

Lemma limit_ok (n : Z) (d : Data.t) :
  0 <= n ->
  limit n d
  = (Data.with_limit (utils.sqlLimitString (Data.offsetRows d) n)
       (Data.with_limitRows n d), Ok tt).
Proof.
  intros H. unfold limit, bind, check, modify, lift, assert.
  replace (0 <=? n) with true by (symmetry; now apply Z.leb_le).
  destruct d; reflexivity.
Qed.




End LimitClause.




(** ** C6: positional templates *)

(** C6.  The text spliced for [???] is scanned again by the second pass of
    [sqlFormat]: a question mark inside it takes the value meant for a
    later placeholder.  Here the string given for [???] should appear as
    it is and [b=?] should become [b=7]. *)
Theorem C6_spliced_text_is_scanned_again :
  utils.sqlFormat "a IN ??? AND b=?" [VStr "(SELECT '?')"; VNum 7]
  = Ok "a IN (SELECT '7') AND b=?"
  /\ utils.sqlFormat "??? AND b=?"
       [VBuilder [] (BuildString "SELECT '?'"); VNum 7]
     = Ok "(SELECT '7') AND b=?".
Proof. split; reflexivity. Qed.

(** ** C1: building twice *)

(** C1.  On a SELECT with a joined table, [build] assigns the prefixed
    field list to [this._data.fields], so the second [build] prefixes the
    fields again and appends the fields of the join again. *)
Theorem C1_build_twice_with_join :
  QueryBuilder.outcome QueryBuilder.build joined
  = Ok "SELECT `h`.`a`, `w`.`z` FROM `h` LEFT JOIN `w`"
  /\ QueryBuilder.outcome QueryBuilder.build
       (QueryBuilder.stateAfter QueryBuilder.build joined)
     = Ok "SELECT `h`.`h`.`a`, `h`.`w`.`z`, `w`.`z` FROM `h` LEFT JOIN `w`"
  /\ Data.fields joined = ["`a`"]
  /\ Data.fields (QueryBuilder.stateAfter QueryBuilder.build joined)
     = ["`h`.`a`"; "`w`.`z`"].
Proof. repeat split; vm_compute; reflexivity. Qed.

(** ** C10: quoted ordering keywords *)

Section Keywords.
Import QueryBuilder.

Lemma length_append (a b : string) :
  String.length (a +:+ b) = (String.length a + String.length b)%nat.
Proof. induction a as [|c a IH]; simpl; [reflexivity | now rewrite IH]. Qed.

(** only the quote matches the quote, whatever the case *)
Lemma eqb_ci_quote (c : ascii) : JS.eqb_ci "'" c = true -> c = "'"%char.
Proof.
  intros H.
  destruct c as [[|] [|] [|] [|] [|] [|] [|] [|]];
    vm_compute in H; try discriminate H; reflexivity.
Qed.

Lemma eqb_ci_sym (a b : ascii) : JS.eqb_ci a b = JS.eqb_ci b a.
Proof.
  unfold JS.eqb_ci.
  destruct (Ascii.eqb_spec (JS.lower a) (JS.lower b)) as [E|E];
    destruct (Ascii.eqb_spec (JS.lower b) (JS.lower a)) as [E'|E'];
    congruence.
Qed.

Lemma eqb_ci_trans (a b c : ascii) :
  JS.eqb_ci a c = true -> JS.eqb_ci b c = true -> JS.eqb_ci a b = true.
Proof.
  unfold JS.eqb_ci. intros H1 H2.
  apply Ascii.eqb_eq in H1, H2. apply Ascii.eqb_eq. congruence.
Qed.

Lemma noQuote_app (a b : string) :
  Spec.noQuote (a +:+ b) = Spec.noQuote a && Spec.noQuote b.
Proof.
  induction a as [|c a IH]; simpl; [reflexivity|].
  now rewrite IH, andb_assoc.
Qed.

(** a word that matches a word without quotes has no quote *)
Lemma same_ci_noQuote (w k : string) :
  Spec.noQuote w = true -> Spec.same_ci w k = true -> Spec.noQuote k = true.
Proof.
  revert k. induction w as [|x w IH]; intros [|c k]; simpl; try discriminate;
    [reflexivity|].
  intros Hw H. apply andb_true_iff in Hw as [Hx Hw].
  apply andb_true_iff in H as [Hc Hk].
  rewrite (IH k Hw Hk), andb_true_r.
  destruct (Ascii.eqb_spec c "'") as [->|]; [|reflexivity].
  rewrite eqb_ci_sym in Hc. apply eqb_ci_quote in Hc. subst x.
  discriminate Hx.
Qed.

Lemma same_ci_length (w k : string) :
  Spec.same_ci w k = true -> String.length k = String.length w.
Proof.
  revert k. induction w as [|x w IH]; intros [|c k]; simpl; try discriminate;
    [reflexivity|].
  intros H. apply andb_true_iff in H as [_ Hk]. now rewrite (IH k Hk).
Qed.

Lemma same_ci_prefix (w k t : string) :
  Spec.same_ci w k = true -> JS.prefix_ci w (k +:+ t) = true.
Proof.
  revert k. induction w as [|x w IH]; intros k H; [reflexivity|].
  destruct k as [|c k]; [discriminate H|]. simpl in *.
  apply andb_true_iff in H as [Hc Hk]. now rewrite Hc, IH.
Qed.

Lemma prefix_ci_same (w k p u : string) :
  Spec.same_ci w k = true ->
  JS.prefix_ci (w +:+ p) (k +:+ u) = JS.prefix_ci p u.
Proof.
  revert k. induction w as [|x w IH]; intros [|c k] H; try discriminate H;
    [reflexivity|].
  simpl in *. apply andb_true_iff in H as [Hc Hk]. now rewrite Hc, IH.
Qed.

(** a quoted word that matches [w] is a match of the quoted [w], and has
    its length *)
Lemma quoted_word_prefix (w k t : string) :
  Spec.same_ci w k = true ->
  JS.prefix_ci (String "'" (w +:+ "'")) (("'" +:+ k +:+ "'") +:+ t) = true.
Proof.
  intros H.
  change (("'" +:+ k +:+ "'") +:+ t) with (String "'" ((k +:+ "'") +:+ t)).
  rewrite append_assoc. cbn [JS.prefix_ci].
  rewrite prefix_ci_same by assumption. reflexivity.
Qed.

Lemma quoted_word_length (w k : string) :
  Spec.same_ci w k = true ->
  String.length ("'" +:+ k +:+ "'") = String.length (String "'" (w +:+ "'")).
Proof.
  intros H. change ("'" +:+ k +:+ "'") with (String "'" (k +:+ "'")).
  cbn [String.length]. now rewrite !length_append, (same_ci_length _ _ H).
Qed.

(** two words that match the same word match each other *)
Lemma same_ci_trans (w1 w2 k : string) :
  Spec.same_ci w1 k = true -> Spec.same_ci w2 k = true ->
  Spec.same_ci w1 w2 = true.
Proof.
  revert w2 k. induction w1 as [|x w1 IH]; intros [|y w2] [|c k]; simpl;
    try discriminate; [reflexivity|].
  intros H1 H2. apply andb_true_iff in H1 as [Hx H1].
  apply andb_true_iff in H2 as [Hy H2].
  now rewrite (eqb_ci_trans x y c Hx Hy), (IH w2 k H1 H2).
Qed.

Section Scan.

Variables (pat' by_ : string).

Let pat : string := String "'" pat'.

(** the characters of a match are passed over *)
Lemma scan_skip (m t : string) :
  JS.replaceAll_ci pat by_ (String.length m) (m +:+ t)
  = JS.replaceAll_ci pat by_ O t.
Proof. induction m as [|c m IH]; [reflexivity | exact IH]. Qed.

(** at a match the replacement is emitted and the scan resumes after it *)
Lemma scan_hit (m t : string) :
  JS.prefix_ci pat (m +:+ t) = true ->
  String.length m = String.length pat ->
  JS.replaceAll_ci pat by_ O (m +:+ t)
  = by_ +:+ JS.replaceAll_ci pat by_ O t.
Proof.
  intros Hp Hl. destruct m as [|c m]; [discriminate Hl|].
  cbn [String.append JS.replaceAll_ci].
  change (String c (m +:+ t)) with (String c m +:+ t). rewrite Hp.
  replace (String.length pat - 1)%nat with (String.length m)
    by (simpl in Hl; simpl; lia).
  now rewrite scan_skip.
Qed.

(** text without quotes is copied *)
Lemma scan_noQuote (s t : string) :
  Spec.noQuote s = true ->
  JS.replaceAll_ci pat by_ O (s +:+ t)
  = s +:+ JS.replaceAll_ci pat by_ O t.
Proof.
  induction s as [|c s IH]; [reflexivity|]. simpl.
  intros H. apply andb_true_iff in H as [Hc Hs].
  destruct (JS.eqb_ci "'" c) eqn:E.
  - apply eqb_ci_quote in E. subst c. discriminate Hc.
  - simpl. now rewrite (IH Hs).
Qed.

(** a character at which the pattern does not match is copied *)
Lemma scan_miss (c : ascii) (t : string) :
  JS.prefix_ci pat (String c t) = false ->
  JS.replaceAll_ci pat by_ O (String c t)
  = String c (JS.replaceAll_ci pat by_ O t).
Proof. intros H. cbn [JS.replaceAll_ci]. now rewrite H. Qed.

End Scan.

(** a word followed by a quote matches at the start of [s +:+ rest] only if
    [s] is that word, when [s] has no quote and [rest] is empty or starts
    with a quote *)
Lemma word_then_quote (w s rest : string) :
  Spec.noQuote w = true -> Spec.noQuote s = true ->
  rest = "" \/ (exists r, rest = String "'" r) ->
  JS.prefix_ci (w +:+ "'") (s +:+ rest) = true ->
  Spec.same_ci w s = true.
Proof.
  intros Hw Hs Hrest. revert s Hs.
  induction w as [|x w IH]; intros [|c s] Hs H; simpl in *.
  - reflexivity.
  - apply andb_true_iff in H as [H _]. apply eqb_ci_quote in H. subst c.
    discriminate Hs.
  - destruct Hrest as [->|[r ->]]; [discriminate H|].
    apply andb_true_iff in H as [H _].
    rewrite eqb_ci_sym in H. apply eqb_ci_quote in H. subst x.
    discriminate Hw.
  - apply andb_true_iff in Hw as [_ Hw]. apply andb_true_iff in Hs as [_ Hs].
    apply andb_true_iff in H as [Hc H]. now rewrite Hc, (IH Hw s Hs H).
Qed.

Lemma quoted_head (l : list (string * string)) :
  Spec.quoted l = "" \/ (exists r, Spec.quoted l = String "'" r).
Proof. destruct l as [|[k s] l]; [now left | right; simpl; eauto]. Qed.

(** the text after the first rewriting is a stretch without quotes, empty
    or at least four characters long, and then nothing or a quote *)
Lemma halfway_split (l : list (string * string)) :
  Spec.wellQuoted l = true ->
  exists q t,
    halfway l = q +:+ t /\ Spec.noQuote q = true
    /\ (q = "" \/ (4 <= String.length q)%nat)
    /\ (t = "" \/ exists r, t = String "'" r).
Proof.
  induction l as [|[k s] l IH]; intros H.
  - exists "", "". simpl. auto.
  - cbn [Spec.wellQuoted] in H.
    apply andb_true_iff in H as [H Hl]. apply andb_true_iff in H as [H _].
    apply andb_true_iff in H as [Hk Hs].
    cbn [halfway]. destruct (Spec.same_ci "DESC" k).
    + destruct (IH Hl) as (q & t & E & Hq & _ & Ht).
      exists ("DESC" +:+ s +:+ q), t. rewrite E. repeat split.
      * now rewrite !append_assoc.
      * change (Spec.noQuote (s +:+ q) = true). rewrite noQuote_app.
        now rewrite Hs, Hq.
      * right. simpl. lia.
      * exact Ht.
    + exists "", (("'" +:+ k +:+ "'") +:+ s +:+ halfway l).
      repeat split; auto. right. simpl. eauto.
Qed.

(** at the quote that closes a literal no pattern matches, when the
    separator after it is not the bare word *)
Lemma closing_quote_DESC (s : string) (l : list (string * string)) :
  Spec.noQuote s = true -> Spec.same_ci "DESC" s = false ->
  JS.prefix_ci "'DESC'" (String "'" (s +:+ Spec.quoted l)) = false.
Proof.
  intros Hs Hd.
  destruct (JS.prefix_ci "'DESC'" (String "'" (s +:+ Spec.quoted l))) eqn:E;
    [|reflexivity].
  simpl in E.
  apply (word_then_quote "DESC" s (Spec.quoted l)) in E;
    auto using quoted_head.
  congruence.
Qed.

Lemma closing_quote_ASC (s : string) (l : list (string * string)) :
  Spec.noQuote s = true -> Spec.same_ci "ASC" s = false ->
  Spec.wellQuoted l = true ->
  JS.prefix_ci "'ASC'" (String "'" (s +:+ halfway l)) = false.
Proof.
  intros Hs Ha Hl.
  destruct (JS.prefix_ci "'ASC'" (String "'" (s +:+ halfway l))) eqn:E;
    [|reflexivity].
  simpl in E.
  destruct (halfway_split l Hl) as (q & t & Eq & Hq & Hlen & Ht).
  rewrite Eq, <- append_assoc in E.
  apply (word_then_quote "ASC" (s +:+ q) t) in E;
    [|reflexivity | rewrite noQuote_app; now rewrite Hs, Hq | exact Ht].
  destruct Hlen as [->|Hlen].
  - rewrite append_nil_r in E. congruence.
  - apply same_ci_length in E. rewrite length_append in E. simpl in E. lia.
Qed.

(** at the quote that opens a literal the pattern of another word does not
    match *)
Lemma opening_quote (w k rest : string) :
  Spec.noQuote w = true -> Spec.noQuote k = true ->
  Spec.same_ci w k = false ->
  JS.prefix_ci (String "'" (w +:+ "'")) (String "'" (k +:+ "'" +:+ rest))
  = false.
Proof.
  intros Hw Hk Hn.
  destruct (JS.prefix_ci (String "'" (w +:+ "'"))
              (String "'" (k +:+ "'" +:+ rest))) eqn:E; [|reflexivity].
  cbn [JS.prefix_ci] in E. apply andb_true_iff in E as [_ E].
  apply (word_then_quote w k ("'" +:+ rest)) in E; eauto; congruence.
Qed.

Lemma pass_DESC (l : list (string * string)) :
  Spec.wellQuoted l = true ->
  JS.replaceAll_ci "'DESC'" "DESC" O (Spec.quoted l) = halfway l.
Proof.
  induction l as [|[k s] l IH]; [reflexivity|].
  cbn [Spec.wellQuoted Spec.quoted halfway]. intros H.
  apply andb_true_iff in H as [H Hl]. apply andb_true_iff in H as [H Hsk].
  apply andb_true_iff in H as [Hk Hs]. apply negb_true_iff in Hsk.
  apply orb_false_iff in Hsk as [Hsd _].
  specialize (IH Hl).
  destruct (Spec.same_ci "DESC" k) eqn:Hd.
  - replace ("'" +:+ k +:+ "'" +:+ s +:+ Spec.quoted l)
      with (("'" +:+ k +:+ "'") +:+ (s +:+ Spec.quoted l))
      by (simpl; now rewrite !append_assoc).
    rewrite scan_hit.
    + rewrite scan_noQuote by assumption. now rewrite IH.
    + now apply (quoted_word_prefix "DESC").
    + now apply (quoted_word_length "DESC").
  - change ("'" +:+ k +:+ "'" +:+ s +:+ Spec.quoted l)
      with (String "'" (k +:+ "'" +:+ s +:+ Spec.quoted l)).
    rewrite scan_miss by (now apply (opening_quote "DESC")).
    rewrite scan_noQuote by assumption.
    change ("'" +:+ s +:+ Spec.quoted l)
      with (String "'" (s +:+ Spec.quoted l)).
    rewrite scan_miss by (now apply closing_quote_DESC).
    rewrite scan_noQuote by assumption. rewrite IH.
    simpl. now rewrite !append_assoc.
Qed.

Lemma pass_ASC (l : list (string * string)) :
  Spec.wellQuoted l = true ->
  JS.replaceAll_ci "'ASC'" "ASC" O (halfway l) = Spec.rewritten l.
Proof.
  induction l as [|[k s] l IH]; [reflexivity|].
  cbn [Spec.wellQuoted Spec.rewritten halfway]. intros H.
  apply andb_true_iff in H as [H Hl]. apply andb_true_iff in H as [H Hsk].
  apply andb_true_iff in H as [Hk Hs]. apply negb_true_iff in Hsk.
  apply orb_false_iff in Hsk as [_ Hsa].
  specialize (IH Hl). unfold Spec.isKeyword, Spec.keyword.
  destruct (Spec.same_ci "DESC" k) eqn:Hd; cbn [orb].
  - replace ("DESC" +:+ s +:+ halfway l)
      with (("DESC" +:+ s) +:+ halfway l) by (now rewrite append_assoc).
    rewrite scan_noQuote by (simpl; exact Hs).
    now rewrite IH, append_assoc.
  - destruct (Spec.same_ci "ASC" k) eqn:Ha.
    + replace (("'" +:+ k +:+ "'") +:+ s +:+ halfway l)
        with (("'" +:+ k +:+ "'") +:+ (s +:+ halfway l)) by reflexivity.
      rewrite scan_hit.
      * rewrite scan_noQuote by assumption. now rewrite IH.
      * now apply (quoted_word_prefix "ASC").
      * now apply (quoted_word_length "ASC").
    + replace (("'" +:+ k +:+ "'") +:+ s +:+ halfway l)
        with (String "'" (k +:+ "'" +:+ s +:+ halfway l))
        by (simpl; now rewrite !append_assoc).
      rewrite scan_miss by (now apply (opening_quote "ASC")).
      rewrite scan_noQuote by assumption.
      change ("'" +:+ s +:+ halfway l) with (String "'" (s +:+ halfway l)).
      rewrite scan_miss by (now apply closing_quote_ASC).
      rewrite scan_noQuote by assumption. rewrite IH.
      simpl. now rewrite !append_assoc.
Qed.

(** every quoted keyword of such a text is rewritten, and nothing else *)
Lemma unquoteKeywords_quoted (s0 : string) (l : list (string * string)) :
  Spec.noQuote s0 = true -> Spec.wellQuoted l = true ->
  unquoteKeywords (s0 +:+ Spec.quoted l) = s0 +:+ Spec.rewritten l.
Proof.
  intros H0 Hl. unfold unquoteKeywords.
  rewrite scan_noQuote by assumption. rewrite pass_DESC by assumption.
  rewrite scan_noQuote by assumption. now rewrite pass_ASC.
Qed.

End Keywords.

(** C10.  [orderBy(tpl, values)] formats the template and then rewrites the
    quoted words 'DESC' and 'ASC', in any case of their letters, to the bare
    keywords DESC and ASC, wherever they stand in the text.  For a formatted
    text made of quoted literals (['k1's1'k2's2...] after a prefix [s0], no
    quote inside a literal or a separator, no separator being the bare word
    DESC or ASC), the ORDER BY text stored is that text with every literal
    that is DESC or ASC replaced by its keyword and everything else as it
    was.  A string parameter equal to such a word, which the formatter
    quotes, therefore comes out as the keyword, and so does any other
    quoted value of the clause that is such a word. *)
Theorem C10_orderBy_unquotes_keywords
    (d : Data.t) (tpl : string) (values : utils.values_arg)
    (s0 : string) (l : list (string * string)) :
  QueryBuilder.format tpl values = Ok (s0 +:+ Spec.quoted l) ->
  Spec.noQuote s0 = true ->
  Spec.wellQuoted l = true ->
  QueryBuilder.orderBy tpl values d
  = (Data.with_orderBy ("ORDER BY " +:+ s0 +:+ Spec.rewritten l)
       (Data.with_orderFields (s0 +:+ Spec.quoted l) d), Ok tt).
Proof.
  intros Hf H0 Hl.
  unfold QueryBuilder.orderBy, QueryBuilder.bind, QueryBuilder.lift,
    QueryBuilder.modify.
  rewrite Hf. cbn [fst snd].
  replace (Data.orderBy
             (Data.with_orderBy ("ORDER BY " +:+ s0 +:+ Spec.quoted l)
                (Data.with_orderFields (s0 +:+ Spec.quoted l) d)))
    with ("ORDER BY " +:+ s0 +:+ Spec.quoted l)
    by (destruct d; reflexivity).
  rewrite <- (append_assoc "ORDER BY " s0 (Spec.quoted l)).
  rewrite unquoteKeywords_quoted by (rewrite ?noQuote_app; auto).
  rewrite append_assoc. destruct d; reflexivity.
Qed.

Lemma C10_orderBy_unquotes_keywords_witness :
  QueryBuilder.orderBy "FIELD(`s`, ?, ?) ?, `b` ?"
    (utils.ArrayValues [VStr "new"; VStr "old"; VStr "desc"; VStr "ASC"])
    Data.new
  = (Data.with_orderBy "ORDER BY FIELD(`s`, 'new', 'old') DESC, `b` ASC"
       (Data.with_orderFields "FIELD(`s`, 'new', 'old') 'desc', `b` 'ASC'"
          Data.new), Ok tt).
Proof.
  apply (C10_orderBy_unquotes_keywords Data.new "FIELD(`s`, ?, ?) ?, `b` ?"
           (utils.ArrayValues
              [VStr "new"; VStr "old"; VStr "desc"; VStr "ASC"])
           "FIELD(`s`, "
           [("new", ", "); ("old", ") "); ("desc", ", `b` "); ("ASC", "")]);
    reflexivity.
Defined.

(** ** C3: a clone is independent of its source *)

Section Clone.
Import QueryBuilder.


(** [clone] allocates: the new instance is none of the old ones, its
    object is the copy, and the old ones keep their objects *)
Lemma clone_fresh (b c : nat) (σ σ1 : gmap nat Data.t) :
  Store.clone b σ = (σ1, Some c) ->
  σ !! c = None /\ c <> b
  /\ (exists d, σ !! b = Some d /\ σ1 !! c = Some (deepCopyData d))
  /\ (forall x, x <> c -> σ1 !! x = σ !! x).
Proof.
  unfold Store.clone, Store.construct.
  destruct (σ !! b) as [d|] eqn:Hb; [|discriminate].
  cbn [fst snd]. intros H. injection H as H1 H2. subst c σ1.
  assert (Hf : σ !! fresh (dom σ) = None)
    by (apply not_elem_of_dom, is_fresh).
  repeat split.
  - exact Hf.
  - intros E. rewrite E in Hf. congruence.
  - exists d. split; [reflexivity|]. apply lookup_insert_eq.
  - intros x Hx. now rewrite !lookup_insert_ne.
Qed.




End Clone.



(** * Further properties of the code

    ** Escaping: [src/sqlString.ts] *)

Section ReadBack.

Lemma literal_escapeChar (c : ascii) (t : string) :
  Reader.literal (SqlString.escapeChar c +:+ t)
  = Reader.consText c (Reader.literal t).
Proof.
  destruct c as [[] [] [] [] [] [] [] []]; reflexivity.
Qed.

Lemma literal_escapeChars (s rest : string) :
  Reader.literal (SqlString.escapeChars s +:+ "'" +:+ rest) = Some (s, rest).
Proof.
  induction s as [|c s IH].
  - reflexivity.
  - cbn [SqlString.escapeChars]. rewrite append_assoc, literal_escapeChar.
    now rewrite IH.
Qed.

Lemma identifier_doubled (p rest : string) :
  startsChar "`" rest = false ->
  Reader.identifier (JS.replaceChar "`" "``" p +:+ "`" +:+ rest)
  = Some (p, rest).
Proof.
  intros Hr. induction p as [|c p IH].
  - destruct rest as [|x rest]; [reflexivity|].
    cbn in Hr |- *. now rewrite Hr.
  - cbn [JS.replaceChar]. destruct (Ascii.eqb c "`") eqn:Hc.
    + apply Ascii.eqb_eq in Hc. subst c.
      change (("``" +:+ JS.replaceChar "`" "``" p) +:+ "`" +:+ rest)
        with (String "`" (String "`"
                (JS.replaceChar "`" "``" p +:+ "`" +:+ rest))).
      cbn [Reader.identifier]. rewrite IH. reflexivity.
    + change (String c (JS.replaceChar "`" "``" p) +:+ "`" +:+ rest)
        with (String c (JS.replaceChar "`" "``" p +:+ "`" +:+ rest)).
      cbn [Reader.identifier]. rewrite Hc, IH. reflexivity.
Qed.

Lemma split_nonempty (c : ascii) (s : string) : split c s <> [].
Proof.
  destruct s as [|x s]; [discriminate|].
  cbn. destruct (Ascii.eqb x c); [discriminate|].
  destruct (split c s); discriminate.
Qed.

(** the two replacements of [escapeId], part by part *)
Lemma qualified_parts (s : string) :
  JS.replaceChar "." "`.`" (JS.replaceChar "`" "``" s)
  = JS.join "`.`" (map (JS.replaceChar "`" "``") (split "." s)).
Proof.
  induction s as [|x s IH]; [reflexivity|].
  cbn [JS.replaceChar split].
  destruct (Ascii.eqb x "`") eqn:Ht.
  - apply Ascii.eqb_eq in Ht. subst x.
    change (Ascii.eqb "`" ".") with false. cbn iota.
    change ("``" +:+ JS.replaceChar "`" "``" s)
      with (String "`" (String "`" (JS.replaceChar "`" "``" s))).
    cbn [JS.replaceChar]. change (Ascii.eqb "`" ".") with false. cbn iota.
    rewrite IH.
    destruct (split "." s) as [|p r] eqn:Hs; [now apply split_nonempty in Hs|].
    cbn [map JS.replaceChar]. change (Ascii.eqb "`" "`") with true. cbn iota.
    destruct r; reflexivity.
  - destruct (Ascii.eqb x ".") eqn:Hd.
    + cbn [JS.replaceChar]. rewrite Hd, IH.
      destruct (split "." s) as [|p r] eqn:Hs;
        [now apply split_nonempty in Hs|].
      reflexivity.
    + cbn [JS.replaceChar]. rewrite Hd, IH.
      destruct (split "." s) as [|p r] eqn:Hs;
        [now apply split_nonempty in Hs|].
      cbn [map JS.replaceChar]. rewrite Ht.
      destruct r; reflexivity.
Qed.

Lemma join_map_wrap (f : string -> string) (l : list string) :
  l <> [] ->
  "`" +:+ JS.join "`.`" (map f l) +:+ "`"
  = JS.join "." (map (fun p => "`" +:+ f p +:+ "`") l).
Proof.
  induction l as [|p r IH]; [congruence|]. intros _.
  destruct r as [|q r]; [reflexivity|].
  change (JS.join "`.`" (map f (p :: q :: r)))
    with (f p +:+ "`.`" +:+ JS.join "`.`" (map f (q :: r))).
  change (JS.join "." (map (fun p => "`" +:+ f p +:+ "`") (p :: q :: r)))
    with (("`" +:+ f p +:+ "`") +:+ "."
            +:+ JS.join "." (map (fun p => "`" +:+ f p +:+ "`") (q :: r))).
  rewrite <- IH by discriminate.
  rewrite !append_assoc. reflexivity.
Qed.

End ReadBack.

(** X1.  A string escaped as a literal reads back as itself: after the
    opening quote, the reader of string literals finds the closing quote of
    the literal, not an earlier one, returns the string that was escaped and
    leaves what followed the literal. So no character of the string can end
    the literal, and two strings never have the same literal. *)
Theorem X1_escape_string_reads_back (s : string) (stringifyObjects : bool) :
  (forall rest,
     exists body,
       SqlString.escape (VStr s) stringifyObjects +:+ rest = String "'" body
       /\ Reader.literal body = Some (s, rest))
  /\ (forall s',
        SqlString.escape (VStr s) stringifyObjects
        = SqlString.escape (VStr s') stringifyObjects -> s = s').
Proof.
  assert (R : forall x rest,
             SqlString.escape (VStr x) stringifyObjects +:+ rest
             = String "'" (SqlString.escapeChars x +:+ "'" +:+ rest)).
  { intros x rest. cbn [SqlString.escape]. unfold SqlString.escapeString.
    rewrite !append_assoc. reflexivity. }
  split.
  - intros rest. eexists. split; [apply R|apply literal_escapeChars].
  - intros s' H.
    assert (E : String "'" (SqlString.escapeChars s +:+ "'" +:+ "")
                = String "'" (SqlString.escapeChars s' +:+ "'" +:+ ""))
      by (rewrite <- !R; now rewrite H).
    injection E as E.
    pose proof (literal_escapeChars s "") as H1.
    pose proof (literal_escapeChars s' "") as H2.
    change ("'" +:+ "") with "'" in H1, H2.
    rewrite E in H1. congruence.
Qed.

Lemma X1_escape_string_reads_back_witness :
  (exists body,
     SqlString.escape (VStr "it's") false +:+ " OR 1" = String "'" body
     /\ Reader.literal body = Some ("it's", " OR 1"))
  /\ "it's" = "it's".
Proof.
  destruct (X1_escape_string_reads_back "it's" false) as [H1 H2].
  split; [apply H1|apply H2; reflexivity].
Defined.

(** X2.  A dotted name is escaped part by part: [escapeId] of [a.b.c] is the
    escaped parts joined by dots, each part escaped as an unqualified
    identifier is; and an unqualified identifier reads back as itself, its
    back ticks doubled so that none of them ends the identifier. *)
Theorem X2_escapeId_part_by_part (s : string) :
  SqlString.escapeId (VStr s) false
  = JS.join "." (map (fun p => SqlString.escapeId (VStr p) true)
                      (split "." s))
  /\ (forall rest,
        startsChar "`" rest = false ->
        exists body,
          SqlString.escapeId (VStr s) true +:+ rest = String "`" body
          /\ Reader.identifier body = Some (s, rest)).
Proof.
  split.
  - cbn [SqlString.escapeId toString]. rewrite qualified_parts.
    apply join_map_wrap, split_nonempty.
  - intros rest Hr. eexists. split.
    + cbn [SqlString.escapeId toString]. rewrite !append_assoc. reflexivity.
    + now apply identifier_doubled.
Qed.

Lemma X2_escapeId_part_by_part_witness :
  SqlString.escapeId (VStr "db.ta`ble") false = "`db`.`ta``ble`"
  /\ exists body,
       SqlString.escapeId (VStr "ta`ble") true +:+ " AS t" = String "`" body
       /\ Reader.identifier body = Some ("ta`ble", " AS t").
Proof.
  destruct (X2_escapeId_part_by_part "ta`ble") as [_ H].
  split; [exact (proj1 (X2_escapeId_part_by_part "db.ta`ble"))|].
  apply (H " AS t"). reflexivity.
Defined.

Section Lists.

Lemma join_cons (sep x : string) (l : list string) :
  JS.join sep (x :: l) = x +:+ String.concat "" (map (fun y => sep +:+ y) l).
Proof.
  revert x. induction l as [|y l IH]; intros x.
  - cbn. now rewrite append_nil_r.
  - change (JS.join sep (x :: y :: l))
      with (x +:+ sep +:+ JS.join sep (y :: l)).
    rewrite IH. cbn [map String.concat].
    destruct l; cbn [map String.concat];
      now rewrite ?append_assoc, ?append_nil_r.
Qed.

End Lists.

Section Loops.

Lemma append_nonempty (a b : string) : b <> "" -> a +:+ b <> "".
Proof. destruct a, b; cbn; congruence. Qed.

Lemma is_empty_false (s : string) : s <> "" -> JS.is_empty s = false.
Proof. destruct s; [congruence|reflexivity]. Qed.

(** [arrayToList] on an array without arrays in it *)
Lemma arrayToList_flat (l : list value) (b : bool) :
  forallb (fun v => negb (Spec.isArray v)) l = true ->
  SqlString.escape (VArr l) b
  = JS.join ", " (map (fun v => SqlString.escape v true) l).
Proof.
  intros H. cbn [SqlString.escape].
  match goal with |- ?f l O "" = _ => set (loop := f) end.
  assert (Hstep : forall v rest i sql,
             Spec.isArray v = false ->
             loop (v :: rest) i sql
             = loop rest (S i)
                 (sql +:+ (if (i =? 0)%nat then "" else ", ")
                      +:+ SqlString.escape v true)).
  { intros v rest i sql Hv. destruct v; try discriminate; reflexivity. }
  assert (Htail : forall rest i sql,
             forallb (fun v => negb (Spec.isArray v)) rest = true ->
             loop rest (S i) sql
             = sql +:+ String.concat ""
                         (map (fun y => ", " +:+ y)
                              (map (fun v => SqlString.escape v true) rest))).
  { induction rest as [|v rest IH]; intros i sql Hr.
    - cbn. now rewrite append_nil_r.
    - cbn [forallb] in Hr. apply andb_prop in Hr as [Hv Hr].
      apply negb_true_iff in Hv. rewrite Hstep by exact Hv.
      rewrite IH by exact Hr. cbn [Nat.eqb map].
      rewrite !append_assoc. f_equal.
      destruct rest; cbn [map String.concat];
        now rewrite ?append_assoc, ?append_nil_r. }
  destruct l as [|v l]; [reflexivity|].
  cbn [forallb] in H. apply andb_prop in H as [Hv H].
  apply negb_true_iff in Hv. rewrite Hstep by exact Hv.
  rewrite Htail by exact H. cbn [map]. now rewrite join_cons.
Qed.

(** [arrayToList] on an array of arrays *)
Lemma arrayToList_rows (l : list value) (b : bool) :
  forallb Spec.isArray l = true ->
  SqlString.escape (VArr l) b
  = JS.join ", " (map (fun v => "(" +:+ SqlString.escape v b +:+ ")") l).
Proof.
  intros H. cbn [SqlString.escape].
  match goal with |- ?f l O "" = _ => set (loop := f) end.
  assert (Hstep : forall v rest i sql,
             Spec.isArray v = true ->
             loop (v :: rest) i sql
             = loop rest (S i)
                 (sql +:+ (if JS.is_empty sql then "" else ", ")
                      +:+ "(" +:+ SqlString.escape v b +:+ ")")).
  { intros v rest i sql Hv. destruct v; try discriminate; reflexivity. }
  assert (Htail : forall rest i sql,
             forallb Spec.isArray rest = true -> sql <> "" ->
             loop rest i sql
             = sql +:+ String.concat ""
                         (map (fun y => ", " +:+ y)
                              (map (fun v => "(" +:+ SqlString.escape v b
                                                +:+ ")") rest))).
  { induction rest as [|v rest IH]; intros i sql Hr Hs.
    - cbn. now rewrite append_nil_r.
    - cbn [forallb] in Hr. apply andb_prop in Hr as [Hv Hr].
      rewrite Hstep by exact Hv. rewrite is_empty_false by exact Hs.
      rewrite IH; [|exact Hr|apply append_nonempty; discriminate].
      cbn [map]. rewrite !append_assoc. f_equal.
      destruct rest; cbn [map String.concat];
        now rewrite ?append_assoc, ?append_nil_r. }
  destruct l as [|v l]; [reflexivity|].
  cbn [forallb] in H. apply andb_prop in H as [Hv H].
  rewrite Hstep by exact Hv. cbn [JS.is_empty].
  rewrite Htail; [|exact H|discriminate].
  cbn [map]. now rewrite join_cons.
Qed.

(** [objectToValues] *)
Lemma objectToValues_joined (o : props) :
  SqlString.escape (VObj o) false
  = JS.join ", "
      (map (fun p => SqlString.escapeId (VStr (fst p)) false +:+ " = "
                       +:+ SqlString.escape (snd p) true) o).
Proof.
  cbn [SqlString.escape].
  match goal with |- ?f o "" = _ => set (loop := f) end.
  set (item := fun p : string * value =>
                 SqlString.escapeId (VStr (fst p)) false +:+ " = "
                   +:+ SqlString.escape (snd p) true).
  assert (Hitem : forall p, item p <> "").
  { intros [k v]. unfold item. cbn [fst snd SqlString.escapeId toString].
    discriminate. }
  assert (Hstep : forall p rest sql,
             loop (p :: rest) sql
             = loop rest (sql +:+ (if JS.is_empty sql then "" else ", ")
                              +:+ item p)).
  { intros [k v] rest sql. reflexivity. }
  assert (Htail : forall rest sql,
             sql <> "" ->
             loop rest sql
             = sql +:+ String.concat ""
                         (map (fun y => ", " +:+ y) (map item rest))).
  { induction rest as [|p rest IH]; intros sql Hs.
    - cbn. now rewrite append_nil_r.
    - rewrite Hstep, is_empty_false by exact Hs.
      rewrite IH by (apply append_nonempty, append_nonempty, Hitem).
      cbn [map]. rewrite !append_assoc. f_equal.
      destruct rest; cbn [map String.concat];
        now rewrite ?append_assoc, ?append_nil_r. }
  destruct o as [|p o]; [reflexivity|].
  rewrite Hstep. cbn [JS.is_empty].
  rewrite Htail by (apply Hitem).
  cbn [map]. now rewrite join_cons.
Qed.

End Loops.

(** X3.  A flat array is written as its elements, each escaped, separated by
    a comma and a space, an object among them by its string conversion; an
    array of arrays as parenthesised groups; an object as its [key = value]
    pairs. The loops of [arrayToList] and [objectToValues] never write a
    separator first or last. *)
Theorem X3_escape_of_lists :
  (forall l b,
     forallb (fun v => negb (Spec.isArray v)) l = true ->
     SqlString.escape (VArr l) b
     = JS.join ", " (map (fun v => SqlString.escape v true) l))
  /\ (forall l b,
        forallb Spec.isArray l = true ->
        SqlString.escape (VArr l) b
        = JS.join ", "
            (map (fun v => "(" +:+ SqlString.escape v b +:+ ")") l))
  /\ (forall o,
        SqlString.escape (VObj o) false
        = JS.join ", "
            (map (fun p => SqlString.escapeId (VStr (fst p)) false +:+ " = "
                             +:+ SqlString.escape (snd p) true) o)).
Proof.
  split; [|split].
  - apply arrayToList_flat.
  - apply arrayToList_rows.
  - apply objectToValues_joined.
Qed.

Lemma X3_escape_of_lists_witness :
  SqlString.escape (VArr [VNum 1; VStr "b"; VObj [("c", VNum 3)]]) false
  = "1, 'b', '[object Object]'"
  /\ SqlString.escape (VArr [VArr [VNum 1; VNum 2]; VArr [VNum 3]]) false
     = "(1, 2), (3)".
Proof.
  destruct X3_escape_of_lists as (H1 & H2 & _). split.
  - apply (H1 [VNum 1; VStr "b"; VObj [("c", VNum 3)]] false). reflexivity.
  - apply (H2 [VArr [VNum 1; VNum 2]; VArr [VNum 3]] false). reflexivity.
Defined.

(** ** White space: [String.prototype.trim] as the code uses it *)

Section Trim.

Lemma trimEnd_idem (s : string) : JS.trimEnd (JS.trimEnd s) = JS.trimEnd s.
Proof.
  induction s as [|c s IH]; [reflexivity|].
  cbn [JS.trimEnd].
  destruct (JS.is_empty (JS.trimEnd s) && JS.is_ws c) eqn:E; [reflexivity|].
  cbn [JS.trimEnd]. rewrite IH, E. reflexivity.
Qed.

Lemma trimEnd_head (c : ascii) (s : string) :
  JS.is_ws c = false -> JS.trimEnd (String c s) = String c (JS.trimEnd s).
Proof. intros H. cbn [JS.trimEnd]. now rewrite H, andb_false_r. Qed.

Lemma trimStart_head_fixed (c : ascii) (s : string) :
  JS.is_ws c = false -> JS.trimStart (String c s) = String c s.
Proof. intros H. cbn [JS.trimStart]. now rewrite H. Qed.

(** a trimmed text is empty or has no white space at either end *)
Lemma trim_shape (s : string) :
  JS.trim s = ""
  \/ exists c r, JS.trim s = String c r /\ JS.is_ws c = false
                 /\ JS.trimEnd (String c r) = String c r.
Proof.
  unfold JS.trim. destruct (trimStart_head s) as [E|(c & r & E & Hc)].
  - left. now rewrite E.
  - right. rewrite E. exists c, (JS.trimEnd r). split; [|split].
    + now apply trimEnd_head.
    + exact Hc.
    + rewrite <- (trimEnd_head c r Hc). apply trimEnd_idem.
Qed.


Lemma edged_trim (s : string) : edged s -> JS.trim s = s.
Proof.
  intros (c & r & -> & Hc & He). unfold JS.trim.
  now rewrite trimStart_head_fixed.
Qed.

Lemma edged_nonempty (s : string) : edged s -> s <> "".
Proof. intros (c & r & -> & _). discriminate. Qed.

Lemma trim_edged (s : string) : JS.trim s <> "" -> edged (JS.trim s).
Proof.
  intros H. destruct (trim_shape s) as [E|(c & r & E & Hc & He)];
    [congruence|].
  exists c, r. now rewrite E.
Qed.

Lemma edged_app (a m b : string) : edged a -> edged b -> edged (a +:+ m +:+ b).
Proof.
  intros (c & r & -> & Hc & He) Hb.
  pose proof (edged_nonempty b Hb) as Hn.
  destruct Hb as (c' & r' & -> & Hc' & He').
  exists c, (r +:+ m +:+ String c' r').
  split; [reflexivity|]. split; [exact Hc|].
  assert (E : String c (r +:+ m +:+ String c' r')
              = (String c r +:+ m) +:+ String c' r')
    by (rewrite append_assoc; reflexivity).
  rewrite E, trimEnd_app by (rewrite He'; discriminate).
  now rewrite He'.
Qed.

Lemma edged_join (sep : string) (l : list string) :
  l <> [] -> Forall edged l -> edged (JS.join sep l).
Proof.
  induction l as [|x l IH]; [congruence|]. intros _ H.
  apply Forall_cons_1 in H as [Hx Hl].
  destruct l as [|y l]; [exact Hx|].
  change (JS.join sep (x :: y :: l)) with (x +:+ sep +:+ JS.join sep (y :: l)).
  apply edged_app; [exact Hx|]. apply IH; [discriminate|exact Hl].
Qed.

Lemma joinMultiString_pieces (strs : list string) :
  Forall edged
    (List.filter (fun v => negb (JS.is_empty v)) (map JS.trim strs)).
Proof.
  induction strs as [|s strs IH]; [constructor|].
  cbn [map List.filter].
  destruct (JS.is_empty (JS.trim s)) eqn:E; cbn [negb]; [exact IH|].
  constructor; [|exact IH]. apply trim_edged.
  intros H. rewrite H in E. discriminate.
Qed.

Lemma joinMultiString_trim (strs : list string) :
  JS.trim (utils.joinMultiString strs) = utils.joinMultiString strs.
Proof.
  unfold utils.joinMultiString.
  pose proof (joinMultiString_pieces strs) as H.
  destruct (List.filter (fun v => negb (JS.is_empty v)) (map JS.trim strs))
    as [|x l] eqn:E; [reflexivity|].
  apply edged_trim, edged_join; [discriminate|exact H].
Qed.

Lemma joinMultiString_skip (a c : list string) (b : string) :
  Spec.blank b = true ->
  utils.joinMultiString (a ++ b :: c) = utils.joinMultiString (a ++ c).
Proof.
  intros Hb. unfold utils.joinMultiString.
  rewrite !map_app, !List.filter_app. cbn [map List.filter].
  rewrite (proj2 (trim_blank b) Hb). reflexivity.
Qed.

End Trim.

(** X4.  [joinMultiString] leaves out the pieces that are empty or white
    space only, so that an absent clause costs no space, and what it returns
    has no white space at either end. *)
Theorem X4_joinMultiString_clauses (strs : list string) :
  JS.trim (utils.joinMultiString strs) = utils.joinMultiString strs
  /\ (forall a b c,
        strs = a ++ b :: c -> Spec.blank b = true ->
        utils.joinMultiString strs = utils.joinMultiString (a ++ c)).
Proof.
  split.
  - apply joinMultiString_trim.
  - intros a b c -> Hb. now apply joinMultiString_skip.
Qed.

Lemma X4_joinMultiString_clauses_witness :
  utils.joinMultiString ["WHERE a "; "  "; " LIMIT 1"]
  = utils.joinMultiString (["WHERE a "] ++ [" LIMIT 1"]).
Proof.
  apply (proj2 (X4_joinMultiString_clauses ["WHERE a "; "  "; " LIMIT 1"])
           ["WHERE a "] "  " [" LIMIT 1"]); reflexivity.
Defined.

(** ** Templates: [SqlString.format], [sqlFormat], [sqlFormatObject] *)

Section Tokens.

Lemma untokens_tokens (s : string) : untokens (SqlString.tokens s) = s.
Proof.
  induction s as [|c s IH]; [reflexivity|].
  cbn [SqlString.tokens]. destruct (Ascii.eqb c "?") eqn:E.
  - apply Ascii.eqb_eq in E. subst c.
    destruct (SqlString.tokens s) as [|[t|n] r]; cbn in IH |- *;
      now rewrite <- IH.
  - destruct (SqlString.tokens s) as [|[t|n] r]; cbn in IH |- *;
      now rewrite <- IH.
Qed.

Lemma formatTokens_nil (ts : list SqlString.token) :
  SqlString.formatTokens ts [] = untokens ts.
Proof.
  induction ts as [|[t|n] r IH]; cbn [SqlString.formatTokens untokens];
    now rewrite ?IH.
Qed.

(** the tokens of a text that does not start with a question mark do not
    start with a run of marks *)
Lemma tokens_head_text (s : string) :
  startsChar "?" s = false ->
  match SqlString.tokens s with
  | SqlString.Marks _ :: _ => False
  | _ => True
  end.
Proof.
  destruct s as [|c s]; [exact (fun _ => I)|]. cbn [startsChar].
  intros E. cbn [SqlString.tokens]. rewrite E.
  destruct (SqlString.tokens s) as [|[t|n] r]; exact I.
Qed.

Lemma tokens_marks (n : nat) (post : string) :
  startsChar "?" post = false ->
  SqlString.tokens (SqlString.marks (S n) +:+ post)
  = SqlString.Marks (S n) :: SqlString.tokens post.
Proof.
  intros H. induction n as [|n IH].
  - change (SqlString.marks 1 +:+ post) with (String "?" post).
    cbn [SqlString.tokens]. change (Ascii.eqb "?" "?") with true. cbn iota.
    pose proof (tokens_head_text post H) as Hh.
    destruct (SqlString.tokens post) as [|[t|k] r]; [reflexivity..|easy].
  - change (SqlString.marks (S (S n)) +:+ post)
      with (String "?" (SqlString.marks (S n) +:+ post)).
    cbn [SqlString.tokens]. change (Ascii.eqb "?" "?") with true. cbn iota.
    now rewrite IH.
Qed.

Lemma tokens_text (pre : string) (n : nat) (post : string) :
  noMark pre = true -> startsChar "?" post = false ->
  SqlString.tokens (pre +:+ SqlString.marks (S n) +:+ post)
  = match pre with
    | EmptyString => SqlString.Marks (S n) :: SqlString.tokens post
    | _ => SqlString.Text pre :: SqlString.Marks (S n)
             :: SqlString.tokens post
    end.
Proof.
  intros Hp Hq. induction pre as [|c pre IH].
  - now apply tokens_marks.
  - cbn [noMark] in Hp. apply andb_prop in Hp as [Hc Hp].
    apply negb_true_iff in Hc.
    change (String c pre +:+ SqlString.marks (S n) +:+ post)
      with (String c (pre +:+ SqlString.marks (S n) +:+ post)).
    cbn [SqlString.tokens]. rewrite Hc, (IH Hp).
    destruct pre; reflexivity.
Qed.

Lemma format_app (pre : string) (n : nat) (post : string)
    (vals : list value) :
  noMark pre = true -> startsChar "?" post = false ->
  SqlString.format (pre +:+ SqlString.marks (S n) +:+ post) vals
  = pre +:+ SqlString.formatTokens
              (SqlString.Marks (S n) :: SqlString.tokens post) vals.
Proof.
  intros Hp Hq. unfold SqlString.format. rewrite tokens_text by assumption.
  destruct pre; reflexivity.
Qed.

(** the first pass of [sqlFormat] changes nothing where no run has
    exactly three marks *)
Lemma sqlFormatTokens_plain (ts : list SqlString.token)
    (values : list value) (next : nat) :
  forallb (fun t => match t with
                    | SqlString.Marks 3 => false
                    | _ => true
                    end) ts = true ->
  utils.sqlFormatTokens ts values next = Ok (untokens ts, values).
Proof.
  revert next. induction ts as [|[t|n] r IH]; intros next H.
  - reflexivity.
  - cbn [forallb] in H. cbn [utils.sqlFormatTokens]. now rewrite IH.
  - cbn [forallb] in H. apply andb_prop in H as [Hn H].
    cbn [utils.sqlFormatTokens].
    assert (E : (n =? 3)%nat = false).
    { destruct n as [|[|[|[|n]]]]; try reflexivity. discriminate. }
    rewrite E. cbn [negb]. now rewrite IH.
Qed.

Lemma sqlFormat_triple (pre post : string) (values : list value) :
  noMark pre = true -> startsChar "?" post = false ->
  utils.sqlFormat (pre +:+ "???" +:+ post) values
  = rbind (rbind (utils.sqlFormatTokens
                    (SqlString.Marks 3 :: SqlString.tokens post) values O)
             (fun p => Ok (pre +:+ fst p, snd p)))
      (fun p => Ok (SqlString.format (fst p) (snd p))).
Proof.
  intros Hp Hq. unfold utils.sqlFormat.
  change "???" with (SqlString.marks 3).
  rewrite tokens_text by assumption.
  destruct pre as [|c pre]; [|reflexivity].
  destruct (utils.sqlFormatTokens _ values 0) as [[a b]|e]; reflexivity.
Qed.

End Tokens.

(** X5.  [SqlString.format] gives the template back when there is no value
    to place, and when the template has no question mark. *)
Theorem X5_format_nothing_to_place (sql : string) :
  SqlString.format sql [] = sql
  /\ (noMark sql = true -> forall vals, SqlString.format sql vals = sql).
Proof.
  split.
  - unfold SqlString.format. rewrite formatTokens_nil. apply untokens_tokens.
  - intros H vals. unfold SqlString.format. rewrite tokens_noMark by exact H.
    destruct sql; [reflexivity|]. cbn. now rewrite append_nil_r.
Qed.

Lemma X5_format_nothing_to_place_witness :
  SqlString.format "SELECT 1" [VNum 7; VStr "x"] = "SELECT 1".
Proof.
  apply (proj2 (X5_format_nothing_to_place "SELECT 1")). reflexivity.
Defined.

(** X6.  [SqlString.format] places the values from left to right: the first
    run of question marks takes the first value, escaped as a value for [?]
    and as an identifier for [??], and the rest of the template is formatted
    with the remaining values; the text placed is not scanned again. A run
    of three marks or more stays as it is and takes no value. *)
Theorem X6_format_left_to_right (pre post : string) :
  noMark pre = true -> startsChar "?" post = false ->
  (forall v vs,
     SqlString.format (pre +:+ "?" +:+ post) (v :: vs)
     = pre +:+ SqlString.escape v false +:+ SqlString.format post vs)
  /\ (forall v vs,
        SqlString.format (pre +:+ "??" +:+ post) (v :: vs)
        = pre +:+ SqlString.escapeId v false +:+ SqlString.format post vs)
  /\ (forall n vals,
        SqlString.format (pre +:+ SqlString.marks (3 + n) +:+ post) vals
        = pre +:+ SqlString.marks (3 + n) +:+ SqlString.format post vals).
Proof.
  intros Hp Hq. split; [|split].
  - intros v vs. change "?" with (SqlString.marks 1).
    now rewrite format_app.
  - intros v vs. change "??" with (SqlString.marks 2).
    now rewrite format_app.
  - intros n vals. change (3 + n)%nat with (S (S (S n))).
    rewrite format_app by assumption.
    destruct vals; reflexivity.
Qed.

Lemma X6_format_left_to_right_witness :
  SqlString.format ("a = " +:+ "?" +:+ " AND b = ?") [VStr "?"; VNum 2]
  = "a = " +:+ SqlString.escape (VStr "?") false
      +:+ SqlString.format " AND b = ?" [VNum 2].
Proof.
  apply (proj1 (X6_format_left_to_right "a = " " AND b = ?" eq_refl eq_refl)).
Defined.

(** X7.  On a template without a run of exactly three question marks
    [sqlFormat] is [SqlString.format]. *)
Theorem X7_sqlFormat_without_triple (tpl : string) (values : list value) :
  noTriple tpl = true ->
  utils.sqlFormat tpl values = Ok (SqlString.format tpl values).
Proof.
  intros H. unfold utils.sqlFormat, noTriple in *.
  rewrite sqlFormatTokens_plain by exact H.
  cbn [rbind fst snd]. now rewrite untokens_tokens.
Qed.

Lemma X7_sqlFormat_without_triple_witness :
  utils.sqlFormat "?? = ? OR ????" [VStr "a"; VNum 1]
  = Ok (SqlString.format "?? = ? OR ????" [VStr "a"; VNum 1]).
Proof. apply X7_sqlFormat_without_triple. reflexivity. Defined.

(** X8.  The placeholder [???] takes a string as it is and a builder as
    the text it builds, between parentheses: when it is the first
    placeholder and the only [???] of the template, [sqlFormat] returns
    what [SqlString.format] makes, with the values that remain, of the
    template with that text in its place, so that the text placed is
    scanned like the rest.  With any other value, or with no value left
    for it, [sqlFormat] throws an error that names the index and the value;
    with a builder whose [build()] does not return a string it throws the
    assertion error of the builder check. *)
Theorem X8_sqlFormat_triple_placeholder
    (pre post : string) (values : list value) :
  noMark pre = true -> startsChar "?" post = false ->
  (noTriple post = true ->
   (forall s vs,
      values = VStr s :: vs ->
      utils.sqlFormat (pre +:+ "???" +:+ post) values
      = Ok (SqlString.format (pre +:+ s +:+ post) vs))
   /\ (forall own sql vs,
         values = VBuilder own (BuildString sql) :: vs ->
         utils.sqlFormat (pre +:+ "???" +:+ post) values
         = Ok (SqlString.format (pre +:+ "(" +:+ sql +:+ ")" +:+ post) vs)))
  /\ (isString (utils.at_ values 0) = false ->
      utils.isQueryBuilder (utils.at_ values 0) = false ->
      utils.sqlFormat (pre +:+ "???" +:+ post) values
      = Throw (Error ("sqlFormat: values[0] for ??? must be a string or "
                        +:+ "QueryBuilder instance but got "
                        +:+ toString (utils.at_ values 0))))
  /\ (forall own,
        utils.at_ values 0 = VBuilder own BuildOther ->
        utils.sqlFormat (pre +:+ "???" +:+ post) values
        = Throw (AssertionError
                   "sqlFormat: values[0].build() must return a string")).
Proof.
  intros Hp Hq. split; [|split].
  - intros Hn. unfold noTriple in Hn. split.
    + intros s vs ->. rewrite sqlFormat_triple by assumption.
      cbn [utils.sqlFormatTokens Nat.eqb negb utils.at_ nth utils.splice1].
      rewrite sqlFormatTokens_plain by exact Hn.
      cbn [rbind fst snd]. now rewrite untokens_tokens.
    + intros own sql vs ->. rewrite sqlFormat_triple by assumption.
      cbn [utils.sqlFormatTokens Nat.eqb negb utils.at_ nth utils.splice1].
      rewrite sqlFormatTokens_plain by exact Hn.
      cbn [rbind fst snd]. now rewrite untokens_tokens.
  - intros Hs Hb. rewrite sqlFormat_triple by assumption.
    cbn [utils.sqlFormatTokens Nat.eqb negb].
    destruct (utils.at_ values 0); try discriminate; reflexivity.
  - intros own E. rewrite sqlFormat_triple by assumption.
    cbn [utils.sqlFormatTokens Nat.eqb negb]. rewrite E. reflexivity.
Qed.

Lemma X8_sqlFormat_triple_placeholder_witness :
  utils.sqlFormat ("a IN " +:+ "???" +:+ " AND b = ?")
    [VStr "(SELECT '?')"; VNum 7]
  = Ok (SqlString.format ("a IN " +:+ "(SELECT '?')" +:+ " AND b = ?")
          [VNum 7])
  /\ utils.sqlFormat ("a IN " +:+ "???" +:+ "") []
     = Throw (Error ("sqlFormat: values[0] for ??? must be a string or "
                       +:+ "QueryBuilder instance but got undefined")).
Proof.
  split.
  - apply (proj1 (proj1 (X8_sqlFormat_triple_placeholder "a IN "
                           " AND b = ?" [VStr "(SELECT '?')"; VNum 7]
                           eq_refl eq_refl) eq_refl)).
    reflexivity.
  - apply (proj1 (proj2 (X8_sqlFormat_triple_placeholder "a IN " "" []
                           eq_refl eq_refl))); reflexivity.
Defined.

Section Named.

Variables (values : props) (disable : bool).

Lemma slice_0 (s : string) : JS.slice 0 s = s.
Proof. destruct s; reflexivity. Qed.

Lemma takeWord_split (s : string) :
  s = utils.takeWord s +:+ JS.slice (String.length (utils.takeWord s)) s.
Proof.
  induction s as [|c s IH]; [reflexivity|].
  cbn [utils.takeWord]. destruct (utils.isWord c); [|reflexivity].
  cbn [String.length JS.slice]. cbn. now rewrite <- IH.
Qed.

Lemma takeWord_word (name post : string) :
  word name = true -> wordEnds post = true ->
  utils.takeWord (name +:+ post) = name.
Proof.
  intros Hn Hp. induction name as [|c name IH].
  - destruct post as [|x post]; [reflexivity|].
    cbn in Hp |- *. apply negb_true_iff in Hp. now rewrite Hp.
  - cbn [word] in Hn. apply andb_prop in Hn as [Hc Hn].
    change (String c name +:+ post) with (String c (name +:+ post)).
    cbn [utils.takeWord]. now rewrite Hc, IH.
Qed.

Lemma word_no_colon (name post : string) :
  word name = true -> name <> "" ->
  utils.startsColon (name +:+ post) = false.
Proof.
  intros Hn Hne. destruct name as [|c name]; [congruence|].
  cbn [word] in Hn. apply andb_prop in Hn as [Hc _].
  cbn. destruct (Ascii.eqb c ":") eqn:E; [|reflexivity].
  apply Ascii.eqb_eq in E. subst c. discriminate.
Qed.

Lemma wordAfter_some (k : nat) (s : string) (r : nat * string) :
  utils.wordAfter k s = Some r ->
  fst r = k /\ snd r <> ""
  /\ s = snd r +:+ JS.slice (String.length (snd r)) s.
Proof.
  unfold utils.wordAfter. destruct (JS.is_empty (utils.takeWord s)) eqn:E;
    [discriminate|].
  intros [= <-]. cbn [fst snd]. split; [reflexivity|]. split.
  - intros H. rewrite H in E. discriminate.
  - apply takeWord_split.
Qed.

Lemma startsColon_cons (s : string) :
  utils.startsColon s = true -> s = String ":" (JS.slice 1 s).
Proof.
  destruct s as [|c s]; [discriminate|]. cbn.
  intros E. apply Ascii.eqb_eq in E. subst c. now destruct s.
Qed.

(** what a match of the pattern covers *)
Lemma matchNamed_some (c : ascii) (rest : string) (k : nat) (name : string) :
  utils.matchNamed (String c rest) = Some (k, name) ->
  (k <= 2)%nat
  /\ String c rest
     = ":" +:+ colonsText k +:+ name
         +:+ JS.slice (k + String.length name) rest.
Proof.
  cbn [utils.matchNamed]. destruct (Ascii.eqb c ":") eqn:Ec; [|discriminate].
  apply Ascii.eqb_eq in Ec. subst c. cbn [negb].
  destruct (utils.startsColon rest) eqn:E0; cbn [negb].
  - pose proof (startsColon_cons rest E0) as R0.
    destruct (utils.startsColon (JS.slice 1 rest)) eqn:E1; cbn [negb].
    + pose proof (startsColon_cons _ E1) as R1.
      intros H. apply wordAfter_some in H as (E & _ & H).
      cbn [fst snd] in *. subst k. split; [lia|].
      rewrite R0 at 1. rewrite R1 at 1. rewrite H at 1.
      rewrite R0 at 2. rewrite R1 at 2. reflexivity.
    + intros H. apply wordAfter_some in H as (E & _ & H).
      cbn [fst snd] in *. subst k. split; [lia|].
      rewrite R0 at 1. rewrite H at 1. rewrite R0 at 2. reflexivity.
  - intros H. apply wordAfter_some in H as (E & _ & H).
    cbn [fst snd] in *. subst k. split; [lia|].
    rewrite H at 1. reflexivity.
Qed.

Lemma from_skip (m t : string) :
  utils.sqlFormatObjectFrom values disable (String.length m) (m +:+ t)
  = utils.sqlFormatObjectFrom values disable O t.
Proof.
  induction m as [|c m IH]; [now destruct t|].
  exact IH.
Qed.

Lemma from_noColon (pre t : string) :
  noColon pre = true ->
  utils.sqlFormatObjectFrom values disable O (pre +:+ t)
  = rbind (utils.sqlFormatObjectFrom values disable O t)
      (fun r => Ok (pre +:+ r)).
Proof.
  intros H. induction pre as [|c pre IH].
  - cbn. now destruct (utils.sqlFormatObjectFrom values disable 0 t).
  - cbn [noColon] in H. apply andb_prop in H as [Hc H].
    apply negb_true_iff in Hc.
    change (String c pre +:+ t) with (String c (pre +:+ t)).
    cbn [utils.sqlFormatObjectFrom utils.matchNamed]. rewrite Hc.
    cbn [negb]. rewrite (IH H).
    now destruct (utils.sqlFormatObjectFrom values disable 0 t).
Qed.

(** a key at the head of the text: its replacement, then the rest *)
Lemma from_key (k : nat) (name post : string) :
  (k <= 2)%nat -> word name = true -> name <> "" -> wordEnds post = true ->
  utils.sqlFormatObjectFrom values disable O
    (":" +:+ colonsText k +:+ name +:+ post)
  = rbind (utils.namedReplacement values disable k name)
      (fun r => rbind (utils.sqlFormatObjectFrom values disable O post)
                  (fun t => Ok (r +:+ t))).
Proof.
  intros Hk Hn Hne Hp.
  assert (M : utils.matchNamed (":" +:+ colonsText k +:+ name +:+ post)
              = Some (k, name)).
  { pose proof (takeWord_word name post Hn Hp) as W.
    pose proof (word_no_colon name post Hn Hne) as C.
    assert (E : JS.is_empty name = false) by now destruct name.
    destruct k as [|[|[|k]]]; [| | |lia]; cbn [colonsText];
      cbn [utils.matchNamed String.append Ascii.eqb Bool.eqb negb
             utils.startsColon JS.slice];
      rewrite ?C; cbn [negb]; unfold utils.wordAfter; now rewrite W, E. }
  change (":" +:+ colonsText k +:+ name +:+ post)
    with (String ":" (colonsText k +:+ name +:+ post)) in *.
  cbn [utils.sqlFormatObjectFrom]. rewrite M.
  destruct (utils.namedReplacement values disable k name) as [r|e];
    [|reflexivity].
  cbn [rbind].
  replace (k + String.length name)%nat
    with (String.length (colonsText k +:+ name))
    by (rewrite length_append; destruct k as [|[|[|k]]]; cbn; lia).
  rewrite <- append_assoc, from_skip. reflexivity.
Qed.

End Named.

Lemma from_empty (disable : bool) (sql : string) (skip : nat) :
  utils.sqlFormatObjectFrom [] disable skip sql = Ok (JS.slice skip sql).
Proof.
  revert skip. induction sql as [|c rest IH]; intros skip.
  - now destruct skip.
  - cbn [utils.sqlFormatObjectFrom]. destruct skip as [|k]; [|apply IH].
    destruct (utils.matchNamed (String c rest)) as [[k name]|] eqn:M.
    + apply matchNamed_some in M as [Hk M].
      assert (R : utils.namedReplacement [] disable k name
                  = Ok (":" +:+ colonsText k +:+ name)).
      { unfold utils.namedReplacement. cbn [Obj.has Obj.get].
        destruct k as [|[|k]]; reflexivity. }
      rewrite R, IH. cbn [rbind JS.slice]. rewrite M.
      now rewrite !append_assoc.
    + rewrite IH. cbn [rbind]. now rewrite slice_0.
Qed.

Lemma sqlFormatObject_key
    (values : props) (disable : bool) (k : nat) (pre name post : string) :
  noColon pre = true -> (k <= 2)%nat ->
  word name = true -> name <> "" -> wordEnds post = true ->
  utils.sqlFormatObject (pre +:+ ":" +:+ colonsText k +:+ name +:+ post)
    values disable
  = rbind (utils.namedReplacement values disable k name)
      (fun r => rbind (utils.sqlFormatObject post values disable)
                  (fun t => Ok (pre +:+ r +:+ t))).
Proof.
  intros Hp Hk Hn Hne Hq. unfold utils.sqlFormatObject.
  rewrite from_noColon by exact Hp. rewrite from_key by assumption.
  destruct (utils.namedReplacement values disable k name) as [r|e];
    [|reflexivity].
  cbn [rbind].
  now destruct (utils.sqlFormatObjectFrom values disable 0 post).
Qed.

(** X9.  [sqlFormatObject] gives the template back when the values object is
    empty, and when the template has no colon. *)
Theorem X9_sqlFormatObject_nothing_to_place (sql : string) (disable : bool) :
  utils.sqlFormatObject sql [] disable = Ok sql
  /\ (noColon sql = true ->
      forall values, utils.sqlFormatObject sql values disable = Ok sql).
Proof.
  split.
  - unfold utils.sqlFormatObject. rewrite from_empty. now destruct sql.
  - intros H values. now apply sqlFormatObject_noColon.
Qed.

Lemma X9_sqlFormatObject_nothing_to_place_witness :
  utils.sqlFormatObject "SELECT 1" [("a", VNum 1)] false = Ok "SELECT 1".
Proof.
  apply (proj2 (X9_sqlFormatObject_nothing_to_place "SELECT 1" false)).
  reflexivity.
Defined.

(** X10.  [sqlFormatObject] replaces the named placeholders from left to
    right: [:name] by the escaped value of the key [name], [::name] by the
    same value escaped as an identifier, [:::name] by the value itself when
    it is a string; a [:::name] whose value is neither a string nor a
    builder is an error, and a placeholder whose name is not a key of the
    values stays in the text. The rest of the template is formatted with the
    same values. *)
Theorem X10_sqlFormatObject_left_to_right
    (values : props) (pre name post : string) :
  noColon pre = true -> word name = true -> name <> "" ->
  wordEnds post = true ->
  let rest := utils.sqlFormatObject post values false in
  (forall v,
     Obj.get name values = Some v ->
     utils.sqlFormatObject (pre +:+ ":" +:+ name +:+ post) values false
     = rbind rest (fun t => Ok (pre +:+ utils.sqlEscape v +:+ t))
     /\ utils.sqlFormatObject (pre +:+ "::" +:+ name +:+ post) values false
        = rbind rest (fun t => Ok (pre +:+ utils.sqlEscapeId v +:+ t))
     /\ (forall s,
           v = VStr s ->
           utils.sqlFormatObject (pre +:+ ":::" +:+ name +:+ post)
             values false
           = rbind rest (fun t => Ok (pre +:+ s +:+ t)))
     /\ (isString v = false -> utils.isQueryBuilder v = false ->
         utils.sqlFormatObject (pre +:+ ":::" +:+ name +:+ post)
           values false
         = Throw (Error ("sqlFormatObject: value for :::" +:+ name
                           +:+ " must be a string or QueryBuilder instance"
                           +:+ " but got " +:+ toString v))))
  /\ (Obj.get name values = None ->
      utils.sqlFormatObject (pre +:+ ":" +:+ name +:+ post) values false
      = rbind rest (fun t => Ok (pre +:+ ":" +:+ name +:+ t))).
Proof.
  intros Hp Hn Hne Hq rest.
  pose proof (sqlFormatObject_key values false 0 pre name post Hp
                ltac:(lia) Hn Hne Hq) as K0.
  pose proof (sqlFormatObject_key values false 1 pre name post Hp
                ltac:(lia) Hn Hne Hq) as K1.
  pose proof (sqlFormatObject_key values false 2 pre name post Hp
                ltac:(lia) Hn Hne Hq) as K2.
  cbn [colonsText] in K0, K1, K2.
  change (":" +:+ "" +:+ name +:+ post) with (":" +:+ name +:+ post) in K0.
  change (":" +:+ ":" +:+ name +:+ post) with ("::" +:+ name +:+ post) in K1.
  change (":" +:+ "::" +:+ name +:+ post) with (":::" +:+ name +:+ post) in K2.
  split.
  - intros v Hv. apply get_has in Hv as [Hh Hr].
    unfold utils.namedReplacement in K0, K1, K2.
    rewrite Hh, Hr in K0, K1, K2. repeat split.
    + exact K0.
    + exact K1.
    + intros s ->. exact K2.
    + intros Hs Hb. rewrite K2.
      destruct v; try discriminate; cbn [rbind]; f_equal; f_equal;
        now rewrite !append_assoc.
  - intros Hv. unfold utils.namedReplacement in K0.
    assert (Hh : Obj.has name values = false)
      by (unfold Obj.has; now rewrite Hv).
    rewrite Hh in K0. rewrite K0. cbn [rbind]. subst rest.
    destruct (utils.sqlFormatObject post values false); cbn [rbind];
      reflexivity.
Qed.

Lemma X10_sqlFormatObject_left_to_right_witness :
  utils.sqlFormatObject ("a = " +:+ ":" +:+ "x" +:+ " AND b")
    [("x", VStr ":y"); ("y", VNum 2)] false
  = Ok "a = ':y' AND b".
Proof.
  destruct (X10_sqlFormatObject_left_to_right
              [("x", VStr ":y"); ("y", VNum 2)] "a = " "x" " AND b"
              eq_refl eq_refl ltac:(discriminate) eq_refl) as [H _].
  destruct (H (VStr ":y") eq_refl) as [H0 _]. exact H0.
Defined.

(** ** Mappings: [sqlConditionStrings], [sqlUpdateString] *)

Section Mappings.

Lemma existsb_keys (k : string) (v : value) (o : props) :
  In (k, v) o -> existsb (String.eqb k) (Obj.keys o) = true.
Proof.
  intros H. apply existsb_exists. exists k. split.
  - apply in_map_iff. now exists (k, v).
  - apply String.eqb_refl.
Qed.

Lemma read_distinct (o : props) (k : string) (v : value) :
  distinct (Obj.keys o) = true -> In (k, v) o -> Obj.read k o = v.
Proof.
  unfold Obj.read. induction o as [|[k0 v0] r IH]; [easy|].
  cbn [Obj.keys map fst distinct Obj.get]. intros Hd Hin.
  apply andb_prop in Hd as [H0 Hd]. apply negb_true_iff in H0.
  destruct (String.eqb k0 k) eqn:E.
  - apply String.eqb_eq in E. subst k0.
    destruct Hin as [[= <-]|Hin]; [reflexivity|].
    apply existsb_keys in Hin. unfold Obj.keys in Hin. congruence.
  - destruct Hin as [[= -> _]|Hin]; [now rewrite String.eqb_refl in E|].
    now apply IH.
Qed.

Lemma conditionFields_plain (o o' : props) :
  (forall k v, In (k, v) o' ->
     Obj.read k o = v /\ utils.isPureConditionObject v = false) ->
  utils.sqlConditionFields (Obj.keys o') o = Ok (map assignment o').
Proof.
  induction o' as [|[k v] r IH]; intros H; [reflexivity|].
  cbn [Obj.keys map fst utils.sqlConditionFields].
  destruct (H k v (or_introl eq_refl)) as [Hr Hp].
  rewrite Hr. unfold utils.conditionField. rewrite Hp.
  cbn [rbind]. fold (Obj.keys r). rewrite IH; [reflexivity|].
  intros k' v' Hin. apply H. now right.
Qed.

Lemma mapM_ok {A B} (f : A -> result B) (g : A -> B) (l : list A) :
  (forall x, In x l -> f x = Ok (g x)) -> utils.mapM f l = Ok (map g l).
Proof.
  induction l as [|x l IH]; intros H; [reflexivity|].
  cbn [utils.mapM map]. rewrite (H x (or_introl eq_refl)).
  cbn [rbind]. rewrite IH; [reflexivity|].
  intros y Hy. apply H. now right.
Qed.

Lemma map_keys_read (g : string * value -> string) (o : props) :
  distinct (Obj.keys o) = true ->
  map (fun name => g (name, Obj.read name o)) (Obj.keys o) = map g o.
Proof.
  intros Hd. unfold Obj.keys. rewrite map_map. apply map_ext_in.
  intros [k v] Hin. cbn [fst]. now rewrite (read_distinct o k v Hd Hin).
Qed.

Lemma sqlConditionStrings_plain (o : props) :
  distinct (Obj.keys o) = true ->
  forallb (fun p => negb (utils.isPureConditionObject (snd p))) o = true ->
  utils.sqlConditionStrings o = Ok (map assignment o).
Proof.
  intros Hd Hp. unfold utils.sqlConditionStrings.
  apply conditionFields_plain. intros k v Hin. split.
  - now apply read_distinct.
  - rewrite forallb_forall in Hp. specialize (Hp (k, v) Hin).
    now apply negb_true_iff in Hp.
Qed.

End Mappings.

(** X11.  A mapping whose values are not operator objects compiles to one
    equality per key, in the order of the keys: the escaped name, [=], the
    escaped value. Nothing is thrown for it. *)
Theorem X11_sqlConditionStrings_equalities (o : props) :
  distinct (Obj.keys o) = true ->
  forallb (fun p => negb (utils.isPureConditionObject (snd p))) o = true ->
  utils.sqlConditionStrings o = Ok (map assignment o)
  /\ length (map assignment o) = length (Obj.keys o).
Proof.
  intros Hd Hp. split; [now apply sqlConditionStrings_plain|].
  unfold Obj.keys. now rewrite !length_map.
Qed.

Lemma X11_sqlConditionStrings_equalities_witness :
  utils.sqlConditionStrings
    [("a", VNum 1); ("b.c", VStr "x"); ("d", VNull)]
  = Ok (map assignment [("a", VNum 1); ("b.c", VStr "x"); ("d", VNull)]).
Proof.
  apply (proj1 (X11_sqlConditionStrings_equalities
                  [("a", VNum 1); ("b.c", VStr "x"); ("d", VNull)]
                  eq_refl eq_refl)).
Defined.

(** X12.  In an operator object every key must be one of the thirteen
    operators: any other key that starts with [$] is an error that names it,
    whatever the value. *)
Theorem X12_sqlConditionStrings_unknown_operator
    (f op : string) (v : value) :
  JS.startsWith "$" op = true -> oneOf conditionOperators op = false ->
  utils.sqlConditionStrings [(f, VObj [(op, v)])]
  = Throw (Error ("condition type " +:+ op +:+ " does not supported")).
Proof.
  intros Hs Hk. rewrite compile_single. unfold utils.conditionField.
  unfold utils.isPureConditionObject. cbn [own_props Obj.keys map fst length
    List.filter]. rewrite Hs. cbn [length Nat.ltb Nat.leb Nat.eqb andb].
  cbn [utils.mapM rbind]. unfold utils.conditionOp.
  unfold oneOf, conditionOperators in Hk. cbn [existsb] in Hk.
  repeat (apply orb_false_elim in Hk as [-> Hk]).
  reflexivity.
Qed.

Lemma X12_sqlConditionStrings_unknown_operator_witness :
  utils.sqlConditionStrings [("a", VObj [("$between", VArr [VNum 1; VNum 2])])]
  = Throw (Error "condition type $between does not supported").
Proof.
  apply (X12_sqlConditionStrings_unknown_operator "a" "$between"); reflexivity.
Defined.

(** X13.  [sqlUpdateString] writes one assignment per key, in the order of
    the keys, separated by a comma and a space, for every mapping none of
    whose values is an object with exactly one key. *)
Theorem X13_sqlUpdateString_assignments (data : props) :
  distinct (Obj.keys data) = true ->
  forallb (fun p => negb (single (snd p))) data = true ->
  utils.sqlUpdateString data = Ok (JS.join ", " (map assignment data)).
Proof.
  intros Hd Hp. unfold utils.sqlUpdateString.
  rewrite (mapM_ok _ (fun name => assignment (name, Obj.read name data))).
  - cbn [rbind]. now rewrite map_keys_read.
  - intros k Hk. apply in_map_iff in Hk as ([k' v] & <- & Hin).
    cbn [fst]. rewrite (read_distinct data k' v Hd Hin).
    rewrite forallb_forall in Hp. specialize (Hp (k', v) Hin).
    apply negb_true_iff in Hp. cbn [snd] in Hp. unfold single in Hp.
    destruct (own_props v) as [[|[op arg] [|]]|]; try discriminate;
      reflexivity.
Qed.

Lemma X13_sqlUpdateString_assignments_witness :
  utils.sqlUpdateString [("a", VNum 1); ("b", VArr [VNum 1; VNum 2])]
  = Ok (JS.join ", "
          (map assignment [("a", VNum 1); ("b", VArr [VNum 1; VNum 2])])).
Proof. apply X13_sqlUpdateString_assignments; reflexivity. Defined.

(** X14.  [sqlUpdateString] reads every value that is an object with exactly
    one key as an operator: unless the key is [$incr], [$decr] or [$raw] it
    throws an error that names the key. An array with one element is such an
    object, its key being [0]. *)
Theorem X14_sqlUpdateString_single_key
    (f op : string) (info arg : value) :
  own_props info = Some [(op, arg)] ->
  oneOf updateOperators op = false ->
  utils.sqlUpdateString [(f, info)]
  = Throw (Error ("update type " +:+ op +:+ " does not supported")).
Proof.
  intros Ho Hk. unfold utils.sqlUpdateString.
  cbn [Obj.keys map fst utils.mapM]. rewrite read_single, Ho.
  unfold oneOf, updateOperators in Hk. cbn [existsb] in Hk.
  repeat (apply orb_false_elim in Hk as [-> Hk]).
  reflexivity.
Qed.

Lemma X14_sqlUpdateString_single_key_witness :
  utils.sqlUpdateString [("tags", VArr [VStr "x"])]
  = Throw (Error "update type 0 does not supported").
Proof.
  apply (X14_sqlUpdateString_single_key "tags" "0" (VArr [VStr "x"])
           (VStr "x"));
    reflexivity.
Defined.

Section Comparisons.

Lemma oneOf_comparisons (op : string) :
  oneOf comparisons op = true ->
  op = "$lt" \/ op = "$lte" \/ op = "$gt" \/ op = "$gte" \/ op = "$eq"
  \/ op = "$ne".
Proof.
  unfold oneOf, comparisons. cbn [existsb]. intros H.
  repeat (apply orb_prop in H as [H|H];
          [apply String.eqb_eq in H; tauto|]).
  discriminate.
Qed.

Lemma comparisons_pure (ops : props) :
  ops <> [] -> forallb (fun p => oneOf comparisons (fst p)) ops = true ->
  utils.isPureConditionObject (VObj ops) = true.
Proof.
  intros Hn H. unfold utils.isPureConditionObject. cbn [own_props].
  assert (E : List.filter (fun v => JS.startsWith "$" v) (Obj.keys ops)
              = Obj.keys ops).
  { clear Hn. induction ops as [|[k v] ops IH]; [reflexivity|].
    cbn [forallb fst] in H. apply andb_prop in H as [Hk H].
    cbn [Obj.keys map fst List.filter].
    apply oneOf_comparisons in Hk.
    assert (S : JS.startsWith "$" k = true)
      by (destruct Hk as [->|[->|[->|[->|[->| ->]]]]]; reflexivity).
    rewrite S. f_equal. apply (IH H). }
  rewrite E, Nat.eqb_refl, andb_true_r.
  destruct ops; [congruence|reflexivity].
Qed.

Lemma conditionOp_comparison (f op : string) (info : props) :
  oneOf comparisons op = true ->
  utils.conditionOp f (utils.sqlEscapeId (VStr f)) op info
  = Ok (comparison f (op, Obj.read op info)).
Proof.
  intros H. apply oneOf_comparisons in H.
  destruct H as [->|[->|[->|[->|[->| ->]]]]]; reflexivity.
Qed.


End Comparisons.

(** X15.  An object of comparison operators compiles to one comparison per
    operator, in the order of its keys, all of them on the same field: [{f:
    {$gt: 1, $lte: 9}}] gives [f > 1] and [f <= 9]. *)
Theorem X15_sqlConditionStrings_comparisons (f : string) (ops : props) :
  distinct (Obj.keys ops) = true -> ops <> [] ->
  forallb (fun p => oneOf comparisons (fst p)) ops = true ->
  utils.sqlConditionStrings [(f, VObj ops)] = Ok (map (comparison f) ops).
Proof.
  intros Hd Hn Hc. rewrite compile_single. unfold utils.conditionField.
  rewrite comparisons_pure by assumption. cbn [own_props].
  rewrite (mapM_ok _ (fun op => comparison f (op, Obj.read op ops))).
  - cbn [rbind]. rewrite app_nil_r. now rewrite map_keys_read.
  - intros op Hop. apply conditionOp_comparison.
    apply in_map_iff in Hop as ([k v] & <- & Hin).
    rewrite forallb_forall in Hc. exact (Hc (k, v) Hin).
Qed.

Lemma X15_sqlConditionStrings_comparisons_witness :
  utils.sqlConditionStrings
    [("n", VObj [("$gt", VNum 1); ("$lte", VNum 9)])]
  = Ok (map (comparison "n") [("$gt", VNum 1); ("$lte", VNum 9)]).
Proof.
  apply (X15_sqlConditionStrings_comparisons "n"
           [("$gt", VNum 1); ("$lte", VNum 9)]);
    [reflexivity|discriminate|reflexivity].
Defined.



(** ** The methods of [QueryBuilder]: what they keep *)

Section Always.
Import QueryBuilder.

Context (R : Data.t -> Data.t -> Prop) `{!PreOrder R}.

Lemma always_ret {A} (a : A) : always R (ret a).
Proof. intros d. reflexivity. Qed.

Lemma always_get : always R get.
Proof. intros d. reflexivity. Qed.

Lemma always_lift {A} (r : result A) : always R (lift r).
Proof. intros d. reflexivity. Qed.

Lemma always_check (b : bool) (msg : string) : always R (check b msg).
Proof. intros d. reflexivity. Qed.

Lemma always_modify (f : Data.t -> Data.t) :
  (forall d, R d (f d)) -> always R (modify f).
Proof. intros H d. apply H. Qed.

Lemma always_bind {A B} (m : M A) (k : A -> M B) :
  always R m -> (forall a, always R (k a)) -> always R (bind m k).
Proof.
  intros Hm Hk d. unfold bind. specialize (Hm d).
  destruct (m d) as [d' [a|e]]; cbn [fst] in *; [|exact Hm].
  etransitivity; [exact Hm|apply Hk].
Qed.

End Always.

#[local] Instance sameTable_preorder : PreOrder sameTable.
Proof.
  split.
  - intros d. now split.
  - intros a b c [H1 H2] [H3 H4]. split; congruence.
Qed.

#[local] Instance moreConditions_preorder : PreOrder moreConditions.
Proof.
  split.
  - intros d. exists []. now rewrite app_nil_r.
  - intros a b c [k1 H1] [k2 H2]. exists (k1 ++ k2).
    now rewrite H2, H1, app_assoc.
Qed.

(** one step of a proof that a method keeps [R]; [tac] proves that an
    assignment does *)
Ltac always_step tac :=
  match goal with
  | |- always _ (QueryBuilder.bind _ _) =>
      apply always_bind; [typeclasses eauto| |intros ?]
  | |- always _ (QueryBuilder.modify _) =>
      apply always_modify; intros []; tac
  | |- always _ (QueryBuilder.ret _) => apply always_ret; typeclasses eauto
  | |- always _ QueryBuilder.get => apply always_get; typeclasses eauto
  | |- always _ (QueryBuilder.lift _) => apply always_lift; typeclasses eauto
  | |- always _ (QueryBuilder.check _ _) =>
      apply always_check; typeclasses eauto
  | |- always _ (if ?b then _ else _) => destruct b
  | |- always _ (match ?x with _ => _ end) => destruct x
  end.

Ltac same_table := split; reflexivity.

Ltac more_conditions :=
  solve [ exists []; cbn; now rewrite app_nil_r | eexists; reflexivity ].

Section Kept.
Import QueryBuilder.

Lemma sameTable_exec (c : call) :
  namesTable c = false -> always sameTable (exec c).
Proof.
  intros H. destruct c; try discriminate; cbn [exec];
    unfold as_, setTableAlias, join, leftJoin, rightJoin, addJoinTable, on,
      where_, and_, push_condition, select, selectDistinct, count, update,
      set, insert, delete, onDuplicateKeyUpdate, sql, setType, fields,
      orderBy, groupBy, having, skip, offset, limit, options, whenSome,
      orderBy, groupBy, offset, limit, fields, build, render;
    repeat always_step same_table.
Qed.

Lemma moreConditions_exec (c : call) :
  c <> Call_build -> always moreConditions (exec c).
Proof.
  intros H. destruct c; try congruence; cbn [exec];
    unfold table, into, from, table,
      as_, setTableAlias, join, leftJoin, rightJoin, addJoinTable, on,
      where_, and_, push_condition, select, selectDistinct, count, update,
      set, insert, delete, onDuplicateKeyUpdate, sql, setType, fields,
      orderBy, groupBy, having, skip, offset, limit, options, whenSome,
      orderBy, groupBy, offset, limit, fields;
    repeat always_step more_conditions.
Qed.

End Kept.

#[local] Instance sameConditions_preorder : PreOrder sameConditions.
Proof.
  split.
  - intros d. reflexivity.
  - intros a b c H1 H2. unfold sameConditions in *. congruence.
Qed.

Section KeptConditions.
Import QueryBuilder.

Lemma sameConditions_exec (c : call) :
  c <> Call_build -> addsConditions c = false ->
  always sameConditions (exec c).
Proof.
  intros H H'. destruct c; try congruence; try discriminate; cbn [exec];
    unfold table, into, from, table,
      as_, setTableAlias, join, leftJoin, rightJoin, addJoinTable, on,
      select, selectDistinct, count, update,
      set, insert, delete, onDuplicateKeyUpdate, sql, setType, fields,
      orderBy, groupBy, having, skip, offset, limit, options, whenSome,
      orderBy, groupBy, offset, limit, fields;
    repeat always_step ltac:(reflexivity).
Qed.

Lemma table_named (n m : string) (d : Data.t) :
  Data.tableName d = Some n -> n <> "" ->
  table m d
  = (d, Throw (AssertionError
                 ("Cannot change table name after it's set to " +:+ JS.dq
                    +:+ n +:+ JS.dq))).
Proof.
  intros H Hn. unfold table, bind, get, check, lift, assert.
  rewrite H. unfold truthyOpt, truthy, textOpt.
  rewrite is_empty_false by exact Hn. reflexivity.
Qed.

End KeptConditions.

(** X17.  The table of a builder is named once. When it has a name that is
    not empty, [table], [into] and [from] throw and assign nothing, and no
    sequence of calls, of any methods with any arguments, changes the name
    or its escaped form. *)
Theorem X17_table_named_once (d : Data.t) (n : string) :
  Data.tableName d = Some n -> n <> "" ->
  (forall c,
     namesTable c = true ->
     QueryBuilder.exec c d
     = (d, Throw (AssertionError
                    ("Cannot change table name after it's set to " +:+ JS.dq
                       +:+ n +:+ JS.dq))))
  /\ (forall cs,
        Data.tableName (QueryBuilder.run cs d) = Some n
        /\ Data.tableNameEscaped (QueryBuilder.run cs d)
           = Data.tableNameEscaped d).
Proof.
  intros H Hn.
  assert (G : forall d' c,
             Data.tableName d' = Some n -> namesTable c = true ->
             QueryBuilder.exec c d'
             = (d', Throw (AssertionError
                             ("Cannot change table name after it's set to "
                                +:+ JS.dq +:+ n +:+ JS.dq)))).
  { intros d' c H' Hc. destruct c; try discriminate; cbn [QueryBuilder.exec];
      unfold QueryBuilder.into, QueryBuilder.from; now apply table_named. }
  split; [intros c; now apply G|].
  intros cs. revert d H G. induction cs as [|c cs IH]; intros d H G.
  - now split.
  - cbn [QueryBuilder.run].
    assert (S : sameTable d
                  (QueryBuilder.stateAfter (QueryBuilder.exec c) d)).
    { unfold QueryBuilder.stateAfter.
      destruct (namesTable c) eqn:Hc.
      - rewrite (G d c H Hc). now split.
      - now apply sameTable_exec. }
    destruct S as [S1 S2]. rewrite <- S2. apply IH; [congruence|exact G].
Qed.

Lemma X17_table_named_once_witness :
  QueryBuilder.exec (QueryBuilder.Call_from "u")
    (QueryBuilder.run [QueryBuilder.Call_table "t"] Data.new)
  = (QueryBuilder.run [QueryBuilder.Call_table "t"] Data.new,
     Throw (AssertionError
              ("Cannot change table name after it's set to " +:+ JS.dq
                 +:+ "t" +:+ JS.dq))).
Proof.
  apply (proj1 (X17_table_named_once
                  (QueryBuilder.run [QueryBuilder.Call_table "t"] Data.new)
                  "t" eq_refl ltac:(discriminate))).
  reflexivity.
Defined.

(** X18.  No method but [build] removes or rewrites a condition that has
    been registered: after any sequence of calls without [build], the
    conditions the builder had are still the first ones of its list, and a
    call other than [where] and [and] leaves the list as it was. *)
Theorem X18_conditions_are_kept (d : Data.t) :
  (forall cs,
     ~ In QueryBuilder.Call_build cs ->
     exists k,
       Data.conditions (QueryBuilder.run cs d) = Data.conditions d ++ k)
  /\ (forall c,
        c <> QueryBuilder.Call_build -> addsConditions c = false ->
        Data.conditions (QueryBuilder.stateAfter (QueryBuilder.exec c) d)
        = Data.conditions d).
Proof.
  split.
  - intros cs. revert d. induction cs as [|c cs IH]; intros d H.
    + exists []. cbn. now rewrite app_nil_r.
    + cbn [QueryBuilder.run].
      destruct (moreConditions_exec c) with (d := d) as [k1 H1].
      { intros ->. apply H. now left. }
      destruct (IH (QueryBuilder.stateAfter (QueryBuilder.exec c) d))
        as [k2 H2].
      { intros Hin. apply H. now right. }
      exists (k1 ++ k2). unfold QueryBuilder.stateAfter in *.
      now rewrite H2, H1, app_assoc.
  - intros c Hc Ha. now apply sameConditions_exec.
Qed.

Lemma X18_conditions_are_kept_witness :
  exists k,
    Data.conditions
      (QueryBuilder.run
         [QueryBuilder.Call_and (QueryBuilder.Text "b") utils.NoValues;
          QueryBuilder.Call_limit 1]
         (Data.with_conditions [VStr "a"] Data.new))
    = Data.conditions (Data.with_conditions [VStr "a"] Data.new) ++ k.
Proof.
  apply (proj1 (X18_conditions_are_kept
                  (Data.with_conditions [VStr "a"] Data.new))).
  intros [H|[H|[]]]; discriminate.
Defined.

(** ** Exceptions and the state of the builder *)

Section Atomic.
Import QueryBuilder.

Lemma reads_ret {A} (a : A) : reads (ret a).
Proof. intros d. reflexivity. Qed.

Lemma reads_get : reads get.
Proof. intros d. reflexivity. Qed.

Lemma reads_lift {A} (r : result A) : reads (lift r).
Proof. intros d. reflexivity. Qed.

Lemma reads_check (b : bool) (msg : string) : reads (check b msg).
Proof. intros d. reflexivity. Qed.

Lemma total_ret {A} (a : A) : total (ret a).
Proof. intros d. now exists a. Qed.

Lemma total_get : total get.
Proof. intros d. now exists d. Qed.

Lemma total_modify (f : Data.t -> Data.t) : total (modify f).
Proof. intros d. now exists tt. Qed.

Lemma total_bind {A B} (m : M A) (k : A -> M B) :
  total m -> (forall a, total (k a)) -> total (bind m k).
Proof.
  intros Hm Hk d. unfold bind. destruct (Hm d) as [a Ha].
  destruct (m d) as [d' r]. cbn [snd] in Ha. subst r. apply Hk.
Qed.

Lemma atomic_total {A} (m : M A) : total m -> atomic m.
Proof. intros H d e He. destruct (H d) as [a Ha]. congruence. Qed.

Lemma atomic_reads {A} (m : M A) : reads m -> atomic m.
Proof. intros H d e _. apply H. Qed.

Lemma atomic_bind_reads {A B} (m : M A) (k : A -> M B) :
  reads m -> (forall a, atomic (k a)) -> atomic (bind m k).
Proof.
  intros Hm Hk d e. unfold bind. specialize (Hm d).
  destruct (m d) as [d' [a|e']]; cbn [fst] in Hm; subst d'.
  - apply Hk.
  - reflexivity.
Qed.

Lemma atomic_bind_total {A B} (m : M A) (k : A -> M B) :
  atomic m -> (forall a, total (k a)) -> atomic (bind m k).
Proof.
  intros Hm Hk d e. unfold bind. specialize (Hm d).
  destruct (m d) as [d' [a|e']]; cbn [fst snd] in *.
  - intros He. destruct (Hk a d') as [b Hb]. congruence.
  - intros _. now apply (Hm e').
Qed.

End Atomic.

Ltac reads_now :=
  solve [ apply reads_ret | apply reads_get | apply reads_lift
        | apply reads_check ].

Ltac total_now :=
  repeat match goal with
    | |- total (QueryBuilder.bind _ _) => apply total_bind; [|intros ?]
    | |- total (QueryBuilder.modify _) => apply total_modify
    | |- total (QueryBuilder.ret _) => apply total_ret
    | |- total QueryBuilder.get => apply total_get
    | |- total (if ?b then _ else _) => destruct b
    | |- total (match ?x with _ => _ end) => destruct x
    end.

Ltac atomic_step :=
  match goal with
  | |- atomic (QueryBuilder.bind (if ?b then _ else _) _) => destruct b
  | |- atomic (QueryBuilder.bind _ _) =>
      apply atomic_bind_reads; [reads_now|intros ?]
  | |- atomic (QueryBuilder.bind _ _) =>
      apply atomic_bind_total; [|intros ?; solve [total_now]]
  | |- atomic (if ?b then _ else _) => destruct b
  | |- atomic (match ?x with _ => _ end) => destruct x
  | |- atomic _ => solve [ apply atomic_reads; reads_now
                         | apply atomic_total; solve [total_now] ]
  end.

Section Guarded.
Import QueryBuilder.

Lemma atomic_exec (c : call) : guarded c = true -> atomic (exec c).
Proof.
  intros H. destruct c; try discriminate; cbn [exec];
    try (destruct cond; cbn [guarded] in H;
         try apply negb_true_iff in H);
    unfold table, into, from, table,
      as_, setTableAlias, join, leftJoin, rightJoin, addJoinTable, on,
      where_, and_, push_condition, count,
      set, delete, onDuplicateKeyUpdate, sql, setType, fields,
      orderBy, groupBy, having, skip, offset, limit;
    rewrite ?H;
    repeat atomic_step.
Qed.

End Guarded.

(** X19.  A call that checks before it assigns leaves the builder as it was
    when it throws: [table], [into], [from], [as], the joins, [on],
    [fields], [count], [set], [delete], [onDuplicateKeyUpdate], [sql],
    [orderBy], [groupBy], [having], [offset], [skip], [limit], and [where]
    and [and] with a string, an expression or a mapping without [$raw]. *)
Theorem X19_failed_call_assigns_nothing
    (c : QueryBuilder.call) (d : Data.t) (e : error) :
  guarded c = true ->
  QueryBuilder.outcome (QueryBuilder.exec c) d = Throw e ->
  QueryBuilder.stateAfter (QueryBuilder.exec c) d = d.
Proof. intros H. apply atomic_exec, H. Qed.

Lemma X19_failed_call_assigns_nothing_witness :
  QueryBuilder.stateAfter
    (QueryBuilder.exec
       (QueryBuilder.Call_having "n > ?" (utils.ArrayValues [VNum 1])))
    Data.new
  = Data.new.
Proof.
  apply (X19_failed_call_assigns_nothing
           (QueryBuilder.Call_having "n > ?" (utils.ArrayValues [VNum 1]))
           Data.new (AssertionError "please call groupBy() firstly"));
    reflexivity.
Defined.

(** X20.  The type setters that take data set the type before they look at
    the data: [insert] with an empty array, [selectDistinct] without a field
    and [update] with data that cannot be compiled throw and leave the type
    set, so that the builder then refuses every type setter. *)
Theorem X20_type_is_set_before_data_is_checked (d : Data.t) :
  Data.type d = "" ->
  QueryBuilder.insert (QueryBuilder.Rows []) d
  = (Data.with_type "INSERT" d,
     Throw (AssertionError "data array must have at least 1 item"))
  /\ QueryBuilder.selectDistinct [] d
     = (Data.with_type "SELECT DISTINCT" d,
        Throw (AssertionError "distinct expected one or more fields"))
  /\ (forall o e,
        utils.sqlUpdateString o = Throw e ->
        QueryBuilder.update (Some (QueryBuilder.UpdateObject o))
          utils.NoValues d
        = (Data.with_update [] (Data.with_type "UPDATE" d), Throw e))
  /\ (forall t c,
        t <> "" -> Spec.setsType c = true ->
        QueryBuilder.outcome (QueryBuilder.exec c) (Data.with_type t d)
        = Throw (AssertionError
                   ("cannot change query type after it was set to "
                      +:+ JS.dq +:+ t +:+ JS.dq))).
Proof.
  intros H. split; [|split; [|split]].
  - unfold QueryBuilder.insert.
    rewrite (bind_ok _ _ _ _ _ (setType_unset "INSERT" d H)). reflexivity.
  - unfold QueryBuilder.selectDistinct.
    rewrite (bind_ok _ _ _ _ _ (setType_unset "SELECT DISTINCT" d H)).
    reflexivity.
  - intros o e Ho. unfold QueryBuilder.update.
    rewrite (bind_ok _ _ _ _ _ (setType_unset "UPDATE" d H)).
    unfold QueryBuilder.bind at 1. cbn [QueryBuilder.modify].
    unfold QueryBuilder.set, QueryBuilder.bind, QueryBuilder.get,
      QueryBuilder.check, QueryBuilder.lift, assert.
    rewrite Ho. destruct d; reflexivity.
  - intros t c Ht Hc. unfold QueryBuilder.outcome.
    rewrite setter_rejected; [|exact Hc|destruct d; exact Ht].
    destruct d; reflexivity.
Qed.

Lemma X20_type_is_set_before_data_is_checked_witness :
  QueryBuilder.update
    (Some (QueryBuilder.UpdateObject [("a", VObj [("$add", VNum 1)])]))
    utils.NoValues Data.new
  = (Data.with_update [] (Data.with_type "UPDATE" Data.new),
     Throw (Error "update type $add does not supported"))
  /\ QueryBuilder.outcome
       (QueryBuilder.exec (QueryBuilder.Call_select []))
       (Data.with_type "UPDATE" Data.new)
     = Throw (AssertionError
                ("cannot change query type after it was set to "
                   +:+ JS.dq +:+ "UPDATE" +:+ JS.dq)).
Proof.
  destruct (X20_type_is_set_before_data_is_checked Data.new eq_refl)
    as (_ & _ & H3 & H4).
  split.
  - apply H3. reflexivity.
  - apply H4; [discriminate|reflexivity].
Defined.

Section Limits.
Import QueryBuilder.

Lemma rows_negative (r : Z) (d : Data.t) :
  r < 0 ->
  offset r d = (d, Throw (AssertionError "rows must be >= 0"))
  /\ limit r d = (d, Throw (AssertionError "rows must be >= 0")).
Proof.
  intros H. unfold offset, limit, bind, check, lift, assert.
  assert (E : (0 <=? r) = false) by lia. now rewrite E.
Qed.

End Limits.

(** X21.  [offset] and [limit] may be called in either order: each keeps its
    number and writes the LIMIT clause again from both, so that the state of
    the builder is the same; [skip] is [offset]; and a negative number is
    refused by all three, which then assign nothing. *)
Theorem X21_offset_and_limit_commute (o n : Z) (d : Data.t) :
  (0 <= o -> 0 <= n ->
   QueryBuilder.run [QueryBuilder.Call_offset o; QueryBuilder.Call_limit n] d
   = QueryBuilder.run
       [QueryBuilder.Call_limit n; QueryBuilder.Call_offset o] d
   /\ QueryBuilder.run
        [QueryBuilder.Call_skip o; QueryBuilder.Call_limit n] d
      = QueryBuilder.run
          [QueryBuilder.Call_limit n; QueryBuilder.Call_offset o] d
   /\ Data.offsetRows
        (QueryBuilder.run
           [QueryBuilder.Call_limit n; QueryBuilder.Call_offset o] d) = o
   /\ Data.limitRows
        (QueryBuilder.run
           [QueryBuilder.Call_limit n; QueryBuilder.Call_offset o] d) = n)
  /\ (o < 0 ->
      QueryBuilder.offset o d
      = (d, Throw (AssertionError "rows must be >= 0"))
      /\ QueryBuilder.skip o d
         = (d, Throw (AssertionError "rows must be >= 0"))
      /\ QueryBuilder.limit o d
         = (d, Throw (AssertionError "rows must be >= 0"))).
Proof.
  split.
  - intros Ho Hn. cbn [QueryBuilder.run QueryBuilder.exec].
    unfold QueryBuilder.stateAfter, QueryBuilder.skip.
    rewrite (offset_ok o d Ho), (limit_ok n d Hn). cbn [fst].
    rewrite offset_ok, limit_ok by assumption. cbn [fst].
    destruct d; cbn. repeat split.
  - intros Ho. unfold QueryBuilder.skip.
    destruct (rows_negative o d Ho) as [H1 H2]. now rewrite H1, H2.
Qed.

Lemma X21_offset_and_limit_commute_witness :
  QueryBuilder.run
    [QueryBuilder.Call_offset 5; QueryBuilder.Call_limit 10] Data.new
  = QueryBuilder.run
      [QueryBuilder.Call_limit 10; QueryBuilder.Call_offset 5] Data.new
  /\ QueryBuilder.limit (-1) Data.new
     = (Data.new, Throw (AssertionError "rows must be >= 0")).
Proof.
  destruct (X21_offset_and_limit_commute 5 10 Data.new) as [H _].
  destruct (X21_offset_and_limit_commute (-1) 0 Data.new) as [_ H'].
  split.
  - apply H; lia.
  - apply H'. lia.
Defined.

Section Joins.
Import QueryBuilder.

Lemma updateLast_snoc (f : JoinTable.t -> JoinTable.t)
    (l : list JoinTable.t) (x : JoinTable.t) :
  updateLast f (l ++ [x]) = l ++ [f x].
Proof.
  induction l as [|y l IH]; [reflexivity|].
  cbn [app updateLast]. rewrite IH.
  destruct l; reflexivity.
Qed.

End Joins.

(** X22.  [on] gives its condition to the table joined last and to no other;
    once that table has a condition, a second [on] throws and names the
    condition it found; and without any joined table [on] throws. The three
    kinds of join differ by the keyword only. *)
Theorem X22_on_is_for_the_last_join
    (d : Data.t) (kind : JoinTable.kind) (t : string) (fs : list string)
    (c : string) (v : utils.values_arg) (f : string) :
  QueryBuilder.format c (utils.orEmpty v) = Ok f ->
  let joined :=
    QueryBuilder.stateAfter (QueryBuilder.addJoinTable t kind fs "") d in
  let entry :=
    {| JoinTable.table := t; JoinTable.fields := fs; JoinTable.type := kind;
       JoinTable.on := f; JoinTable.alias := "" |} in
  QueryBuilder.on c v joined
  = (Data.with_joinTables (Data.joinTables d ++ [entry]) joined, Ok tt)
  /\ (f <> "" ->
      forall c' v',
        QueryBuilder.on c' v'
          (Data.with_joinTables (Data.joinTables d ++ [entry]) joined)
        = (Data.with_joinTables (Data.joinTables d ++ [entry]) joined,
           Throw (AssertionError
                    ("Join condition already registered. Previous "
                       +:+ "condition is " +:+ JS.dq +:+ f +:+ JS.dq
                       +:+ "."))))
  /\ (Data.joinTables d = [] ->
      QueryBuilder.on c v d
      = (d, Throw (AssertionError "Missing leftJoin() or rightJoin().")))
  /\ QueryBuilder.join t fs
     = QueryBuilder.addJoinTable t JoinTable.JOIN fs ""
  /\ QueryBuilder.leftJoin t fs
     = QueryBuilder.addJoinTable t JoinTable.LEFT_JOIN fs ""
  /\ QueryBuilder.rightJoin t fs
     = QueryBuilder.addJoinTable t JoinTable.RIGHT_JOIN fs "".
Proof.
  intros Hf joined entry.
  assert (J : Data.joinTables joined
              = Data.joinTables d
                  ++ [{| JoinTable.table := t; JoinTable.fields := fs;
                         JoinTable.type := kind; JoinTable.on := "";
                         JoinTable.alias := "" |}])
    by (destruct d; reflexivity).
  split; [|split; [|split]].
  - unfold QueryBuilder.on, QueryBuilder.bind at 1, QueryBuilder.get.
    rewrite J, last_snoc.
    unfold QueryBuilder.bind, QueryBuilder.check, QueryBuilder.lift, assert,
      QueryBuilder.modify.
    cbn [JoinTable.on QueryBuilder.truthy JS.is_empty negb].
    rewrite Hf, updateLast_snoc. reflexivity.
  - intros Hne c' v'.
    unfold QueryBuilder.on, QueryBuilder.bind at 1, QueryBuilder.get.
    assert (J' : Data.joinTables
                   (Data.with_joinTables (Data.joinTables d ++ [entry])
                      joined)
                 = Data.joinTables d ++ [entry])
      by (destruct d; reflexivity).
    rewrite J', last_snoc.
    unfold QueryBuilder.bind, QueryBuilder.check, QueryBuilder.lift, assert.
    cbn [JoinTable.on entry]. unfold QueryBuilder.truthy.
    rewrite is_empty_false by exact Hne. reflexivity.
  - intros He. unfold QueryBuilder.on, QueryBuilder.bind, QueryBuilder.get.
    rewrite He. reflexivity.
  - repeat split.
Qed.

Lemma X22_on_is_for_the_last_join_witness :
  let joined :=
    QueryBuilder.stateAfter
      (QueryBuilder.addJoinTable "w" JoinTable.LEFT_JOIN ["z"] "")
      Data.new in
  QueryBuilder.on "w.id = h.id" utils.NoValues joined
  = (Data.with_joinTables
       [{| JoinTable.table := "w"; JoinTable.fields := ["z"];
           JoinTable.type := JoinTable.LEFT_JOIN;
           JoinTable.on := "w.id = h.id"; JoinTable.alias := "" |}]
       joined, Ok tt).
Proof.
  apply (X22_on_is_for_the_last_join Data.new JoinTable.LEFT_JOIN "w" ["z"]
           "w.id = h.id" utils.NoValues "w.id = h.id" eq_refl).
Defined.

(** ** [formatFields] and [build] *)

Section Fields.

(** what [formatFields] does to one name when there is no table *)
Lemma formatFields_nil_table (fs : list string) :
  utils.formatFields "" fs
  = map (fun n =>
           if String.eqb n "*" then "*"
           else if JS.includes_ci " as " n then n
           else if JS.startsWith "`" n then n
           else utils.sqlEscapeId (VStr n)) fs.
Proof. reflexivity. Qed.

Lemma formatFields_fixed (fs : list string) :
  utils.formatFields "" (utils.formatFields "" fs) = utils.formatFields "" fs.
Proof.
  rewrite !formatFields_nil_table, map_map. apply map_ext. intros n.
  destruct (String.eqb n "*") eqn:E1; [reflexivity|].
  destruct (JS.includes_ci " as " n) eqn:E2; [now rewrite E1, E2|].
  destruct (JS.startsWith "`" n) eqn:E3; [now rewrite E1, E2, E3|].
  change (utils.sqlEscapeId (VStr n))
    with (String "`" (JS.replaceChar "." "`.`" (JS.replaceChar "`" "``" n)
                        +:+ "`")).
  set (e := String "`" _).
  change (String.eqb e "*") with false. cbn iota.
  destruct (JS.includes_ci " as " e); reflexivity.
Qed.

End Fields.

(** X23.  Formatting a field list that has been formatted, without a table,
    changes nothing: every name [formatFields] returns is one it leaves as
    it is. The list keeps its length and its order. *)
Theorem X23_formatFields_twice (fs : list string) :
  utils.formatFields "" (utils.formatFields "" fs) = utils.formatFields "" fs
  /\ forall table, length (utils.formatFields table fs) = length fs.
Proof.
  split; [apply formatFields_fixed|].
  intros table. unfold utils.formatFields. apply length_map.
Qed.

Section Render.
Import QueryBuilder.

Lemma fields_with_fields (v : list string) (d : Data.t) :
  Data.fields (Data.with_fields v d) = v.
Proof. now destruct d. Qed.

Lemma with_fields_twice (a b : list string) (d : Data.t) :
  Data.with_fields a (Data.with_fields b d) = Data.with_fields a d.
Proof. now destruct d. Qed.

Lemma whereClause_eq (conds : list string) :
  (if match length conds with
      | O => false
      | S _ => true
      end
   then "WHERE " +:+ JS.join " AND " conds
   else "") = whereClause conds.
Proof. now destruct conds. Qed.


Variables (data st : Data.t) (conds : list string).



Variables (t te : string).
Hypothesis (Ht : Data.tableName data = Some t) (Hn : t <> "").
Hypothesis (Hte : Data.tableNameEscaped data = Some te) (Hne : te <> "").

Lemma render_select :
  selects data = true -> Data.joinTables data = [] ->
  render data conds st
  = (Data.with_fields (selectedFields (Data.fields data)) st,
     Ok (JS.trim
           (Data.type data +:+ " "
              +:+ JS.join ", " (selectedFields (Data.fields data))
              +:+ " FROM " +:+ te +:+ " "
              +:+ utils.joinMultiString
                    [whereClause conds; Data.groupBy data;
                     Data.orderBy data; Data.limit data]))).
Proof.
  intros Hs Hj. unfold selects in Hs.
  unfold render. rewrite Ht, Hte, Hj, Hs.
  unfold truthyOpt, truthy, textOpt. rewrite !is_empty_false by assumption.
  cbn [negb andb length Nat.ltb Nat.leb].
  unfold bind, check, lift, assert, get, modify, ret.
  cbv beta iota. rewrite fields_with_fields, whereClause_eq.
  unfold selectedFields.
  destruct (utils.formatFields "" (Data.fields data)) as [|f r].
  - cbn [length Nat.eqb]. cbv beta iota.
    now rewrite fields_with_fields, with_fields_twice.
  - cbn [length Nat.eqb]. cbv beta iota.
    now rewrite fields_with_fields.
Qed.



End Render.

Section BuildTwice.
Import QueryBuilder.

Lemma build_unfold (d : Data.t) :
  build d
  = match trimAll (Data.conditions d) with
    | Ok trimmed =>
        render d (keptConditions trimmed)
          (Data.with_conditions (map VStr (keptConditions trimmed)) d)
    | Throw e => (d, Throw e)
    end.
Proof.
  unfold build, bind at 1 2, get, lift.
  destruct (trimAll (Data.conditions d)); reflexivity.
Qed.

Lemma trimAll_strings (l : list string) :
  trimAll (map VStr l) = Ok (map JS.trim l).
Proof.
  induction l as [|s l IH]; [reflexivity|].
  cbn [map trimAll]. now rewrite IH.
Qed.



Lemma with_conditions_same (d : Data.t) (v : list value) :
  Data.conditions d = v -> Data.with_conditions v d = d.
Proof. intros <-. now destruct d. Qed.





End BuildTwice.



Section SelectWhere.
Import QueryBuilder.

Lemma chain_ok (c : call) (r : list call) (d d' : Data.t) :
  exec c d = (d', Ok tt) -> chain (c :: r) d = chain r d'.
Proof. intros H. cbn [chain]. unfold bind. now rewrite H. Qed.

Lemma sqlFormat_no_values (c : string) :
  noTriple c = true -> utils.sqlFormat c [] = Ok c.
Proof.
  intros H. unfold utils.sqlFormat, noTriple in *.
  rewrite sqlFormatTokens_plain by exact H. cbn [rbind fst snd].
  unfold SqlString.format. now rewrite formatTokens_nil, !untokens_tokens.
Qed.

Lemma clean_nonempty (c : string) : clean c = true -> c <> "".
Proof.
  unfold clean. intros H. apply andb_prop in H as [_ H]. now intros ->.
Qed.

Lemma and_clean (c : string) (d : Data.t) :
  Data.type d = "SELECT" -> clean c = true ->
  exec (andText c) d
  = (Data.with_conditions (Data.conditions d ++ [VStr c]) d, Ok tt).
Proof.
  intros Ht Hc. pose proof (clean_nonempty c Hc) as Hn.
  unfold clean in Hc. apply andb_prop in Hc as [Hc _].
  cbn [exec andText]. unfold and_, bind, get, check, lift, assert.
  unfold truthy. rewrite is_empty_false by exact Hn. cbn [negb].
  rewrite Ht. cbn [String.eqb Ascii.eqb Bool.eqb negb].
  unfold ret, format. cbn [utils.orEmpty utils.format].
  rewrite sqlFormat_no_values by exact Hc. reflexivity.
Qed.

Lemma chain_and_clean (conds : list string) (d : Data.t) :
  Data.type d = "SELECT" -> forallb clean conds = true ->
  chain (map andText conds) d
  = build (Data.with_conditions (Data.conditions d ++ map VStr conds) d).
Proof.
  revert d. induction conds as [|c conds IH]; intros d Ht Hc.
  - cbn [map chain]. rewrite app_nil_r. now rewrite with_conditions_same.
  - cbn [forallb] in Hc. apply andb_prop in Hc as [Hc Hr].
    cbn [map]. rewrite (chain_ok _ _ _ _ (and_clean c d Ht Hc)).
    rewrite IH; [|now destruct d|exact Hr].
    f_equal. destruct d; cbn. now rewrite <- app_assoc.
Qed.

Lemma kept_clean (conds : list string) :
  forallb clean conds = true ->
  keptConditions (map JS.trim conds) = map JS.trim conds
  /\ Forall edged (map JS.trim conds).
Proof.
  unfold keptConditions. induction conds as [|c conds IH]; intros H.
  - split; [reflexivity|constructor].
  - cbn [forallb] in H. apply andb_prop in H as [Hc H].
    destruct (IH H) as [IH1 IH2].
    unfold clean in Hc. apply andb_prop in Hc as [_ Hc].
    cbn [map List.filter]. unfold truthy at 1. rewrite Hc, IH1.
    split; [reflexivity|]. constructor; [|exact IH2].
    apply trim_edged. intros E. rewrite E in Hc. discriminate.
Qed.

Lemma edged_keyword (c : ascii) (r b : string) :
  JS.is_ws c = false -> edged b -> edged (String c r +:+ b).
Proof.
  intros Hc Hb. pose proof (edged_nonempty b Hb) as Hn.
  destruct Hb as (c' & r' & -> & Hc' & He').
  exists c, (r +:+ String c' r'). split; [reflexivity|]. split; [exact Hc|].
  change (String c (r +:+ String c' r'))
    with (String c r +:+ String c' r').
  rewrite trimEnd_app by (rewrite He'; discriminate).
  now rewrite He'.
Qed.

Lemma joinMultiString_where (conds : list string) :
  conds <> [] -> Forall edged conds ->
  utils.joinMultiString [whereClause conds; ""; ""; ""]
  = "WHERE " +:+ JS.join " AND " conds
  /\ edged ("WHERE " +:+ JS.join " AND " conds).
Proof.
  intros Hn He.
  assert (E : edged ("WHERE " +:+ JS.join " AND " conds)).
  { apply (edged_keyword "W" "HERE "); [reflexivity|].
    now apply edged_join. }
  split; [|exact E].
  unfold whereClause. destruct conds as [|c conds]; [congruence|].
  cbn [length Nat.ltb Nat.leb]. unfold utils.joinMultiString.
  cbn [map List.filter]. rewrite (edged_trim _ E).
  rewrite is_empty_false by (apply edged_nonempty, E). reflexivity.
Qed.

Lemma trimEnd_blank (b : string) : Spec.blank b = true -> JS.trimEnd b = "".
Proof.
  induction b as [|c b IH]; [reflexivity|]. cbn [Spec.blank JS.trimEnd].
  intros H. apply andb_prop in H as [Hc H]. now rewrite (IH H), Hc.
Qed.

Lemma trimEnd_blank_tail (a b : string) :
  Spec.blank b = true -> JS.trimEnd (a +:+ b) = JS.trimEnd a.
Proof.
  intros H. induction a as [|c a IH]; [now apply trimEnd_blank|].
  change (String c a +:+ b) with (String c (a +:+ b)).
  cbn [JS.trimEnd]. now rewrite IH.
Qed.

Lemma sqlEscapeId_edged (t : string) : edged (utils.sqlEscapeId (VStr t)).
Proof.
  change (utils.sqlEscapeId (VStr t))
    with (String "`" (JS.replaceChar "." "`.`" (JS.replaceChar "`" "``" t))
            +:+ "`").
  apply (edged_keyword "`"); [reflexivity|].
  exists "`"%char, "". repeat split.
Qed.

(** the last [trim] of [build]: a statement that ends with its table, or
    with a tail that has no white space at its ends *)
Lemma trim_statement (kw mid te tail : string) :
  edged kw -> edged te -> tail = "" \/ edged tail ->
  JS.trim (kw +:+ mid +:+ te +:+ " " +:+ tail)
  = kw +:+ mid +:+ te
      +:+ (if JS.is_empty tail then "" else " " +:+ tail).
Proof.
  intros Hk Ht [->|Hl].
  - cbn [JS.is_empty]. rewrite !append_nil_r.
    pose proof (edged_app kw mid te Hk Ht) as (c & r & E & Hc & He).
    replace (kw +:+ mid +:+ te +:+ " ") with ((kw +:+ mid +:+ te) +:+ " ")
      by now rewrite !append_assoc.
    rewrite E. unfold JS.trim.
    change (String c r +:+ " ") with (String c (r +:+ " ")).
    rewrite trimStart_head_fixed by exact Hc.
    change (String c (r +:+ " ")) with (String c r +:+ " ").
    rewrite trimEnd_blank_tail by reflexivity. exact He.
  - rewrite is_empty_false by (apply edged_nonempty, Hl).
    apply edged_trim.
    replace (kw +:+ mid +:+ te +:+ " " +:+ tail)
      with (kw +:+ (mid +:+ te +:+ " ") +:+ tail)
      by now rewrite !append_assoc.
    now apply edged_app.
Qed.

(** the state after [select(fs).from(t)] on a new builder *)
Lemma select_from (fs : list string) (t : string) (r : list call) :
  chain (Call_select fs :: Call_from t :: r) Data.new
  = chain r
      (Data.with_tableNameEscaped (Some (utils.sqlEscapeId (VStr t)))
         (Data.with_tableName (Some t)
            (Data.with_fields (utils.formatFields "" fs)
               (Data.with_type "SELECT" Data.new)))).
Proof.
  rewrite (chain_ok _ _ _
             (Data.with_fields (utils.formatFields "" fs)
                (Data.with_type "SELECT" Data.new)));
    [|now destruct fs].
  now rewrite (chain_ok _ _ _
                 (Data.with_tableNameEscaped
                    (Some (utils.sqlEscapeId (VStr t)))
                    (Data.with_tableName (Some t)
                       (Data.with_fields (utils.formatFields "" fs)
                          (Data.with_type "SELECT" Data.new))))).
Qed.

End SelectWhere.

(** X25.  [select(fs).from(t)] followed by [and] calls with condition texts
    builds one statement: the fields as [formatFields] writes them, or [*]
    when there is none, the escaped table, and the conditions, each trimmed,
    joined by AND in the order of the calls. Without a condition there is no
    WHERE clause and no space is left at the end. *)
Theorem X25_select_where_conditions
    (fs : list string) (t : string) (conds : list string) :
  t <> "" -> forallb clean conds = true ->
  QueryBuilder.outcome
    (QueryBuilder.chain
       (QueryBuilder.Call_select fs :: QueryBuilder.Call_from t
          :: map andText conds)) Data.new
  = Ok ("SELECT " +:+ JS.join ", " (selectedFields fs) +:+ " FROM "
          +:+ utils.sqlEscapeId (VStr t)
          +:+ match conds with
              | [] => ""
              | _ => " WHERE " +:+ JS.join " AND " (map JS.trim conds)
              end).
Proof.
  intros Ht Hc. unfold QueryBuilder.outcome.
  rewrite select_from, chain_and_clean; [|reflexivity|exact Hc].
  cbn [Data.conditions Data.with_tableNameEscaped Data.with_tableName
         Data.with_fields Data.with_type Data.new app].
  rewrite build_unfold.
  cbn [Data.conditions Data.with_conditions].
  rewrite trimAll_strings.
  destruct (kept_clean conds Hc) as [K E]. rewrite K.
  erewrite render_select;
    [|reflexivity|exact Ht|reflexivity|
     apply edged_nonempty, sqlEscapeId_edged|reflexivity|reflexivity].
  cbn [snd Data.type Data.fields Data.groupBy Data.orderBy Data.limit
         Data.with_conditions Data.with_tableNameEscaped Data.with_tableName
         Data.with_fields Data.with_type Data.new].
  replace (selectedFields (utils.formatFields "" fs))
    with (selectedFields fs)
    by (unfold selectedFields; now rewrite formatFields_fixed).
  f_equal.
  assert (Ek : edged "SELECT") by (exists "S"%char, "ELECT"; now repeat split).
  set (tail := utils.joinMultiString _).
  set (head := JS.join ", " (selectedFields fs)).
  set (te := utils.sqlEscapeId (VStr t)).
  replace ("SELECT" +:+ " " +:+ head +:+ " FROM " +:+ te +:+ " " +:+ tail)
    with ("SELECT" +:+ (" " +:+ head +:+ " FROM ") +:+ te +:+ " " +:+ tail)
    by now rewrite !append_assoc.
  rewrite trim_statement; unfold tail, te.
  - destruct conds as [|c conds]; [now rewrite !append_assoc|].
    destruct (joinMultiString_where (map JS.trim (c :: conds)))
      as [J Ew]; [discriminate|exact E|].
    rewrite J, is_empty_false by discriminate.
    now rewrite !append_assoc.
  - exact Ek.
  - apply sqlEscapeId_edged.
  - destruct conds as [|c conds]; [now left|right].
    destruct (joinMultiString_where (map JS.trim (c :: conds)))
      as [J Ew]; [discriminate|exact E|].
    now rewrite J.
Qed.

Lemma X25_select_where_conditions_witness :
  QueryBuilder.outcome
    (QueryBuilder.chain
       (QueryBuilder.Call_select ["a"; "*"] :: QueryBuilder.Call_from "t"
          :: map andText [" a > 1"; "b IS NULL "])) Data.new
  = Ok ("SELECT " +:+ JS.join ", " (selectedFields ["a"; "*"]) +:+ " FROM "
          +:+ utils.sqlEscapeId (VStr "t")
          +:+ " WHERE "
          +:+ JS.join " AND " (map JS.trim [" a > 1"; "b IS NULL "])).
Proof.
  apply (X25_select_where_conditions ["a"; "*"] "t" [" a > 1"; "b IS NULL "]);
    [discriminate|reflexivity].
Defined.

(** ** [Expression] *)

Section Expr.

Lemma expr_text (connector a : string) (e : Expression.t) :
  Expression._type e = "" \/ Expression._type e = "condition" ->
  a <> "" -> noTriple a = true ->
  Expression.combineCondition connector (Expression.Text a) utils.NoValues e
  = Ok {| Expression._type := "condition";
          Expression._data :=
            Expression._data e +:+ " " +:+ connector +:+ " " +:+ a |}.
Proof.
  intros Ht Ha Hn. unfold Expression.combineCondition.
  assert (E : String.eqb (Expression._type e) ""
              || String.eqb (Expression._type e) "condition" = true)
    by (destruct Ht as [-> | ->]; reflexivity).
  rewrite E. cbn [assert rbind]. rewrite is_empty_false by exact Ha.
  cbn [negb assert rbind utils.orEmpty utils.format].
  now rewrite sqlFormat_no_values.
Qed.

Lemma edged_AND : edged "AND".
Proof. exists "A"%char, "ND". now repeat split. Qed.

Lemma edged_OR : edged "OR".
Proof. exists "O"%char, "R". now repeat split. Qed.

Lemma build_data (data : string) :
  data <> "" -> JS.trim data = data ->
  Expression.build {| Expression._type := "condition";
                      Expression._data := " " +:+ data |}
  = Ok ("(" +:+ (let str := if JS.startsWith "AND " data
                            then JS.slice 4 data else data in
                 if JS.startsWith "OR " str then JS.slice 3 str else str)
            +:+ ")").
Proof.
  intros Hn Ht. unfold Expression.build. cbn [Expression._data].
  assert (E : JS.trim (" " +:+ data) = data).
  { unfold JS.trim. change (" " +:+ data) with (String " " data).
    cbn [JS.trimStart]. change (JS.is_ws " ") with true. cbn iota.
    exact Ht. }
  rewrite E, is_empty_false by exact Hn. reflexivity.
Qed.

End Expr.

Section ExprBuild.

Lemma trimmed_edged (a : string) : a <> "" -> JS.trim a = a -> edged a.
Proof. intros Hn Ht. rewrite <- Ht. apply trim_edged. now rewrite Ht. Qed.

Lemma noTriple_cons (c : ascii) (s : string) :
  Ascii.eqb c "?" = false -> noTriple (String c s) = noTriple s.
Proof.
  intros H. unfold noTriple. cbn [SqlString.tokens]. rewrite H.
  destruct (SqlString.tokens s) as [|[t|n] r]; reflexivity.
Qed.

Lemma build_after_or (a : string) :
  edged a ->
  Expression.build {| Expression._type := "condition";
                      Expression._data := " " +:+ "OR " +:+ a |}
  = Ok ("(" +:+ a +:+ ")").
Proof.
  intros Ha. rewrite build_data.
  - reflexivity.
  - discriminate.
  - apply edged_trim. apply (edged_app "OR" " " a); [apply edged_OR|exact Ha].
Qed.

Lemma build_after_and (a : string) :
  edged a ->
  Expression.build {| Expression._type := "condition";
                      Expression._data := " " +:+ "AND " +:+ a |}
  = Ok ("(" +:+ (if JS.startsWith "OR " a then JS.slice 3 a else a)
            +:+ ")").
Proof.
  intros Ha. rewrite build_data.
  - reflexivity.
  - discriminate.
  - apply edged_trim.
    apply (edged_app "AND" " " a); [apply edged_AND|exact Ha].
Qed.

End ExprBuild.

(** X26.  [Expression.build] puts the conditions between parentheses and
    drops the connector of the first one, AND or OR; an expression without a
    condition cannot be built. After the AND of the first condition it also
    drops an [OR ] with which that condition starts. *)
Theorem X26_expression_build_drops_first_connector (a : string) :
  a <> "" -> JS.trim a = a -> noTriple a = true ->
  Expression.build Expression.new
  = Throw (AssertionError "Expression cannot be empty")
  /\ rbind (Expression.or_ (Expression.Text a) utils.NoValues
              Expression.new) Expression.build
     = Ok ("(" +:+ a +:+ ")")
  /\ (JS.startsWith "OR " a = false ->
      rbind (Expression.and_ (Expression.Text a) utils.NoValues
               Expression.new) Expression.build
      = Ok ("(" +:+ a +:+ ")"))
  /\ (forall b,
        b <> "" -> JS.trim b = b -> noTriple b = true ->
        rbind (rbind (Expression.or_ (Expression.Text a) utils.NoValues
                        Expression.new)
                 (Expression.and_ (Expression.Text b) utils.NoValues))
          Expression.build
        = Ok ("(" +:+ a +:+ " AND " +:+ b +:+ ")"))
  /\ rbind (Expression.and_ (Expression.Text ("OR " +:+ a)) utils.NoValues
              Expression.new) Expression.build
     = Ok ("(" +:+ a +:+ ")").
Proof.
  intros Hn Ht Hc. pose proof (trimmed_edged a Hn Ht) as Ea.
  split; [reflexivity|]. split; [|split; [|split]].
  - unfold Expression.or_.
    rewrite expr_text; [|now left|exact Hn|exact Hc].
    cbn [rbind Expression._data Expression.new].
    now apply build_after_or.
  - intros Ho. unfold Expression.and_.
    rewrite expr_text; [|now left|exact Hn|exact Hc].
    cbn [rbind Expression._data Expression.new].
    change ("" +:+ " " +:+ "AND" +:+ " " +:+ a) with (" " +:+ "AND " +:+ a).
    rewrite build_after_and by exact Ea. now rewrite Ho.
  - intros b Hbn Hbt Hbc. pose proof (trimmed_edged b Hbn Hbt) as Eb.
    unfold Expression.or_, Expression.and_.
    rewrite expr_text; [|now left|exact Hn|exact Hc].
    cbn [rbind]. rewrite expr_text; [|now right|exact Hbn|exact Hbc].
    cbn [rbind Expression._data Expression.new].
    replace (("" +:+ " " +:+ "OR" +:+ " " +:+ a) +:+ " " +:+ "AND" +:+ " "
               +:+ b)
      with (" " +:+ "OR " +:+ (a +:+ " AND " +:+ b))
      by (cbn [String.append]; now rewrite ?append_assoc).
    rewrite build_after_or; [now rewrite !append_assoc|].
    now apply edged_app.
  - unfold Expression.and_.
    rewrite expr_text; [|now left|discriminate|].
    + cbn [rbind Expression._data Expression.new].
      change ("" +:+ " " +:+ "AND" +:+ " " +:+ "OR " +:+ a)
        with (" " +:+ "AND " +:+ ("OR " +:+ a)).
      rewrite build_after_and.
      * reflexivity.
      * apply (edged_app "OR" " " a); [apply edged_OR|exact Ea].
    + change ("OR " +:+ a) with (String "O" (String "R" (String " " a))).
      now rewrite !noTriple_cons.
Qed.

Lemma X26_expression_build_drops_first_connector_witness :
  rbind (rbind (Expression.or_ (Expression.Text "a = 1") utils.NoValues
                  Expression.new)
           (Expression.and_ (Expression.Text "b = 2") utils.NoValues))
    Expression.build
  = Ok ("(" +:+ "a = 1" +:+ " AND " +:+ "b = 2" +:+ ")")
  /\ rbind (Expression.and_ (Expression.Text "a = 1") utils.NoValues
              Expression.new) Expression.build
     = Ok ("(" +:+ "a = 1" +:+ ")").
Proof.
  destruct (X26_expression_build_drops_first_connector "a = 1"
              ltac:(discriminate) eq_refl eq_refl) as (_ & _ & H3 & H4 & _).
  split.
  - apply H4; [discriminate|reflexivity|reflexivity].
  - apply H3. reflexivity.
Defined.

Section ExprMapping.

Lemma solid_edged (s : string) : solid s = true -> s <> "" -> edged s.
Proof.
  intros Hs Hn. destruct s as [|c r]; [congruence|].
  exists c, r. split; [reflexivity|]. split.
  - cbn [solid] in Hs. apply andb_prop in Hs as [Hc _].
    now apply negb_true_iff in Hc.
  - now apply trimEnd_solid.
Qed.

Lemma escape_scalar_edged (v : value) :
  scalar v = true -> edged (utils.sqlEscape v).
Proof.
  destruct v; try discriminate; intros _.
  - exists "N"%char, "ULL". now repeat split.
  - destruct b; [exists "t"%char, "rue"|exists "f"%char, "alse"];
      now repeat split.
  - apply solid_edged; [apply ofZ_solid|apply ofZ_nonempty].
  - change (utils.sqlEscape (VStr s))
      with (String "'" (SqlString.escapeChars s) +:+ "'").
    apply (edged_keyword "'"); [reflexivity|].
    exists "'"%char, "". now repeat split.
Qed.

Lemma assignment_edged (p : string * value) :
  scalar (snd p) = true -> edged (assignment p).
Proof.
  intros H. unfold assignment.
  apply edged_app; [apply sqlEscapeId_edged|now apply escape_scalar_edged].
Qed.

Lemma scalar_defined (o : props) :
  forallb (fun p => scalar (snd p)) o = true ->
  utils.findKeysForUndefinedValue o = []
  /\ forallb (fun p => negb (utils.isPureConditionObject (snd p))) o = true.
Proof.
  unfold utils.findKeysForUndefinedValue.
  induction o as [|[k v] o IH]; intros H; [now split|].
  cbn [forallb snd] in H. apply andb_prop in H as [Hv H].
  destruct (IH H) as [IH1 IH2]. cbn [List.filter forallb snd].
  rewrite IH2. destruct v; try discriminate; now split.
Qed.

End ExprMapping.

(** X27.  In an [Expression] the fragments of a mapping are separated by a
    comma, the array of fragments being converted to a string; an empty
    mapping adds the connector alone, and the expression then builds to the
    connector between parentheses. *)
Theorem X27_expression_mapping_fragments (o : props) :
  distinct (Obj.keys o) = true ->
  forallb (fun p => scalar (snd p)) o = true -> o <> [] ->
  rbind (Expression.and_ (Expression.Mapping o) utils.NoValues
           Expression.new) Expression.build
  = Ok ("(" +:+ JS.join "," (map assignment o) +:+ ")")
  /\ rbind (Expression.and_ (Expression.Mapping []) utils.NoValues
              Expression.new) Expression.build
     = Ok "(AND)".
Proof.
  intros Hd Hs Hn. split; [|reflexivity].
  destruct (scalar_defined o Hs) as [Hu Hp].
  unfold Expression.and_, Expression.combineCondition.
  cbn [Expression._type Expression.new String.eqb orb assert rbind].
  rewrite Hu. cbn [length Nat.ltb Nat.leb assert rbind].
  rewrite sqlConditionStrings_plain by assumption.
  cbn [rbind Expression._data].
  assert (E : edged (JS.join "," (map assignment o))).
  { apply edged_join; [now destruct o|].
    apply List.Forall_forall. intros x Hx.
    apply in_map_iff in Hx as (p & <- & Hp').
    apply assignment_edged. rewrite forallb_forall in Hs. now apply Hs. }
  change (Expression._data Expression.new +:+ " " +:+ "AND" +:+ " "
            +:+ JS.join "," (map assignment o))
    with (" " +:+ "AND " +:+ JS.join "," (map assignment o)).
  rewrite build_after_and by exact E.
  destruct o as [|[k v] o]; [congruence|].
  destruct E as (c & r & E & _). 
  assert (S : JS.startsWith "OR " (JS.join "," (map assignment ((k, v) :: o)))
              = false).
  { destruct o; reflexivity. }
  now rewrite S.
Qed.

Lemma X27_expression_mapping_fragments_witness :
  rbind (Expression.and_
           (Expression.Mapping [("a", VNum 1); ("b", VStr "x")])
           utils.NoValues Expression.new) Expression.build
  = Ok ("(" +:+ JS.join ","
                  (map assignment [("a", VNum 1); ("b", VStr "x")]) +:+ ")").
Proof.
  apply (proj1 (X27_expression_mapping_fragments
                  [("a", VNum 1); ("b", VStr "x")] eq_refl eq_refl
                  ltac:(discriminate))).
Defined.

(** ** [deepCopy] and [clone] *)

Section Copies.

(** the loops of [plain] and [jsonCopy] over the properties of an object *)
Lemma plain_props (o : props) :
  plain (VObj o) = forallb (fun p => plain (snd p)) o.
Proof.
  induction o as [|[k x] o IH]; [reflexivity|].
  cbn [forallb snd]. rewrite <- IH. reflexivity.
Qed.

Lemma copy_props_plain (o : props) :
  Forall (fun p => plain (snd p) = true -> jsonCopy (snd p) = snd p) o ->
  forallb (fun p => plain (snd p)) o = true ->
  jsonCopy (VObj o) = VObj o.
Proof.
  induction 1 as [|[k x] o Hx _ IH]; [reflexivity|].
  cbn [forallb snd]. intros H. apply andb_prop in H as [Hp H].
  specialize (IH H). cbn [snd] in Hx. specialize (Hx Hp).
  cbn [jsonCopy] in IH |- *. injection IH as IH.
  destruct x; try discriminate; cbn [jsonCopy] in Hx |- *;
    rewrite ?Hx; now rewrite IH.
Qed.

Lemma plain_copy (v : value) : plain v = true -> jsonCopy v = v.
Proof.
  induction v as [| |b|n|s|s|l IH|o IH|own r IH] using value_induction;
    try reflexivity; try discriminate.
  - cbn [plain jsonCopy]. intros H. f_equal.
    induction IH as [|x l Hx _ IHl]; [reflexivity|].
    cbn [forallb] in H. apply andb_prop in H as [Hp H].
    cbn [map]. rewrite (IHl H). f_equal.
    specialize (Hx Hp). destruct x; try discriminate; exact Hx.
  - intros H. rewrite plain_props in H. now apply copy_props_plain.
Qed.

Lemma copy_props_is_plain (o : props) :
  Forall (fun p => snd p <> VUndefined -> plain (jsonCopy (snd p)) = true)
    o ->
  plain (jsonCopy (VObj o)) = true.
Proof.
  induction 1 as [|[k x] o Hx _ IH]; [reflexivity|].
  cbn [snd] in Hx. cbn [jsonCopy] in IH |- *.
  destruct x; try exact IH;
    (rewrite plain_props in IH |- *; cbn [forallb snd];
     rewrite IH, andb_true_r; now apply Hx).
Qed.

Lemma copy_is_plain (v : value) :
  v <> VUndefined -> plain (jsonCopy v) = true.
Proof.
  induction v as [| |b|n|s|s|l IH|o IH|own r IH] using value_induction;
    try reflexivity; try congruence; intros _.
  - cbn [jsonCopy plain]. induction IH as [|x l Hx _ IHl]; [reflexivity|].
    cbn [map forallb]. rewrite IHl, andb_true_r.
    destruct x; try reflexivity; now apply Hx.
  - now apply copy_props_is_plain.
  - change (jsonCopy (VBuilder own r)) with (jsonCopy (VObj own)).
    now apply copy_props_is_plain.
Qed.

End Copies.

(** X28.  [deepCopy] gives plain data back as it is, and what it returns is
    always plain data: values that are [undefined] are left out of objects
    and become [null] in arrays, builders and raw fragments come back as
    objects without their methods. Copying a copy changes nothing. *)
Theorem X28_deepCopy_keeps_plain_data (v : value) :
  (plain v = true -> utils.deepCopy v = v)
  /\ (v <> VUndefined ->
      plain (utils.deepCopy v) = true
      /\ utils.deepCopy (utils.deepCopy v) = utils.deepCopy v).
Proof.
  unfold utils.deepCopy. split; [apply plain_copy|].
  intros H. pose proof (copy_is_plain v H) as Hp.
  split; [exact Hp|now apply plain_copy].
Qed.

Lemma X28_deepCopy_keeps_plain_data_witness :
  utils.deepCopy (VObj [("a", VArr [VNum 1; VNull]); ("b", VStr "x")])
  = VObj [("a", VArr [VNum 1; VNull]); ("b", VStr "x")]
  /\ plain (utils.deepCopy
              (VObj [("q", VBuilder [] BuildOther); ("u", VUndefined)]))
     = true.
Proof.
  split.
  - apply (proj1 (X28_deepCopy_keeps_plain_data
                    (VObj [("a", VArr [VNum 1; VNull]); ("b", VStr "x")]))).
    reflexivity.
  - apply (proj2 (X28_deepCopy_keeps_plain_data
                    (VObj [("q", VBuilder [] BuildOther);
                           ("u", VUndefined)]))).
    discriminate.
Defined.

Section ClonePlain.
Import QueryBuilder.

Lemma jsonCopyArray_plain (l : list value) :
  forallb plain l = true -> jsonCopyArray l = l.
Proof.
  intros H. unfold jsonCopyArray.
  now rewrite (plain_copy (VArr l) H).
Qed.

Lemma aliases_copy (m : gmap string (option string)) :
  (forall a, m !! a <> Some None) -> Some <$> omap (fun v => v) m = m.
Proof.
  intros H. apply map_eq. intros a.
  rewrite lookup_fmap, lookup_omap. specialize (H a).
  destruct (m !! a) as [[x|]|]; [reflexivity|congruence|reflexivity].
Qed.

Lemma deepCopyData_plain (d : Data.t) : plainData d -> deepCopyData d = d.
Proof.
  intros (Hc & Hv & Ha). unfold deepCopyData.
  rewrite (jsonCopyArray_plain _ Hc), (jsonCopyArray_plain _ Hv).
  rewrite (aliases_copy _ Ha). now destruct d.
Qed.

End ClonePlain.

(** X29.  The clone of a builder whose state holds plain data is a new
    instance in the state of the original: at that point [build()] on the
    clone returns what [build()] on the original returns. *)
Theorem X29_clone_of_plain_builder
    (σ : gmap nat Data.t) (b : nat) (d : Data.t) :
  σ !! b = Some d -> plainData d ->
  exists σ1 c,
    Store.clone b σ = (σ1, Some c)
    /\ c <> b /\ σ !! c = None
    /\ σ1 !! c = Some d /\ σ1 !! b = Some d
    /\ Store.built c σ1 = Store.built b σ1.
Proof.
  intros Hb Hp.
  destruct (Store.clone b σ) as [σ1 oc] eqn:E.
  assert (exists c, oc = Some c) as [c ->].
  { unfold Store.clone in E. rewrite Hb in E. injection E as _ <-. eauto. }
  exists σ1, c. split; [reflexivity|].
  destruct (clone_fresh b c σ σ1 E) as (Hc & Hne & (d' & Hd' & Hcopy) & Ho).
  assert (d' = d) as -> by congruence.
  rewrite (deepCopyData_plain d Hp) in Hcopy.
  assert (H1 : σ1 !! b = Some d) by (rewrite Ho; [exact Hb|congruence]).
  repeat split; try assumption.
  unfold Store.built, Store.invoke. now rewrite Hcopy, H1.
Qed.

Lemma X29_clone_of_plain_builder_witness :
  exists σ1 c,
    Store.clone 0 (<[0%nat := Data.with_conditions [VStr "a"] Data.new]> ∅)
    = (σ1, Some c)
    /\ c <> 0%nat
    /\ (<[0%nat := Data.with_conditions [VStr "a"] Data.new]> ∅
          : gmap nat Data.t) !! c = None
    /\ σ1 !! c = Some (Data.with_conditions [VStr "a"] Data.new)
    /\ σ1 !! 0%nat = Some (Data.with_conditions [VStr "a"] Data.new)
    /\ Store.built c σ1 = Store.built 0 σ1.
Proof.
  apply (X29_clone_of_plain_builder
           (<[0%nat := Data.with_conditions [VStr "a"] Data.new]> ∅) 0
           (Data.with_conditions [VStr "a"] Data.new)).
  - apply lookup_insert_eq.
  - split; [reflexivity|]. split; [reflexivity|].
    intros a. cbn. rewrite lookup_empty. discriminate.
Defined.

(** ** [zeroPad] *)

Section Pad.

Lemma zeros_snoc (m : nat) (x : string) :
  zeros m +:+ String "0" x = String "0" (zeros m +:+ x).
Proof.
  induction m as [|m IH]; [reflexivity|].
  cbn [zeros]. change (String "0" (zeros m) +:+ String "0" x)
    with (String "0" (zeros m +:+ String "0" x)).
  now rewrite IH.
Qed.

Lemma length_zeros (m : nat) : String.length (zeros m) = m.
Proof. induction m as [|m IH]; [reflexivity|]. cbn. now rewrite IH. Qed.

Lemma zeroPadLoop_enough (fuel : nat) (number : string) (len : nat) :
  (len - String.length number <= fuel)%nat ->
  zeroPadLoop fuel number len
  = Some (zeros (len - String.length number) +:+ number).
Proof.
  revert number. induction fuel as [|k IH]; intros number H.
  - cbn [zeroPadLoop].
    destruct (String.length number <? len)%nat eqn:E.
    + apply Nat.ltb_lt in E. lia.
    + apply Nat.ltb_ge in E.
      replace (len - String.length number)%nat with O by lia. reflexivity.
  - cbn [zeroPadLoop].
    destruct (String.length number <? len)%nat eqn:E.
    + apply Nat.ltb_lt in E. rewrite IH by (cbn; lia).
      change (String.length ("0" +:+ number))
        with (S (String.length number)).
      replace (len - String.length number)%nat
        with (S (len - S (String.length number))) by lia.
      cbn [zeros]. f_equal. apply zeros_snoc.
    + apply Nat.ltb_ge in E.
      replace (len - String.length number)%nat with O by lia. reflexivity.
Qed.

End Pad.

(** X30.  [zeroPad] returns, for every number and length: it puts zeros
    before the decimal text of the number until the text has the length
    asked for, and leaves a text that is long enough as it is. It never cuts
    the number. *)
Theorem X30_zeroPad_pads (num : Z) (len : nat) :
  zeroPad num len
  = Some (zeros (len - String.length (JS.ofZ num)) +:+ JS.ofZ num)
  /\ String.length
       (zeros (len - String.length (JS.ofZ num)) +:+ JS.ofZ num)
     = Nat.max len (String.length (JS.ofZ num)).
Proof.
  split.
  - unfold zeroPad. apply zeroPadLoop_enough. lia.
  - rewrite length_append, length_zeros. lia.
Qed.
